(** * Rip_logisticBackend: the request aggregator, the draft line items and
    the distance lookup, embedded from the Go sources.

  - [internal/app/repository/repository.go]: the repository's operations on
    the tables [transport_services], [logistic_requests] and
    [logistic_request_services];
  - the handler file (package [handler]): [calculateDistance],
    [PostDeliveryQuote] and [CalculateLogisticRequestQuote].

  Go's [float64] is Rocq's primitive binary64 [float]; Go's [int] is [Z],
  with the 64-bit wrap-around written out where the code does arithmetic on
  it; a Go [string] is a [string] of its UTF-8 bytes; an [error] is its
  message. *)

From Stdlib Require Import ZArith List String Ascii Bool Lia Sorted.
From Stdlib Require Import PrimFloat FloatOps SpecFloat.
From Stdlib Require Import DecimalString.
Import ListNotations.

Open Scope string_scope.
Open Scope list_scope.
Open Scope Z_scope.

(* ================================================================= *)
(** ** Go runtime: strings, integers, floats *)

Module Go.

(** [int] on the 64-bit targets the server is built for. *)
Definition max_int : Z := 2 ^ 63 - 1.
Definition min_int : Z := - 2 ^ 63.

(** Two's complement wrap-around of a 64-bit result. *)
Definition wrap (z : Z) : Z := (z + 2 ^ 63) mod 2 ^ 64 - 2 ^ 63.

(** [x++] on an [int]. *)
Definition incr (z : Z) : Z := wrap (z + 1).

(** [%d] of [fmt.Errorf]. *)
Definition itoa (z : Z) : string := NilZero.string_of_int (Z.to_int z).

Definition byte_in (lo hi : N) (c : ascii) : bool :=
  (lo <=? N_of_ascii c)%N && (N_of_ascii c <=? hi)%N.

Definition shift_byte (c : ascii) (d : Z) : ascii :=
  ascii_of_N (Z.to_N (Z.of_N (N_of_ascii c) + d)).

Definition byte_D0 : ascii := ascii_of_N 208.
Definition byte_D1 : ascii := ascii_of_N 209.

(** [strings.ToLower] on UTF-8 text in the Latin and Cyrillic alphabets,
    the two the city names are written in: [A-Z] to [a-z], U+0410..U+042F
    to U+0430..U+044F and U+0400..U+040F to U+0450..U+045F; every other
    byte sequence is left as it is. *)
Fixpoint ToLower (s : string) : string :=
  match s with
  | EmptyString => EmptyString
  | String c rest =>
      if byte_in 65 90 c then String (shift_byte c 32) (ToLower rest)
      else if Ascii.eqb c byte_D0 then
        match rest with
        | EmptyString => String c EmptyString
        | String c2 rest2 =>
            if byte_in 144 159 c2
            then String byte_D0 (String (shift_byte c2 32) (ToLower rest2))
            else if byte_in 160 175 c2
            then String byte_D1 (String (shift_byte c2 (-32)) (ToLower rest2))
            else if byte_in 128 143 c2
            then String byte_D1 (String (shift_byte c2 16) (ToLower rest2))
            else String c (ToLower rest)
        end
      else String c (ToLower rest)
  end.

(** The white space [strings.TrimSpace] strips, within ASCII:
    tab, line feed, vertical tab, form feed, carriage return, space. *)
Definition isSpace (c : ascii) : bool :=
  byte_in 9 13 c || Ascii.eqb c " "%char.

Fixpoint trimLeft (s : string) : string :=
  match s with
  | EmptyString => EmptyString
  | String c rest => if isSpace c then trimLeft rest else s
  end.

Fixpoint trimRight (s : string) : string :=
  match s with
  | EmptyString => EmptyString
  | String c rest =>
      let rest' := trimRight rest in
      if isSpace c && String.eqb rest' EmptyString
      then EmptyString
      else String c rest'
  end.

Definition TrimSpace (s : string) : string := trimRight (trimLeft s).

(** UTF-8 text whose code points are all ASCII or in U+0400..U+045F, the
    Cyrillic letters: a byte below 128, or [D0] before a byte of 128..191,
    or [D1] before a byte of 128..159. On such text [ToLower] and
    [TrimSpace] above are the library's: the text is well formed, the
    letters with a lower case are the ones [ToLower] maps, and the only
    white space is the ASCII one. *)
Fixpoint latin_cyrillic (s : string) : bool :=
  match s with
  | EmptyString => true
  | String c rest =>
      if byte_in 0 127 c then latin_cyrillic rest
      else
        match rest with
        | EmptyString => false
        | String c2 rest2 =>
            ((Ascii.eqb c byte_D0 && byte_in 128 191 c2)
             || (Ascii.eqb c byte_D1 && byte_in 128 159 c2))
            && latin_cyrillic rest2
        end
  end.

(** A [map[string]V] literal, read by key. *)
Fixpoint map_get {V : Type} (m : list (string * V)) (k : string) : option V :=
  match m with
  | [] => None
  | (k', v) :: m' => if String.eqb k' k then Some v else map_get m' k
  end.

(** [int(f)] for a float: truncation towards zero. The conversion of a
    value outside the range of [int], of NaN and of the infinities is left
    to the implementation by the language; it is the one of the amd64
    build here, the smallest [int]. *)
Definition float_to_int (f : float) : Z :=
  match Prim2SF f with
  | S754_zero _ => 0
  | S754_finite s m e =>
      let a := if (0 <=? e)%Z then Z.pos m * 2 ^ e else Z.pos m / 2 ^ (- e) in
      let z := if s then - a else a in
      if (min_int <=? z)%Z && (z <=? max_int)%Z then z else min_int
  | _ => min_int
  end.

(** [s += x] from [0.0] over a slice, left to right. *)
Definition fsum (l : list float) : float :=
  fold_left PrimFloat.add l 0%float.

End Go.

(* ================================================================= *)
(** ** Package [ds]: the rows of the three tables *)

Module TransportService.

(** Modelled from the spec: the struct [ds.TransportService] is not among the
    sources; these are the attributes the spec lists for it (identifier,
    name, description, base price, base delivery days), under the field
    names the handlers read ([Name], [Price], [DeliveryDays]). *)
Record t : Type := mk {
  ID : Z;
  Name : string;
  Description : string;
  Price : float;
  DeliveryDays : Z
}.

(** [ds.TransportService{}]. *)
Definition zero : t :=
  {| ID := 0; Name := ""; Description := ""; Price := 0%float; DeliveryDays := 0 |}.

End TransportService.

(** Modelled from the spec: the status constants of package [ds] are not among
    the sources; the spec names the statuses draft, formed, completed and
    rejected, and the handlers spell them this way. *)
Definition StatusDraft : string := "draft".
Definition StatusFormed : string := "formed".
Definition StatusCompleted : string := "completed".
Definition StatusRejected : string := "rejected".

Module LogisticRequest.

(** Modelled from the spec: the struct [ds.LogisticRequest] is not among the
    sources; these are the fields the repository reads and writes. The times
    ([FormedAt], [CompletedAt], [DeletedAt]) are clock readings, [None] for a
    NULL column. *)
Record t : Type := mk {
  ID : Z;
  SessionID : string;
  IsDraft : bool;
  FromCity : string;
  ToCity : string;
  Weight : float;
  Length : float;
  Width : float;
  Height : float;
  TotalCost : float;
  TotalDays : Z;
  Status : string;
  CreatorID : Z;
  ModeratorID : option Z;
  FormedAt : option Z;
  CompletedAt : option Z;
  DeletedAt : option Z
}.

(** [ds.LogisticRequest{}]. *)
Definition zero : t :=
  {| ID := 0; SessionID := ""; IsDraft := false; FromCity := ""; ToCity := "";
     Weight := 0%float; Length := 0%float; Width := 0%float; Height := 0%float;
     TotalCost := 0%float; TotalDays := 0; Status := ""; CreatorID := 0;
     ModeratorID := None; FormedAt := None; CompletedAt := None;
     DeletedAt := None |}.

Definition with_ID (id : Z) (o : t) : t :=
  mk id (SessionID o) (IsDraft o) (FromCity o) (ToCity o) (Weight o)
     (Length o) (Width o) (Height o) (TotalCost o) (TotalDays o) (Status o)
     (CreatorID o) (ModeratorID o) (FormedAt o) (CompletedAt o) (DeletedAt o).

(** The six assignments that end [createCargoLogisticRequestTx]. *)
Definition with_aggregates (days : Z) (cost weight length width height : float)
  (o : t) : t :=
  mk (ID o) (SessionID o) (IsDraft o) (FromCity o) (ToCity o) weight length
     width height cost days (Status o) (CreatorID o) (ModeratorID o)
     (FormedAt o) (CompletedAt o) (DeletedAt o).

(** The assignments of [FormLogisticRequest]. *)
Definition formed (fromCity toCity : string) (weight length width height : float)
  (now : Z) (o : t) : t :=
  mk (ID o) (SessionID o) false fromCity toCity weight length width height
     (TotalCost o) (TotalDays o) StatusFormed (CreatorID o) (ModeratorID o)
     (Some now) (CompletedAt o) (DeletedAt o).

(** [order.TotalCost = totalCost; order.TotalDays = maxDays]. *)
Definition with_totals (cost : float) (days : Z) (o : t) : t :=
  mk (ID o) (SessionID o) (IsDraft o) (FromCity o) (ToCity o) (Weight o)
     (Length o) (Width o) (Height o) cost days (Status o) (CreatorID o)
     (ModeratorID o) (FormedAt o) (CompletedAt o) (DeletedAt o).

(** The last three assignments of [CompleteLogisticRequest]. *)
Definition closed (status : string) (moderatorID now : Z) (o : t) : t :=
  mk (ID o) (SessionID o) (IsDraft o) (FromCity o) (ToCity o) (Weight o)
     (Length o) (Width o) (Height o) (TotalCost o) (TotalDays o) status
     (CreatorID o) (Some moderatorID) (FormedAt o) (Some now) (DeletedAt o).

End LogisticRequest.

Module LogisticRequestService.

(** Modelled from the spec: the struct [ds.LogisticRequestService] is not
    among the sources; its columns are those of
    [ds.DraftLogisticRequestService] (cart.go), which maps the same table,
    and the two [UpdateLogisticRequestService] sets besides
    ([SortOrder], [Comment]). *)
Record t : Type := mk {
  ID : Z;
  LogisticRequestID : Z;
  TransportServiceID : Z;
  Quantity : Z;
  SortOrder : Z;
  Comment : string
}.

Definition with_ID (id : Z) (l : t) : t :=
  mk id (LogisticRequestID l) (TransportServiceID l) (Quantity l)
     (SortOrder l) (Comment l).

Definition with_Quantity (q : Z) (l : t) : t :=
  mk (ID l) (LogisticRequestID l) (TransportServiceID l) q
     (SortOrder l) (Comment l).

(** [ds.LogisticRequestService{LogisticRequestID: .., TransportServiceID: ..,
    Quantity: 1}], as both [Create] calls of the repository build it. *)
Definition new (requestID serviceID : Z) : t :=
  mk 0 requestID serviceID 1 0 "".

(** [logistic_request_id = ? AND transport_service_id = ?]. *)
Definition has_key (requestID serviceID : Z) (l : t) : bool :=
  (LogisticRequestID l =? requestID) && (TransportServiceID l =? serviceID).

End LogisticRequestService.

(* ================================================================= *)
(** ** Package [calculator] *)

Module Quote.

(** The result of [CalculateDelivery], with the fields its callers read. *)
Record t : Type := mk {
  DeliveryDays : Z;
  TotalCost : float;
  Distance : float;
  Volume : float;
  IsValid : bool;
  ErrorMessage : string
}.

End Quote.

(** The calculator the repository and the handlers obtain from
    [calculator.NewDeliveryCalculator()]; the package is not among the
    sources, so its one method is an interface here. *)
Class DeliveryCalculator : Type := {
  CalculateDelivery :
    TransportService.t -> string -> string ->
    float -> float -> float -> float -> Quote.t
}.

(** [ds.GetCreatorID()], the system user that owns guest drafts; the function
    is not among the sources. *)
Class SystemCreator : Type := { GetCreatorID : Z }.

(* ================================================================= *)
(** ** The database *)

(** The three tables, each in primary-key order (keys are handed out
    increasingly and new rows are appended), and the two sequences the keys
    come from. [services] holds the rows [GetTransportService] can see.
    The database refuses an insert of a line item that repeats a
    (request, service) pair, which its unique index forbids, and accepts
    every other write: other constraint violations and lost connections are
    outside the model. *)
Record Store : Type := mkStore {
  services : list TransportService.t;
  requests : list LogisticRequest.t;
  lines : list LogisticRequestService.t;
  request_seq : Z;
  line_seq : Z
}.

(** A call that returns [(T, error)]. *)
Inductive result (A : Type) : Type :=
| Ok (a : A)
| Err (e : string).
Arguments Ok {A} a.
Arguments Err {A} e.

(** A repository method: it reads and writes the database and returns a value
    or an error. *)
Definition DB (A : Type) : Type := Store -> result A * Store.

Definition ret {A : Type} (a : A) : DB A := fun st => (Ok a, st).

Definition fail {A : Type} (e : string) : DB A := fun st => (Err e, st).

Definition bind {A B : Type} (m : DB A) (k : A -> DB B) : DB B :=
  fun st =>
    match m st with
    | (Ok a, st') => k a st'
    | (Err e, st') => (Err e, st')
    end.

Declare Scope db_scope.
Delimit Scope db_scope with db.
Notation "x <- m ;; k" := (bind m (fun x => k))
  (at level 61, m at next level, right associativity) : db_scope.
Notation "m ;;; k" := (bind m (fun _ => k))
  (at level 61, right associativity) : db_scope.
Open Scope db_scope.

(** [v, err := f()]: the caller looks at the error itself. *)
Definition attempt {A : Type} (m : DB A) : DB (result A) :=
  fun st => let (r, st') := m st in (Ok r, st').

Definition get_store : DB Store := fun st => (Ok st, st).

(** [ROLLBACK]: the rows are those of the snapshot; numbers already drawn
    from a sequence are not handed out again. *)
Definition rollback (snapshot now : Store) : Store :=
  mkStore (services snapshot) (requests snapshot) (lines snapshot)
          (request_seq now) (line_seq now).

(** [db.Transaction(func(tx) error {...})]: commit when the function returns
    nil, roll back and return its error otherwise. *)
Definition Transaction {A : Type} (body : DB A) : DB A :=
  fun st =>
    match body st with
    | (Ok a, st') => (Ok a, st')
    | (Err e, st') => (Err e, rollback st st')
    end.

(** The database a call leaves behind. *)
Definition after {A : Type} (m : DB A) (st : Store) : Store := snd (m st).

(** Every key of [logistic_request_services] was drawn from its sequence. *)
Definition line_keys_fresh (st : Store) : Prop :=
  Forall (fun l => LogisticRequestService.ID l < line_seq st) (lines st).

(** Every key of [logistic_requests] was drawn from its sequence. *)
Definition request_keys_fresh (st : Store) : Prop :=
  Forall (fun o => LogisticRequest.ID o < request_seq st) (requests st).

(** The keys in use were all drawn, in both tables. *)
Definition keys_fresh (st : Store) : Prop :=
  request_keys_fresh st /\ line_keys_fresh st.

(** Both tables are in strictly increasing order of their keys. *)
Definition keys_ordered (st : Store) : Prop :=
  StronglySorted Z.lt (map LogisticRequest.ID (requests st))
  /\ StronglySorted Z.lt (map LogisticRequestService.ID (lines st)).

(** The tables as the database keeps them. *)
Definition well_keyed (st : Store) : Prop := keys_fresh st /\ keys_ordered st.

(** Every line item belongs to a request whose key was drawn. *)
Definition line_requests_drawn (st : Store) : Prop :=
  Forall (fun l => LogisticRequestService.LogisticRequestID l < request_seq st)
         (lines st).

Module Gorm.

Definition ErrRecordNotFound : string := "record not found".

(** [Where(cond).First(&row)] on [logistic_requests]. *)
Definition first_request (cond : LogisticRequest.t -> bool) : DB LogisticRequest.t :=
  fun st =>
    match find cond (requests st) with
    | Some o => (Ok o, st)
    | None => (Err ErrRecordNotFound, st)
    end.

(** [Where(cond).First(&row)] on [logistic_request_services]. *)
Definition first_line (cond : LogisticRequestService.t -> bool)
  : DB LogisticRequestService.t :=
  fun st =>
    match find cond (lines st) with
    | Some l => (Ok l, st)
    | None => (Err ErrRecordNotFound, st)
    end.

(** [Where("id = ?", id).First(&service)] on [transport_services]. *)
Definition first_service (id : Z) : DB TransportService.t :=
  fun st =>
    match find (fun s => TransportService.ID s =? id) (services st) with
    | Some s => (Ok s, st)
    | None => (Err ErrRecordNotFound, st)
    end.

(** [Create(&order)]: the row gets the next key and is inserted; the struct
    comes back with its [ID] set. *)
Definition create_request (o : LogisticRequest.t) : DB LogisticRequest.t :=
  fun st =>
    let o' := LogisticRequest.with_ID (request_seq st) o in
    (Ok o', mkStore (services st) (requests st ++ [o']) (lines st)
                    (request_seq st + 1) (line_seq st)).

(** What the database answers to an insert that repeats a key of a unique
    index. The driver's text names the constraint, which is not among the
    sources; no statement relies on the text. *)
Definition ErrDuplicatedKey : string :=
  "duplicate key value violates unique constraint".

(** [Create(&os)] on [logistic_request_services]: the next key is drawn and
    the row inserted. The table has a unique index on
    [(logistic_request_id, transport_service_id)], the conflict target of the
    guest upsert; it refuses a second row for one pair, and the key drawn for
    that row is lost. *)
Definition create_line (l : LogisticRequestService.t)
  : DB LogisticRequestService.t :=
  fun st =>
    let l' := LogisticRequestService.with_ID (line_seq st) l in
    if existsb (LogisticRequestService.has_key
                  (LogisticRequestService.LogisticRequestID l)
                  (LogisticRequestService.TransportServiceID l)) (lines st)
    then (Err ErrDuplicatedKey,
          mkStore (services st) (requests st) (lines st)
                  (request_seq st) (line_seq st + 1))
    else (Ok l', mkStore (services st) (requests st) (lines st ++ [l'])
                         (request_seq st) (line_seq st + 1)).

(** [Save(&order)] of a struct with a key: every column of the row with that
    key is updated; without such a row the struct is inserted. *)
Definition save_request (o : LogisticRequest.t) : DB unit :=
  fun st =>
    let same r := LogisticRequest.ID r =? LogisticRequest.ID o in
    let rows :=
      if existsb same (requests st)
      then map (fun r => if same r then o else r) (requests st)
      else requests st ++ [o] in
    (Ok tt, mkStore (services st) rows (lines st) (request_seq st) (line_seq st)).

Definition save_line (l : LogisticRequestService.t) : DB unit :=
  fun st =>
    let same r := LogisticRequestService.ID r =? LogisticRequestService.ID l in
    let rows :=
      if existsb same (lines st)
      then map (fun r => if same r then l else r) (lines st)
      else lines st ++ [l] in
    (Ok tt, mkStore (services st) (requests st) rows (request_seq st) (line_seq st)).

(** [Delete(&orderService)]: the row with the struct's key goes. *)
Definition delete_line (l : LogisticRequestService.t) : DB unit :=
  fun st =>
    let same r := LogisticRequestService.ID r =? LogisticRequestService.ID l in
    (Ok tt, mkStore (services st) (requests st)
                    (filter (fun r => negb (same r)) (lines st))
                    (request_seq st) (line_seq st)).

(** [Preload("Services")]: the line items of a request. *)
Definition preload_services (requestID : Z) (st : Store)
  : list LogisticRequestService.t :=
  filter (fun l => LogisticRequestService.LogisticRequestID l =? requestID)
         (lines st).

(** [Preload("Services.TransportService")]: each line item with the service
    it names, the zero struct when there is no such row. *)
Definition preload_transport_service (st : Store) (l : LogisticRequestService.t)
  : TransportService.t :=
  match find (fun s => TransportService.ID s
                       =? LogisticRequestService.TransportServiceID l)
             (services st) with
  | Some s => s
  | None => TransportService.zero
  end.

End Gorm.

Module Sql.

Import LogisticRequestService.

(** [INSERT INTO logistic_request_services(..) VALUES ($1, $2, 1)
    ON CONFLICT (logistic_request_id, transport_service_id)
    DO UPDATE SET quantity = logistic_request_services.quantity + 1]:
    the row that holds the key, the one the unique index of the conflict
    target admits, has its quantity raised; a key that is free is inserted.
    The arithmetic of the statements is the database's, exact on the
    column's values. *)
Fixpoint raise_first (requestID serviceID : Z) (rows : list t) : list t :=
  match rows with
  | [] => []
  | l :: rows' =>
      if has_key requestID serviceID l
      then with_Quantity (Quantity l + 1) l :: rows'
      else l :: raise_first requestID serviceID rows'
  end.

Definition insert_on_conflict_increment (requestID serviceID : Z) : DB unit :=
  fun st =>
    if existsb (has_key requestID serviceID) (lines st)
    then (Ok tt, mkStore (services st) (requests st)
                         (raise_first requestID serviceID (lines st))
                         (request_seq st) (line_seq st))
    else (Ok tt, mkStore (services st) (requests st)
                         (lines st ++ [with_ID (line_seq st) (new requestID serviceID)])
                         (request_seq st) (line_seq st + 1)).

(** [SELECT quantity FROM .. WHERE logistic_request_id=$1 AND
    transport_service_id=$2] with [QueryRow(..).Scan(&qty)]:
    [None] is [sql.ErrNoRows]. *)
Definition select_quantity (requestID serviceID : Z) (st : Store) : option Z :=
  option_map Quantity (find (has_key requestID serviceID) (lines st)).

(** [UPDATE .. SET quantity = quantity - 1 WHERE ..]. *)
Definition update_decrement (requestID serviceID : Z) : DB unit :=
  fun st =>
    (Ok tt, mkStore (services st) (requests st)
              (map (fun l => if has_key requestID serviceID l
                             then with_Quantity (Quantity l - 1) l else l)
                   (lines st))
              (request_seq st) (line_seq st)).

(** [DELETE FROM .. WHERE ..]. *)
Definition delete_where (requestID serviceID : Z) : DB unit :=
  fun st =>
    (Ok tt, mkStore (services st) (requests st)
              (filter (fun l => negb (has_key requestID serviceID l)) (lines st))
              (request_seq st) (line_seq st)).

End Sql.

(* ================================================================= *)
(** ** Package [repository] *)

Module CargoLogisticRequestItem.

Record t : Type := mk {
  TransportServiceID : Z;
  FromCity : string;
  ToCity : string;
  Length : float;
  Width : float;
  Height : float;
  Weight : float
}.

End CargoLogisticRequestItem.

Module Repository.

Import CargoLogisticRequestItem.

(** The running aggregates of [createCargoLogisticRequestTx]. *)
Record Aggregates : Type := mkAggregates {
  maxDays : Z;
  totalCost : float;
  totalWeight : float;
  totalLength : float;
  totalWidth : float;
  totalHeight : float
}.

Definition no_aggregates : Aggregates :=
  mkAggregates 0 0%float 0%float 0%float 0%float 0%float.

(** [if res.DeliveryDays > maxDays { maxDays = res.DeliveryDays }]. *)
Definition raise_days (days maxDays : Z) : Z :=
  if days >? maxDays then days else maxDays.

(** The six updates that end the body of the loop. *)
Definition accumulate (acc : Aggregates) (res : Quote.t)
  (it : CargoLogisticRequestItem.t) : Aggregates :=
  mkAggregates (raise_days (Quote.DeliveryDays res) (maxDays acc))
               (totalCost acc + Quote.TotalCost res)%float
               (totalWeight acc + Weight it)%float
               (totalLength acc + Length it)%float
               (totalWidth acc + Width it)%float
               (totalHeight acc + Height it)%float.

Definition deleted_at_is_null (o : LogisticRequest.t) : bool :=
  match LogisticRequest.DeletedAt o with None => true | Some _ => false end.

Section WithCalculator.

Context {calc : DeliveryCalculator} {sys : SystemCreator}.

Definition GetTransportService (id : Z) : DB TransportService.t :=
  r <- attempt (Gorm.first_service id) ;;
  match r with
  | Ok service => ret service
  | Err _ => fail "услуга не найдена"
  end.

(** The quote of one item against the service row [svc]. *)
Definition quote_item (svc : TransportService.t) (it : CargoLogisticRequestItem.t)
  : Quote.t :=
  CalculateDelivery svc (FromCity it) (ToCity it)
                    (Length it) (Width it) (Height it) (Weight it).

(** The [for _, it := range items] loop. The service is read through [r.db],
    outside the transaction; the transaction writes no service row, so the
    read sees the same rows. *)
Fixpoint add_items (orderID : Z) (items : list CargoLogisticRequestItem.t)
  (acc : Aggregates) : DB Aggregates :=
  match items with
  | [] => ret acc
  | it :: rest =>
      r <- attempt (GetTransportService (TransportServiceID it)) ;;
      match r with
      | Err _ =>
          fail ("service " ++ Go.itoa (TransportServiceID it) ++ " not found")%string
      | Ok svc =>
          let res := quote_item svc it in
          if negb (Quote.IsValid res) then fail (Quote.ErrorMessage res)
          else
            Gorm.create_line
              (LogisticRequestService.new orderID (TransportServiceID it)) ;;;
            add_items orderID rest (accumulate acc res it)
      end
  end.

(** The draft row the transaction starts from. *)
Definition cargo_order (first : CargoLogisticRequestItem.t) (creatorID : Z)
  : LogisticRequest.t :=
  {| LogisticRequest.ID := 0;
     LogisticRequest.SessionID := "guest";
     LogisticRequest.IsDraft := true;
     LogisticRequest.FromCity := FromCity first;
     LogisticRequest.ToCity := ToCity first;
     LogisticRequest.Weight := 0%float;
     LogisticRequest.Length := 0%float;
     LogisticRequest.Width := 0%float;
     LogisticRequest.Height := 0%float;
     LogisticRequest.TotalCost := 0%float;
     LogisticRequest.TotalDays := 0;
     LogisticRequest.Status := StatusDraft;
     LogisticRequest.CreatorID := creatorID;
     LogisticRequest.ModeratorID := None;
     LogisticRequest.FormedAt := None;
     LogisticRequest.CompletedAt := None;
     LogisticRequest.DeletedAt := None |}.

(** [items[0]] of an empty slice panics; the transaction then rolls back and
    the panic goes up, here as an error of that text. *)
Definition createCargoLogisticRequestTx
  (items : list CargoLogisticRequestItem.t) (creatorID : Z) : DB Z :=
  Transaction
    match items with
    | [] => fail "runtime error: index out of range [0] with length 0"
    | first :: _ =>
        order <- Gorm.create_request (cargo_order first creatorID) ;;
        acc <- add_items (LogisticRequest.ID order) items no_aggregates ;;
        Gorm.save_request
          (LogisticRequest.with_aggregates
             (maxDays acc) (totalCost acc) (totalWeight acc)
             (totalLength acc) (totalWidth acc) (totalHeight acc) order) ;;;
        ret (LogisticRequest.ID order)
    end.

Definition CreateCargoLogisticRequest
  (items : list CargoLogisticRequestItem.t) (creatorID : Z) : DB Z :=
  if (List.length items =? 0)%nat then fail "no items provided"
  else createCargoLogisticRequestTx items creatorID.

(** [ds.LogisticRequest{CreatorID: creatorID, Status: ds.StatusDraft,
    IsDraft: true}]. *)
Definition new_draft (creatorID : Z) : LogisticRequest.t :=
  {| LogisticRequest.ID := 0;
     LogisticRequest.SessionID := "";
     LogisticRequest.IsDraft := true;
     LogisticRequest.FromCity := "";
     LogisticRequest.ToCity := "";
     LogisticRequest.Weight := 0%float;
     LogisticRequest.Length := 0%float;
     LogisticRequest.Width := 0%float;
     LogisticRequest.Height := 0%float;
     LogisticRequest.TotalCost := 0%float;
     LogisticRequest.TotalDays := 0;
     LogisticRequest.Status := StatusDraft;
     LogisticRequest.CreatorID := creatorID;
     LogisticRequest.ModeratorID := None;
     LogisticRequest.FormedAt := None;
     LogisticRequest.CompletedAt := None;
     LogisticRequest.DeletedAt := None |}.

Definition CreateDraftLogisticRequest (creatorID : Z) : DB LogisticRequest.t :=
  Gorm.create_request (new_draft creatorID).

(** [now] is the reading of [time.Now()]. *)
Definition FormLogisticRequest (orderID : Z) (fromCity toCity : string)
  (weight length width height : float) (now : Z) : DB unit :=
  r <- attempt (Gorm.first_request (fun o => LogisticRequest.ID o =? orderID)) ;;
  match r with
  | Err _ => fail "заявка не найдена"
  | Ok order =>
      st <- get_store ;;
      let Services := Gorm.preload_services (LogisticRequest.ID order) st in
      if negb (LogisticRequest.Status order =? StatusDraft)%string
      then fail "можно формировать только черновики"
      else if (fromCity =? "")%string || (toCity =? "")%string
              || (weight <=? 0)%float || (length <=? 0)%float
              || (width <=? 0)%float || (height <=? 0)%float
      then fail "не заполнены обязательные поля: города и параметры груза"
      else if (List.length Services =? 0)%nat
      then fail "в заявке нет услуг"
      else Gorm.save_request
             (LogisticRequest.formed fromCity toCity weight length width height
                                     now order)
  end.

(** One turn of the loop that recomputes the totals when a request is
    completed: a valid quote adds its cost and may raise the days, an invalid
    one is passed over. *)
Definition recompute_step (order : LogisticRequest.t) (acc : float * Z)
  (orderService : LogisticRequestService.t * TransportService.t) : float * Z :=
  let res := CalculateDelivery (snd orderService)
               (LogisticRequest.FromCity order) (LogisticRequest.ToCity order)
               (LogisticRequest.Length order) (LogisticRequest.Width order)
               (LogisticRequest.Height order) (LogisticRequest.Weight order) in
  if Quote.IsValid res
  then ((fst acc + Quote.TotalCost res)%float,
        raise_days (Quote.DeliveryDays res) (snd acc))
  else acc.

Definition recompute_totals (order : LogisticRequest.t)
  (Services : list (LogisticRequestService.t * TransportService.t)) : float * Z :=
  fold_left (recompute_step order) Services (0%float, 0).

(** [order.Services] after [Preload("Services.TransportService")]. *)
Definition loaded_services (st : Store) (order : LogisticRequest.t)
  : list (LogisticRequestService.t * TransportService.t) :=
  map (fun l => (l, Gorm.preload_transport_service st l))
      (Gorm.preload_services (LogisticRequest.ID order) st).

Definition CompleteLogisticRequest (orderID : Z) (status : string)
  (moderatorID : Z) (now : Z) : DB unit :=
  if negb (status =? StatusCompleted)%string && negb (status =? StatusRejected)%string
  then fail "неверный статус для завершения"
  else
    r <- attempt (Gorm.first_request (fun o => LogisticRequest.ID o =? orderID)) ;;
    match r with
    | Err _ => fail "заявка не найдена"
    | Ok order =>
        st <- get_store ;;
        let Services := loaded_services st order in
        if negb (LogisticRequest.Status order =? StatusFormed)%string
        then fail "можно завершать только сформированные заявки"
        else
          let order :=
            if (status =? StatusCompleted)%string
            then let totals := recompute_totals order Services in
                 LogisticRequest.with_totals (fst totals) (snd totals) order
            else order in
          Gorm.save_request (LogisticRequest.closed status moderatorID now order)
    end.

(** The draft of a user, as [GetCartIcon] looks it up. *)
Definition is_draft_of (creatorID : Z) (o : LogisticRequest.t) : bool :=
  (LogisticRequest.CreatorID o =? creatorID)
  && (LogisticRequest.Status o =? StatusDraft)%string
  && deleted_at_is_null o.

(** A draft that was just created comes back without [Services], so its
    count is the length of a nil slice. *)
Definition GetCartIcon (creatorID : Z) : DB (Z * Z) :=
  r <- attempt (Gorm.first_request (is_draft_of creatorID)) ;;
  match r with
  | Ok order =>
      st <- get_store ;;
      let Services := Gorm.preload_services (LogisticRequest.ID order) st in
      ret (LogisticRequest.ID order, Z.of_nat (List.length Services))
  | Err _ =>
      order <- CreateDraftLogisticRequest creatorID ;;
      ret (LogisticRequest.ID order,
           Z.of_nat (List.length (@nil LogisticRequestService.t)))
  end.

(** [id = ? AND status = ?], with [ds.StatusDraft]. *)
Definition draft_with_key (orderID : Z) (o : LogisticRequest.t) : bool :=
  (LogisticRequest.ID o =? orderID)
  && (LogisticRequest.Status o =? StatusDraft)%string.

Definition AddServiceToLogisticRequest (orderID serviceID : Z) : DB unit :=
  r <- attempt (Gorm.first_request (draft_with_key orderID)) ;;
  match r with
  | Err _ => fail "заявка не найдена или не является черновиком"
  | Ok _ =>
      s <- attempt (GetTransportService serviceID) ;;
      match s with
      | Err _ => fail "услуга не найдена"
      | Ok _ =>
          e <- attempt (Gorm.first_line
                          (LogisticRequestService.has_key orderID serviceID)) ;;
          match e with
          | Ok existing =>
              Gorm.save_line
                (LogisticRequestService.with_Quantity
                   (Go.incr (LogisticRequestService.Quantity existing)) existing)
          | Err _ =>
              Gorm.create_line (LogisticRequestService.new orderID serviceID) ;;;
              ret tt
          end
      end
  end.

Definition RemoveServiceFromLogisticRequest (orderID serviceID : Z) : DB unit :=
  e <- attempt (Gorm.first_line
                  (LogisticRequestService.has_key orderID serviceID)) ;;
  match e with
  | Err _ => fail "услуга не найдена в заявке"
  | Ok orderService => Gorm.delete_line orderService
  end.

Definition UpdateLogisticRequestService (orderID serviceID : Z)
  (quantity orderNum : Z) (comment : string) : DB unit :=
  e <- attempt (Gorm.first_line
                  (LogisticRequestService.has_key orderID serviceID)) ;;
  match e with
  | Err _ => fail "услуга не найдена в заявке"
  | Ok orderService =>
      Gorm.save_line
        (LogisticRequestService.mk
           (LogisticRequestService.ID orderService)
           (LogisticRequestService.LogisticRequestID orderService)
           (LogisticRequestService.TransportServiceID orderService)
           quantity orderNum comment)
  end.

(** The draft of a session, as [ensureGuestDraftLogisticRequest] looks it up. *)
Definition is_guest_draft_of (sessionID : string) (o : LogisticRequest.t) : bool :=
  (LogisticRequest.SessionID o =? sessionID)%string
  && Bool.eqb (LogisticRequest.IsDraft o) true
  && deleted_at_is_null o.

(** [ds.LogisticRequest{SessionID: sessionID, IsDraft: true,
    CreatorID: ds.GetCreatorID(), Status: ds.StatusDraft}]. *)
Definition new_guest_draft (sessionID : string) : LogisticRequest.t :=
  {| LogisticRequest.ID := 0;
     LogisticRequest.SessionID := sessionID;
     LogisticRequest.IsDraft := true;
     LogisticRequest.FromCity := "";
     LogisticRequest.ToCity := "";
     LogisticRequest.Weight := 0%float;
     LogisticRequest.Length := 0%float;
     LogisticRequest.Width := 0%float;
     LogisticRequest.Height := 0%float;
     LogisticRequest.TotalCost := 0%float;
     LogisticRequest.TotalDays := 0;
     LogisticRequest.Status := StatusDraft;
     LogisticRequest.CreatorID := GetCreatorID;
     LogisticRequest.ModeratorID := None;
     LogisticRequest.FormedAt := None;
     LogisticRequest.CompletedAt := None;
     LogisticRequest.DeletedAt := None |}.

Definition ensureGuestDraftLogisticRequest (sessionID : string) : DB Z :=
  r <- attempt (Gorm.first_request (is_guest_draft_of sessionID)) ;;
  match r with
  | Ok order => ret (LogisticRequest.ID order)
  | Err _ =>
      order <- Gorm.create_request (new_guest_draft sessionID) ;;
      ret (LogisticRequest.ID order)
  end.

Definition AddTransportServiceToGuestDraftLogisticRequest (serviceID : Z)
  : DB unit :=
  s <- attempt (GetTransportService serviceID) ;;
  match s with
  | Err _ => fail "услуга не найдена"
  | Ok _ =>
      orderID <- ensureGuestDraftLogisticRequest "guest" ;;
      Sql.insert_on_conflict_increment orderID serviceID
  end.

Definition RemoveTransportServiceFromGuestDraftLogisticRequest (serviceID : Z)
  : DB unit :=
  orderID <- ensureGuestDraftLogisticRequest "guest" ;;
  st <- get_store ;;
  match Sql.select_quantity orderID serviceID st with
  | None => fail "услуга не найдена в черновике заявки"
  | Some qty =>
      if qty >? 1 then Sql.update_decrement orderID serviceID
      else Sql.delete_where orderID serviceID
  end.

End WithCalculator.

End Repository.

(* ================================================================= *)
(** ** Package [handler] *)

Module Handler.

Open Scope float_scope.

(** The literal [distances] of [calculateDistance]. *)
Definition distances : list (string * list (string * float)) :=
  [ ("москва",
      [ ("санкт-петербург", 635); ("спб", 635); ("екатеринбург", 1416);
        ("новосибирск", 3354); ("красноярск", 4205); ("иркутск", 5152);
        ("владивосток", 9100); ("ростов-на-дону", 1070); ("сочи", 1360);
        ("казань", 820); ("нижний новгород", 420); ("самара", 1050);
        ("волгоград", 970); ("воронеж", 520); ("саратов", 850);
        ("пермь", 1380); ("уфа", 1160); ("челябинск", 1510);
        ("омск", 2550); ("тюмень", 1720) ]);
    ("санкт-петербург",
      [ ("спб", 0); ("москва", 635); ("екатеринбург", 1780);
        ("новосибирск", 3720); ("калининград", 550); ("мурманск", 1050);
        ("архангельск", 1130); ("петрозаводск", 320);
        ("великий новгород", 180) ]);
    ("екатеринбург",
      [ ("москва", 1416); ("санкт-петербург", 1780); ("спб", 1780);
        ("новосибирск", 1940); ("челябинск", 200); ("пермь", 360);
        ("тюмень", 320); ("уфа", 520) ]);
    ("новосибирск",
      [ ("москва", 3354); ("санкт-петербург", 3720); ("спб", 3720);
        ("екатеринбург", 1940); ("омск", 650); ("красноярск", 850);
        ("томск", 270); ("барнаул", 230) ]) ].

(** The table entry of an ordered pair of (lower-case) city names. *)
Definition table_entry (from to : string) : option float :=
  match Go.map_get distances from with
  | Some cityDistances => Go.map_get cityDistances to
  | None => None
  end.

Definition calculateDistance (fromCity toCity : string) : float :=
  let from := Go.ToLower (Go.TrimSpace fromCity) in
  let to := Go.ToLower (Go.TrimSpace toCity) in
  if String.eqb from to then 0
  else
    match Go.map_get distances from with
    | Some cityDistances =>
        match Go.map_get cityDistances to with
        | Some distance => distance
        | None => 500
        end
    | None => 500
    end.

(** The entries of the table, as (from, to, distance). *)
Definition table_entries : list (string * string * float) :=
  flat_map (fun row => map (fun e => (fst row, fst e, snd e)) (snd row))
           distances.

(** The entries whose reversed pair resolves to the same distance. *)
Definition symmetric_entries : list (string * string * float) :=
  filter (fun e => calculateDistance (snd (fst e)) (fst (fst e))
                   =? calculateDistance (fst (fst e)) (snd (fst e)))
         table_entries.

(** The two results of [PostDeliveryQuote]'s inline formula:
    [selectedService.DeliveryDays + int(weight/1000)] and
    [selectedService.Price + (length*width*height*50) + (weight*2)]. *)
Definition PostDeliveryQuote_formula (selectedService : TransportService.t)
  (length width height weight : float) : Z * float :=
  (Go.wrap (TransportService.DeliveryDays selectedService
            + Go.float_to_int (weight / 1000)),
   TransportService.Price selectedService
   + (length * width * height * 50) + (weight * 2)).

(** What a handler writes: [fail(ctx, code, message)], or the JSON of a
    quote. *)
Inductive Response : Type :=
| Fail (code : Z) (message : string)
| QuoteJSON (code : Z) (delivery_days : Z) (total_cost distance volume : float).

Definition StatusOK : Z := 200%Z.
Definition StatusBadRequest : Z := 400%Z.
Definition StatusNotFound : Z := 404%Z.

(** [CalculateLogisticRequestQuote] once the request body is bound; the bound
    struct has the fields of a [CargoLogisticRequestItem]. *)
Definition CalculateLogisticRequestQuote {calc : DeliveryCalculator}
  (request : CargoLogisticRequestItem.t) : DB Response :=
  r <- attempt (Repository.GetTransportService
                  (CargoLogisticRequestItem.TransportServiceID request)) ;;
  match r with
  | Err _ => ret (Fail StatusNotFound "transport type not found")
  | Ok service =>
      let res := Repository.quote_item service request in
      if negb (Quote.IsValid res)
      then ret (Fail StatusBadRequest (Quote.ErrorMessage res))
      else ret (QuoteJSON StatusOK (Quote.DeliveryDays res) (Quote.TotalCost res)
                          (Quote.Distance res) (Quote.Volume res))
  end.

End Handler.

(* ================================================================= *)
(** ** The delivery calculator of the specification *)

Module Calculator.

Open Scope float_scope.

(** Modelled from the spec: the tunable constants of the calculator of
    section 4.1, which the spec leaves open: the three factors of the cost
    formula, the function [f] of the days formula, the static distance table
    with its default, and the two messages of the validation policy. *)
Record Rates : Type := mkRates {
  volume_factor : float;
  weight_factor : float;
  distance_factor : float;
  extra_days : float -> float -> Z;
  distance_table : string -> string -> option float;
  default_distance : float;
  service_absent_message : string;
  non_positive_message : string
}.

Definition invalid (message : string) : Quote.t :=
  {| Quote.DeliveryDays := 0%Z; Quote.TotalCost := 0; Quote.Distance := 0;
     Quote.Volume := 0; Quote.IsValid := false; Quote.ErrorMessage := message |}.

(** Some dimension or the weight is [<= 0]. *)
Definition non_positive (length width height weight : float) : bool :=
  (length <=? 0) || (width <=? 0) || (height <=? 0) || (weight <=? 0).

(** The pair of city names, trimmed and case-folded, in the table; the
    default when the table has no entry. *)
Definition resolve_distance (rates : Rates) (fromCity toCity : string) : float :=
  match distance_table rates (Go.ToLower (Go.TrimSpace fromCity))
                             (Go.ToLower (Go.TrimSpace toCity)) with
  | Some d => d
  | None => default_distance rates
  end.

(** Modelled from the spec: [CalculateDelivery] of section 4.1, whose package
    is not among the sources. An absent service reference ([None]) or a
    non-positive dimension or weight gives an invalid quote with a message;
    otherwise
    [total_cost = base_price + volume_factor * (length * width * height)
                  + weight_factor * weight + distance_factor * distance] and
    [delivery_days = base_days + f(weight, distance)], the distance being
    looked up in the table or defaulted. *)
Definition CalculateDelivery_spec (rates : Rates)
  (service : option TransportService.t) (fromCity toCity : string)
  (length width height weight : float) : Quote.t :=
  match service with
  | None => invalid (service_absent_message rates)
  | Some svc =>
      if non_positive length width height weight
      then invalid (non_positive_message rates)
      else
        let distance := resolve_distance rates fromCity toCity in
        let volume := length * width * height in
        {| Quote.DeliveryDays :=
             (TransportService.DeliveryDays svc
              + extra_days rates weight distance)%Z;
           Quote.TotalCost :=
             TransportService.Price svc + volume_factor rates * volume
             + weight_factor rates * weight + distance_factor rates * distance;
           Quote.Distance := distance;
           Quote.Volume := volume;
           Quote.IsValid := true;
           Quote.ErrorMessage := "" |}
  end.

(** The descriptor reaches the calculator by value (repository.go, the two
    calls of [CalculateDelivery]); an absent reference is then the zero
    struct, whose identifier is 0. *)
Definition service_reference (svc : TransportService.t)
  : option TransportService.t :=
  if (TransportService.ID svc =? 0)%Z then None else Some svc.

#[local] Instance of_rates (rates : Rates) : DeliveryCalculator :=
  {| CalculateDelivery svc := CalculateDelivery_spec rates (service_reference svc) |}.

(** Rates for the examples: the factors of the handler's inline formula
    (50 per unit of volume, 2 per unit of weight, a day per 1000 units of
    weight, nothing per unit of distance) over the handler's distance table
    and its default of 500. *)
Definition inline_rates : Rates :=
  {| volume_factor := 50;
     weight_factor := 2;
     distance_factor := 0;
     extra_days := fun weight _ => Go.float_to_int (weight / 1000);
     distance_table := Handler.table_entry;
     default_distance := 500;
     service_absent_message := "transport service is required";
     non_positive_message := "dimensions and weight must be greater than 0" |}.

End Calculator.

(* ================================================================= *)
(** ** Runs of the repository *)

Module Api.

(** The calls of the repository that write requests and line items. *)
Inductive Call : Type :=
| CreateCargoLogisticRequest (items : list CargoLogisticRequestItem.t) (creatorID : Z)
| GetCartIcon (creatorID : Z)
| FormLogisticRequest (orderID : Z) (fromCity toCity : string)
    (weight length width height : float) (now : Z)
| CompleteLogisticRequest (orderID : Z) (status : string) (moderatorID now : Z)
| AddServiceToLogisticRequest (orderID serviceID : Z)
| RemoveServiceFromLogisticRequest (orderID serviceID : Z)
| UpdateLogisticRequestService (orderID serviceID quantity orderNum : Z)
    (comment : string)
| AddTransportServiceToGuestDraftLogisticRequest (serviceID : Z)
| RemoveTransportServiceFromGuestDraftLogisticRequest (serviceID : Z).

Section Run.

Context {calc : DeliveryCalculator} {sys : SystemCreator}.

(** The database after a call, whatever it returned. *)
Definition exec (st : Store) (c : Call) : Store :=
  match c with
  | CreateCargoLogisticRequest items creatorID =>
      after (Repository.CreateCargoLogisticRequest items creatorID) st
  | GetCartIcon creatorID => after (Repository.GetCartIcon creatorID) st
  | FormLogisticRequest orderID fromCity toCity weight length width height now =>
      after (Repository.FormLogisticRequest orderID fromCity toCity
               weight length width height now) st
  | CompleteLogisticRequest orderID status moderatorID now =>
      after (Repository.CompleteLogisticRequest orderID status moderatorID now) st
  | AddServiceToLogisticRequest orderID serviceID =>
      after (Repository.AddServiceToLogisticRequest orderID serviceID) st
  | RemoveServiceFromLogisticRequest orderID serviceID =>
      after (Repository.RemoveServiceFromLogisticRequest orderID serviceID) st
  | UpdateLogisticRequestService orderID serviceID quantity orderNum comment =>
      after (Repository.UpdateLogisticRequestService orderID serviceID
               quantity orderNum comment) st
  | AddTransportServiceToGuestDraftLogisticRequest serviceID =>
      after (Repository.AddTransportServiceToGuestDraftLogisticRequest serviceID) st
  | RemoveTransportServiceFromGuestDraftLogisticRequest serviceID =>
      after (Repository.RemoveTransportServiceFromGuestDraftLogisticRequest
               serviceID) st
  end.

(** A database with the services [svcs] and no request yet. *)
Definition initial (svcs : list TransportService.t) : Store :=
  mkStore svcs [] [] 1 1.

Definition run (svcs : list TransportService.t) (calls : list Call) : Store :=
  fold_left exec calls (initial svcs).

End Run.

End Api.

(* ================================================================= *)
(** ** The statements of the specification *)

Module Spec.

Import CargoLogisticRequestItem.

Section Items.

Context {calc : DeliveryCalculator}.

(** The transport service an item names, among the rows [svcs]. *)
Definition item_service (svcs : list TransportService.t)
  (it : CargoLogisticRequestItem.t) : option TransportService.t :=
  find (fun s => TransportService.ID s =? TransportServiceID it) svcs.

(** The per-item quote: the calculator on the service the item names and on
    the item's own route, dimensions and weight. *)
Definition item_quote (svc : TransportService.t)
  (it : CargoLogisticRequestItem.t) : Quote.t :=
  CalculateDelivery svc (FromCity it) (ToCity it)
                    (Length it) (Width it) (Height it) (Weight it).

(** The item names an existing service and its quote [q] is valid. *)
Definition item_passes (svcs : list TransportService.t)
  (it : CargoLogisticRequestItem.t) (q : Quote.t) : Prop :=
  exists svc,
    item_service svcs it = Some svc
    /\ item_quote svc it = q
    /\ Quote.IsValid q = true.

(** The item references a non-existent transport service, or yields an
    invalid quote; [e] is that item's error. *)
Definition item_fails (svcs : list TransportService.t)
  (it : CargoLogisticRequestItem.t) (e : string) : Prop :=
  (item_service svcs it = None
   /\ e = ("service " ++ Go.itoa (TransportServiceID it) ++ " not found")%string)
  \/
  (exists svc,
      item_service svcs it = Some svc
      /\ Quote.IsValid (item_quote svc it) = false
      /\ e = Quote.ErrorMessage (item_quote svc it)).

(** The items name pairwise different services. *)
Definition distinct_services (items : list CargoLogisticRequestItem.t) : Prop :=
  NoDup (map TransportServiceID items).

End Items.

(** [m] is the maximum of the list [l]. *)
Definition is_maximum (m : Z) (l : list Z) : Prop :=
  In m l /\ Forall (fun d => d <= m) l.

(** The line-item rows a request gets for its items, keyed from [k] on. *)
Fixpoint item_rows (requestID k : Z) (items : list CargoLogisticRequestItem.t)
  : list LogisticRequestService.t :=
  match items with
  | [] => []
  | it :: rest =>
      LogisticRequestService.mk k requestID (TransportServiceID it) 1 0 ""
      :: item_rows requestID (k + 1) rest
  end.

(** "Removing decrements quantity, deleting the row only when quantity would
    drop to zero or below", said of a remove operation of the repository:
    a line item with a quantity above 1 is still there afterwards, with one
    less. *)
Definition decrements_quantity (remove : Z -> Z -> DB unit) : Prop :=
  forall (st : Store) (orderID serviceID : Z) (l : LogisticRequestService.t),
    find (LogisticRequestService.has_key orderID serviceID) (lines st) = Some l ->
    1 < LogisticRequestService.Quantity l ->
    find (LogisticRequestService.has_key orderID serviceID)
         (lines (after (remove orderID serviceID) st))
    = Some (LogisticRequestService.with_Quantity
              (LogisticRequestService.Quantity l - 1) l).

Section Totals.

Context {calc : DeliveryCalculator} {sys : SystemCreator}.

(** The quotes of the line items of a request, in their order: each for the
    service its line item names (the zero service when that row is gone),
    at the request's route and cargo. *)
Definition line_quotes (st : Store) (order : LogisticRequest.t) : list Quote.t :=
  map (fun l =>
         CalculateDelivery
           (match find (fun s => TransportService.ID s
                                 =? LogisticRequestService.TransportServiceID l)
                       (services st) with
            | Some s => s
            | None => TransportService.zero
            end)
           (LogisticRequest.FromCity order) (LogisticRequest.ToCity order)
           (LogisticRequest.Length order) (LogisticRequest.Width order)
           (LogisticRequest.Height order) (LogisticRequest.Weight order))
      (filter (fun l => LogisticRequestService.LogisticRequestID l
                        =? LogisticRequest.ID order) (lines st)).

(** "cost = sum over items; days = max over items": the cost is the sum of
    the quotes' costs and the days are the maximum of their days, 0 for a
    request without items. *)
Definition aggregation_rule (quotes : list Quote.t) (cost : float) (days : Z)
  : Prop :=
  cost = Go.fsum (map Quote.TotalCost quotes)
  /\ (quotes = [] -> days = 0)
  /\ (quotes <> [] -> is_maximum days (map Quote.DeliveryDays quotes)).

(** The rule over the valid quotes only, with days that are never below 0:
    the cost is the sum of the valid quotes' costs, the days are the largest
    of 0 and the valid quotes' days. *)
Definition completion_rule (quotes : list Quote.t) (cost : float) (days : Z)
  : Prop :=
  cost = Go.fsum (map Quote.TotalCost (filter Quote.IsValid quotes))
  /\ is_maximum days
       (0 :: map Quote.DeliveryDays (filter Quote.IsValid quotes)).

(** The same as a pair of values, computed from the line items a request
    has in the database. *)
Definition derived_totals (st : Store) (order : LogisticRequest.t) : float * Z :=
  let valid := filter Quote.IsValid (line_quotes st order) in
  (Go.fsum (map Quote.TotalCost valid),
   fold_right Z.max 0 (map Quote.DeliveryDays valid)).

(** The stored totals of a request are those of the aggregation rule over
    its line items. *)
Definition totals_derived (st : Store) (order : LogisticRequest.t) : Prop :=
  aggregation_rule (line_quotes st order)
    (LogisticRequest.TotalCost order) (LogisticRequest.TotalDays order).

(** "A request's TotalCost and TotalDays are always derivable from its line
    items via the aggregation rule", for every request of every database the
    repository's calls lead to. *)
Definition totals_never_drift : Prop :=
  forall (svcs : list TransportService.t) (calls : list Api.Call)
         (order : LogisticRequest.t),
    In order (requests (Api.run svcs calls)) ->
    totals_derived (Api.run svcs calls) order.

(** "The persisted request has TotalDays equal to the maximum of the per-item
    quote days", for every creation that succeeds. *)
Definition created_days_are_the_maximum : Prop :=
  forall (items : list CargoLogisticRequestItem.t) (creatorID : Z)
         (st st' : Store) (id : Z) (order : LogisticRequest.t)
         (quotes : list Quote.t),
    Repository.CreateCargoLogisticRequest items creatorID st = (Ok id, st') ->
    find (fun o => LogisticRequest.ID o =? id) (requests st') = Some order ->
    Forall2 (item_passes (services st)) items quotes ->
    is_maximum (LogisticRequest.TotalDays order)
               (map Quote.DeliveryDays quotes).

(** "Otherwise every line item and the parent request are committed": a
    non-empty list whose items all name an existing service and get a valid
    quote is created. *)
Definition passing_items_are_committed : Prop :=
  forall (items : list CargoLogisticRequestItem.t) (creatorID : Z)
         (st : Store),
    items <> [] ->
    Forall (fun i => exists q, item_passes (services st) i q) items ->
    exists id st',
      Repository.CreateCargoLogisticRequest items creatorID st = (Ok id, st').

End Totals.

End Spec.
(* ================================================================= *)
(** ** Example data *)

Module Sample.

Open Scope float_scope.

Definition fura : TransportService.t :=
  {| TransportService.ID := 1; TransportService.Name := "Фура";
     TransportService.Description := "";
     TransportService.Price := 1000; TransportService.DeliveryDays := 3 |}.

Definition avia : TransportService.t :=
  {| TransportService.ID := 3; TransportService.Name := "Авиа";
     TransportService.Description := "";
     TransportService.Price := 5000; TransportService.DeliveryDays := 1 |}.

(** A database with two services and no request yet. *)
Definition store0 : Store :=
  {| services := [fura; avia]; requests := []; lines := [];
     request_seq := 1; line_seq := 1 |}.

Definition item (serviceID : Z) (fromCity toCity : string)
  (length width height weight : float) : CargoLogisticRequestItem.t :=
  CargoLogisticRequestItem.mk serviceID fromCity toCity length width height weight.

#[local] Instance calc : DeliveryCalculator :=
  Calculator.of_rates Calculator.inline_rates.

#[local] Instance sys : SystemCreator := {| GetCreatorID := 1%Z |}.

(** Two items that pass: a truck from Moscow to Saint Petersburg and a plane
    from Moscow to Kazan. *)
Definition items : list CargoLogisticRequestItem.t :=
  [ item 1 "Москва" "Санкт-Петербург" 1 1 1 100;
    item 3 "Москва" "Казань" 2 1 1 2500 ].

(** The same with an item in between that names no service. *)
Definition items_with_unknown_service : list CargoLogisticRequestItem.t :=
  [ item 1 "Москва" "Санкт-Петербург" 1 1 1 100;
    item 9 "Москва" "Казань" 1 1 1 100;
    item 3 "Москва" "Казань" 2 1 1 2500 ].

(** Two trucks: both items pass, and both name service 1. *)
Definition truck_twice : list CargoLogisticRequestItem.t :=
  [ item 1 "Москва" "Санкт-Петербург" 1 1 1 100;
    item 1 "Москва" "Казань" 1 1 1 100 ].

(** A service row with negative delivery days, which
    [CreateTransportService] stores as it stores any other, and a database
    that holds it. *)
Definition express : TransportService.t :=
  {| TransportService.ID := 5; TransportService.Name := "Экспресс";
     TransportService.Description := "";
     TransportService.Price := 1000; TransportService.DeliveryDays := -5 |}.

Definition store_express : Store :=
  {| services := [express]; requests := []; lines := [];
     request_seq := 1; line_seq := 1 |}.

Definition express_items : list CargoLogisticRequestItem.t :=
  [ item 5 "Москва" "Казань" 1 1 1 100 ].

(** A database with a third service, and one item for each: a plane, a
    train and a truck, quoted at 1, 5 and 3 days. *)
Definition poezd : TransportService.t :=
  {| TransportService.ID := 4; TransportService.Name := "Поезд";
     TransportService.Description := "";
     TransportService.Price := 2000; TransportService.DeliveryDays := 5 |}.

Definition store_fleet : Store :=
  {| services := [fura; avia; poezd]; requests := []; lines := [];
     request_seq := 1; line_seq := 1 |}.

Definition fleet_items : list CargoLogisticRequestItem.t :=
  [ item 3 "Москва" "Казань" 1 1 1 100;
    item 4 "Москва" "Казань" 2 1 1 200;
    item 1 "Москва" "Санкт-Петербург" 1 1 1 100 ].

(** The database after user 7 created a request from [items]. *)
Definition created : Store :=
  after (Repository.CreateCargoLogisticRequest items 7) store0.

(** The database after user 7 asked for the cart icon: request 1 is the
    user's empty draft. *)
Definition with_draft : Store := after (Repository.GetCartIcon 7) store0.

(** A database whose one request was completed. *)
Definition completed_request : LogisticRequest.t :=
  LogisticRequest.closed StatusCompleted 2 20
    (LogisticRequest.formed "Москва" "Казань" 100 1 1 1 10
       (LogisticRequest.with_ID 1 (Repository.new_draft 7))).

Definition with_completed : Store :=
  {| services := [fura; avia]; requests := [completed_request];
     lines := [LogisticRequestService.mk 1 1 1 1 0 ""];
     request_seq := 2; line_seq := 2 |}.

(** User 7 creates a request for a plane, then adds a truck to it. *)
Definition plane_then_truck : list Api.Call :=
  [ Api.CreateCargoLogisticRequest [item 3 "Москва" "Казань" 1 1 1 100] 7;
    Api.AddServiceToLogisticRequest 1 1 ].

End Sample.

(* ================================================================= *)
(** ** More of the Go runtime *)

Module GoStrings.

(** [strings.Split(s, sep)] for a separator of one byte: the pieces between
    the separators, one more than there are separators. *)
Fixpoint Split (s : string) (sep : ascii) : list string :=
  match s with
  | EmptyString => [EmptyString]
  | String c rest =>
      if Ascii.eqb c sep then EmptyString :: Split rest sep
      else
        match Split rest sep with
        | part :: parts => String c part :: parts
        | [] => [String c EmptyString]
        end
  end.

(** The byte [c] occurs in [s]. *)
Fixpoint has_byte (c : ascii) (s : string) : bool :=
  match s with
  | EmptyString => false
  | String c' rest => Ascii.eqb c' c || has_byte c rest
  end.

End GoStrings.

(* ================================================================= *)
(** ** Package [ds]: the draft view (cart.go) *)

Module DraftLogisticRequestService.

(** A row of [logistic_request_services] as the draft view reads it. *)
Record t : Type := mk {
  ID : Z;
  LogisticRequestID : Z;
  TransportServiceID : Z;
  Quantity : Z
}.

(** The columns of a line item the struct has fields for. *)
Definition of_row (l : LogisticRequestService.t) : t :=
  mk (LogisticRequestService.ID l)
     (LogisticRequestService.LogisticRequestID l)
     (LogisticRequestService.TransportServiceID l)
     (LogisticRequestService.Quantity l).

End DraftLogisticRequestService.

Module DraftLogisticRequest.

Record t : Type := mk {
  ID : Z;
  SessionID : string;
  IsDraft : bool;
  Services : list DraftLogisticRequestService.t
}.

End DraftLogisticRequest.

(* ================================================================= *)
(** ** Package [repository]: the other methods *)

Module RepositoryOps.

(** [order.Status = status], every other field as it is. *)
Definition with_Status (status : string) (o : LogisticRequest.t)
  : LogisticRequest.t :=
  LogisticRequest.mk
    (LogisticRequest.ID o) (LogisticRequest.SessionID o)
    (LogisticRequest.IsDraft o) (LogisticRequest.FromCity o)
    (LogisticRequest.ToCity o) (LogisticRequest.Weight o)
    (LogisticRequest.Length o) (LogisticRequest.Width o)
    (LogisticRequest.Height o) (LogisticRequest.TotalCost o)
    (LogisticRequest.TotalDays o) status (LogisticRequest.CreatorID o)
    (LogisticRequest.ModeratorID o) (LogisticRequest.FormedAt o)
    (LogisticRequest.CompletedAt o) (LogisticRequest.DeletedAt o).

(** The literal [typeMap] of [GetTransportServiceByDeliveryType]. *)
Definition typeMap : list (string * Z) :=
  [ ("fura", 1); ("malotonnazhnyi", 2); ("avia", 3); ("poezd", 4);
    ("korabl", 5); ("multimodal", 6) ].

Definition GetTransportServiceByDeliveryType (deliveryType : string)
  : DB TransportService.t :=
  match Go.map_get typeMap deliveryType with
  | Some id => Repository.GetTransportService id
  | None => fail "тип доставки не найден"
  end.

(** [id = ? AND deleted_at IS NULL]. *)
Definition live_with_key (id : Z) (o : LogisticRequest.t) : bool :=
  (LogisticRequest.ID o =? id) && Repository.deleted_at_is_null o.

Definition GetLogisticRequest (id : Z) : DB LogisticRequest.t :=
  r <- attempt (Gorm.first_request (live_with_key id)) ;;
  match r with
  | Ok order => ret order
  | Err _ => fail "заявка не найдена"
  end.

Definition GetDraftLogisticRequest (creatorID : Z) : DB LogisticRequest.t :=
  r <- attempt (Gorm.first_request (Repository.is_draft_of creatorID)) ;;
  match r with
  | Ok order => ret order
  | Err _ => fail "черновик не найден"
  end.

Definition UpdateLogisticRequest (order : LogisticRequest.t) : DB unit :=
  Gorm.save_request order.

(** [SUM(quantity)] over rows, 0 over none ([COALESCE(.., 0)]). *)
Definition sum_quantities (rows : list LogisticRequestService.t) : Z :=
  fold_right Z.add 0 (map LogisticRequestService.Quantity rows).

(** [SELECT COALESCE(SUM(quantity), 0) .. WHERE logistic_request_id = ?]. *)
Definition sum_quantity (requestID : Z) (st : Store) : Z :=
  sum_quantities (Gorm.preload_services requestID st).

Definition GetLogisticRequestServiceQuantitySum (orderID : Z) : DB Z :=
  fun st => (Ok (sum_quantity orderID st), st).

(** [Where("logistic_request_id = ?", id).Delete(..)] on the line items. *)
Definition delete_lines_of (requestID : Z) : DB unit :=
  fun st =>
    (Ok tt,
     mkStore (services st) (requests st)
       (filter (fun l => negb (LogisticRequestService.LogisticRequestID l
                               =? requestID)) (lines st))
       (request_seq st) (line_seq st)).

Definition ClearUserDraftLogisticRequest (creatorID : Z) : DB unit :=
  r <- attempt (GetDraftLogisticRequest creatorID) ;;
  match r with
  | Err _ => ret tt
  | Ok draft => delete_lines_of (LogisticRequest.ID draft)
  end.

(** [UPDATE logistic_requests SET status = $1 WHERE id = $2 RETURNING ..]:
    a row comes back when one was updated. *)
Definition UpdateLogisticRequestStatusWithCursor (orderID : Z)
  (newStatus : string) : DB unit :=
  fun st =>
    let hit o := LogisticRequest.ID o =? orderID in
    let st' :=
      mkStore (services st)
              (map (fun o => if hit o then with_Status newStatus o else o)
                   (requests st))
              (lines st) (request_seq st) (line_seq st) in
    if existsb hit (requests st) then (Ok tt, st')
    else (Err ("order with id " ++ Go.itoa orderID ++ " not found")%string, st').

(** The pair the guest upsert names as its conflict target. *)
Definition line_key (l : LogisticRequestService.t) : Z * Z :=
  (LogisticRequestService.LogisticRequestID l,
   LogisticRequestService.TransportServiceID l).



Section Guest.

Context {sys : SystemCreator}.

(** [Where("logistic_request_id = ?", orderID).Find(&items)]. *)
Definition find_draft_items (orderID : Z) (st : Store)
  : list DraftLogisticRequestService.t :=
  map DraftLogisticRequestService.of_row (Gorm.preload_services orderID st).

Definition GetGuestDraftLogisticRequestView : DB DraftLogisticRequest.t :=
  orderID <- Repository.ensureGuestDraftLogisticRequest "guest" ;;
  st <- get_store ;;
  ret (DraftLogisticRequest.mk orderID "guest" true (find_draft_items orderID st)).

(** The loop of [GetGuestDraftLogisticRequestServices]: a service that is
    not found is logged and passed over. *)
Fixpoint collect_services (items : list DraftLogisticRequestService.t)
  (found : list TransportService.t) : DB (list TransportService.t) :=
  match items with
  | [] => ret found
  | it :: rest =>
      r <- attempt (Repository.GetTransportService
                      (DraftLogisticRequestService.TransportServiceID it)) ;;
      match r with
      | Err _ => collect_services rest found
      | Ok s => collect_services rest (found ++ [s])
      end
  end.

Definition GetGuestDraftLogisticRequestServices : DB (list TransportService.t) :=
  orderID <- Repository.ensureGuestDraftLogisticRequest "guest" ;;
  st <- get_store ;;
  collect_services (find_draft_items orderID st) [].

(** The method returns a plain [int]; it still creates the draft when there
    is none. *)
Definition GetGuestDraftLogisticRequestServiceCount (st : Store) : Z * Store :=
  match Repository.ensureGuestDraftLogisticRequest "guest" st with
  | (Err _, st') => (0, st')
  | (Ok orderID, st') => (sum_quantity orderID st', st')
  end.

(** The method returns nothing. *)
Definition ClearGuestDraftLogisticRequest (st : Store) : Store :=
  match Repository.ensureGuestDraftLogisticRequest "guest" st with
  | (Err _, st') => st'
  | (Ok orderID, st') => after (delete_lines_of orderID) st'
  end.

End Guest.

End RepositoryOps.

(* ================================================================= *)
(** ** Package [handler]: the other handlers *)

Module HandlerOps.

(** What these handlers write, once the path parameters are parsed and the
    body is bound: [fail(ctx, code, message)], or the JSON of a success. *)
Inductive Reply : Type :=
| Fail (code : Z) (message : string)
| Message (code : Z) (message : string)
| Count (code : Z) (count : Z) (message : string)
| Request (code : Z) (logistic_request : LogisticRequest.t)
| NewStatus (code : Z) (message : string) (request_id : Z) (new_status : string)
| Icon (code : Z) (request_id : Z) (count : Z)
| Created (code : Z) (message : string) (request_id : Z) (creator_id : Z).

Definition StatusOK : Z := 200.
Definition StatusCreated : Z := 201.
Definition StatusBadRequest : Z := 400.
Definition StatusNotFound : Z := 404.
Definition StatusInternalServerError : Z := 500.

(** The bound body of [FormLogisticRequest] and of [UpdateLogisticRequest]. *)
Record CargoBody : Type := mkCargoBody {
  FromCity : string;
  ToCity : string;
  Weight : float;
  Length : float;
  Width : float;
  Height : float
}.

(** [now] is the reading of [time.Now()] in the repository. *)
Definition FormLogisticRequest (id : Z) (request : CargoBody) (now : Z)
  : DB Reply :=
  if (FromCity request =? "")%string || (ToCity request =? "")%string
  then ret (Fail StatusBadRequest "from_city and to_city are required")
  else if (Weight request <=? 0)%float || (Length request <=? 0)%float
          || (Width request <=? 0)%float || (Height request <=? 0)%float
  then ret (Fail StatusBadRequest
                 "weight, length, width, height must be greater than 0")
  else
    r <- attempt (Repository.FormLogisticRequest id
                    (FromCity request) (ToCity request) (Weight request)
                    (Length request) (Width request) (Height request) now) ;;
    match r with
    | Err e => ret (Fail StatusBadRequest e)
    | Ok _ => ret (Message StatusOK "Заявка успешно сформирована")
    end.

(** The six conditional assignments of [UpdateLogisticRequest]. *)
Definition apply_body (req : CargoBody) (o : LogisticRequest.t)
  : LogisticRequest.t :=
  LogisticRequest.mk
    (LogisticRequest.ID o) (LogisticRequest.SessionID o)
    (LogisticRequest.IsDraft o)
    (if negb (FromCity req =? "")%string then FromCity req
     else LogisticRequest.FromCity o)
    (if negb (ToCity req =? "")%string then ToCity req
     else LogisticRequest.ToCity o)
    (if (0 <? Weight req)%float then Weight req else LogisticRequest.Weight o)
    (if (0 <? Length req)%float then Length req else LogisticRequest.Length o)
    (if (0 <? Width req)%float then Width req else LogisticRequest.Width o)
    (if (0 <? Height req)%float then Height req else LogisticRequest.Height o)
    (LogisticRequest.TotalCost o) (LogisticRequest.TotalDays o)
    (LogisticRequest.Status o) (LogisticRequest.CreatorID o)
    (LogisticRequest.ModeratorID o) (LogisticRequest.FormedAt o)
    (LogisticRequest.CompletedAt o) (LogisticRequest.DeletedAt o).

Definition UpdateLogisticRequest (id : Z) (req : CargoBody) : DB Reply :=
  r <- attempt (RepositoryOps.GetLogisticRequest id) ;;
  match r with
  | Err _ => ret (Fail StatusNotFound "logistic request not found")
  | Ok logisticRequest =>
      if negb (LogisticRequest.Status logisticRequest =? StatusDraft)%string
      then ret (Fail StatusBadRequest "can only update draft logistic requests")
      else
        let logisticRequest := apply_body req logisticRequest in
        u <- attempt (RepositoryOps.UpdateLogisticRequest logisticRequest) ;;
        match u with
        | Err _ => ret (Fail StatusInternalServerError
                             "failed to update logistic request")
        | Ok _ => ret (Request StatusOK logisticRequest)
        end
  end.

(** The literal [validStatuses] of [UpdateLogisticRequestStatus]. *)
Definition validStatuses : list string :=
  ["pending"; "processing"; "shipped"; "delivered"; "cancelled"].

Definition UpdateLogisticRequestStatus (orderID : Z) (status : string)
  : DB Reply :=
  if negb (existsb (String.eqb status) validStatuses)
  then ret (Fail StatusBadRequest
                 "invalid status. allowed: pending, processing, shipped, delivered, cancelled")
  else
    r <- attempt (RepositoryOps.UpdateLogisticRequestStatusWithCursor
                    orderID status) ;;
    match r with
    | Err _ => ret (Fail StatusInternalServerError
                         "failed to update logistic request status")
    | Ok _ => ret (NewStatus StatusOK
                     "Статус логистической заявки успешно обновлен"
                     orderID status)
    end.

(** The handlers of the user's own draft, once [GetUserByUUID] has given the
    user: [userID] is [user.ID]. *)
Definition GetUserDraftIcon (userID : Z) : DB Reply :=
  r <- attempt (Repository.GetCartIcon userID) ;;
  match r with
  | Err _ => ret (Fail StatusInternalServerError "failed to get draft")
  | Ok (orderID, _) =>
      c <- attempt (RepositoryOps.GetLogisticRequestServiceQuantitySum orderID) ;;
      match c with
      | Err _ => ret (Fail StatusInternalServerError "failed to get draft count")
      | Ok count => ret (Icon StatusOK orderID count)
      end
  end.


Definition ClearUserDraftLogisticRequest (userID : Z) : DB Reply :=
  r <- attempt (Repository.GetCartIcon userID) ;;
  match r with
  | Err _ => ret (Fail StatusInternalServerError "failed to get draft")
  | Ok (orderID, _) =>
      c <- attempt (RepositoryOps.ClearUserDraftLogisticRequest userID) ;;
      match c with
      | Err _ => ret (Fail StatusInternalServerError "failed to clear draft")
      | Ok _ => ret (Icon StatusOK orderID 0)
      end
  end.

(** [Services] is the bound body's list; [userID] is [user.ID] as above. *)
Definition CreateCargoLogisticRequest {calc : DeliveryCalculator}
  (userID : Z) (Services : list CargoLogisticRequestItem.t) : DB Reply :=
  if (List.length Services =? 0)%nat
  then ret (Fail StatusBadRequest "no transport types provided")
  else
    let items :=
      map (fun s =>
             CargoLogisticRequestItem.mk
               (CargoLogisticRequestItem.TransportServiceID s)
               (CargoLogisticRequestItem.FromCity s)
               (CargoLogisticRequestItem.ToCity s)
               (CargoLogisticRequestItem.Length s)
               (CargoLogisticRequestItem.Width s)
               (CargoLogisticRequestItem.Height s)
               (CargoLogisticRequestItem.Weight s)) Services in
    r <- attempt (Repository.CreateCargoLogisticRequest items userID) ;;
    match r with
    | Err e => ret (Fail StatusBadRequest e)
    | Ok requestID =>
        ret (Created StatusCreated "Логистическая заявка успешно оформлена"
                     requestID userID)
    end.

Section Guest.

Context {sys : SystemCreator}.

Definition AddTransportServiceToDraftLogisticRequest (serviceID : Z)
  : DB Reply :=
  r <- attempt (Repository.AddTransportServiceToGuestDraftLogisticRequest
                  serviceID) ;;
  match r with
  | Err e => ret (Fail StatusNotFound e)
  | Ok _ =>
      fun st =>
        let (count, st') :=
          RepositoryOps.GetGuestDraftLogisticRequestServiceCount st in
        (Ok (Count StatusOK count
               "Транспортная услуга добавлена в черновик заявки"), st')
  end.

Definition ClearDraftLogisticRequest : DB Reply :=
  fun st =>
    (Ok (Count StatusOK 0 "Черновик логистической заявки очищен"),
     RepositoryOps.ClearGuestDraftLogisticRequest st).

End Guest.

End HandlerOps.

(* ================================================================= *)
(** ** Package [middleware] *)

Module Middleware.

(** The claims of a token, with the fields the middleware reads. *)
Record Claims : Type := mkClaims {
  UserUUID : string;
  Role : string;
  Type_ : string
}.

(** [auth.JWTService], whose package is not among the sources: the one
    method the middleware calls. *)
Class JWTService : Type := {
  ValidateToken : string -> result Claims
}.

(** The two role constants of package [ds] the middleware names; the
    package's constants are not among the sources. *)
Class Roles : Type := {
  RoleManager : string;
  RoleAdmin : string
}.

(** The keys of the request context the middleware sets. Values are kept as
    the strings they are set to, so the type assertion of [RequireRole]
    holds. *)
Record Context : Type := mkContext {
  user_uuid : option string;
  user_role : option string;
  token_claims : option Claims
}.

(** What a middleware does with a request: abort it with a JSON error, or
    pass it on with its context. *)
Inductive Outcome : Type :=
| Abort (code : Z) (message : string)
| Next (c : Context).

Definition StatusUnauthorized : Z := 401.
Definition StatusForbidden : Z := 403.

(** [authHeader] is [c.GetHeader("Authorization")], empty when the header
    is missing. *)
Definition extractToken (authHeader : string) : string :=
  if (authHeader =? "")%string then ""
  else
    match GoStrings.Split authHeader " "%char with
    | [p0; p1] => if negb (p0 =? "Bearer")%string then "" else p1
    | _ => ""
    end.

(** The three [c.Set] calls. *)
Definition set_user (claims : Claims) (c : Context) : Context :=
  mkContext (Some (UserUUID claims)) (Some (Role claims)) (Some claims).

Section WithJWT.

Context {jwt : JWTService} {roles : Roles}.

Definition RequireAuth (authHeader : string) (c : Context) : Outcome :=
  let token := extractToken authHeader in
  if (token =? "")%string
  then Abort StatusUnauthorized "Authorization token required"
  else
    match ValidateToken token with
    | Err _ => Abort StatusUnauthorized "Invalid token"
    | Ok claims =>
        if negb (Type_ claims =? "access")%string
        then Abort StatusUnauthorized "Invalid token type"
        else Next (set_user claims c)
    end.

Definition RequireRole (allowedRoles : list string) (c : Context) : Outcome :=
  match user_role c with
  | None => Abort StatusUnauthorized "User role not found"
  | Some role =>
      if existsb (String.eqb role) allowedRoles then Next c
      else Abort StatusForbidden "Insufficient permissions"
  end.

Definition RequireModerator (authHeader : string) (c : Context) : Outcome :=
  let token := extractToken authHeader in
  if (token =? "")%string
  then Abort StatusUnauthorized "Authorization token required"
  else
    match ValidateToken token with
    | Err _ => Abort StatusUnauthorized "Invalid token"
    | Ok claims =>
        if negb (Type_ claims =? "access")%string
        then Abort StatusUnauthorized "Invalid token type"
        else if negb (Role claims =? RoleManager)%string
                && negb (Role claims =? RoleAdmin)%string
        then Abort StatusForbidden
               "Insufficient permissions - only moderators can complete orders"
        else Next (set_user claims c)
    end.

Definition OptionalAuth (authHeader : string) (c : Context) : Outcome :=
  let token := extractToken authHeader in
  if (token =? "")%string then Next c
  else
    match ValidateToken token with
    | Err _ => Next c
    | Ok claims =>
        if negb (Type_ claims =? "access")%string then Next c
        else Next (set_user claims c)
    end.

End WithJWT.

End Middleware.

(* ================================================================= *)
(** ** Users and package [service] *)

Module User.

(** Modelled from the spec: the struct [ds.User] is not among the sources;
    these are the fields the service, the repository and the handlers read
    and write. *)
Record t : Type := mk {
  ID : Z;
  UUID : string;
  Login : string;
  Email : string;
  Password : string;
  Name : string;
  Phone : string;
  Role : string
}.

Definition with_ID (id : Z) (u : t) : t :=
  mk id (UUID u) (Login u) (Email u) (Password u) (Name u) (Phone u) (Role u).

Definition with_UUID (uuid : string) (u : t) : t :=
  mk (ID u) uuid (Login u) (Email u) (Password u) (Name u) (Phone u) (Role u).

(** [user.Password = ...]. *)
Definition with_Password (password : string) (u : t) : t :=
  mk (ID u) (UUID u) (Login u) (Email u) password (Name u) (Phone u) (Role u).

End User.

(** The table [users], in key order, and the sequence its keys come from;
    as for the other tables, the database accepts every write. *)
Record Users : Type := mkUsers {
  user_rows : list User.t;
  user_seq : Z
}.

Module UserRepository.

Definition GetUserByLogin (login : string) (db : Users) : result User.t :=
  match find (fun u => (User.Login u =? login)%string) (user_rows db) with
  | Some user => Ok user
  | None => Err "пользователь не найден"
  end.

Definition GetUserByUUID (userUUID : string) (db : Users) : result User.t :=
  match find (fun u => (User.UUID u =? userUUID)%string) (user_rows db) with
  | Some user => Ok user
  | None => Err "пользователь не найден"
  end.

(** [uuid_New] is the reading of [uuid.New().String()]; the struct comes
    back through the pointer with its [UUID] and its [ID] set. *)
Definition CreateUser (uuid_New : string) (user : User.t) (db : Users)
  : User.t * Users :=
  let user := if (User.UUID user =? "")%string
              then User.with_UUID uuid_New user else user in
  let user := User.with_ID (user_seq db) user in
  (user, mkUsers (user_rows db ++ [user]) (user_seq db + 1)).

End UserRepository.

Module RegisterRequest.

Record t : Type := mk {
  Login : string;
  Email : string;
  Password : string;
  Name : string;
  Phone : string;
  Role : string
}.

(** [req.Password = ...]. *)
Definition with_Password (password : string) (req : t) : t :=
  mk (Login req) (Email req) password (Name req) (Phone req) (Role req).

End RegisterRequest.

Module LoginRequest.

Record t : Type := mk {
  Login : string;
  Password : string
}.

End LoginRequest.

Module AuthResponse.

Record t : Type := mk {
  AccessToken : string;
  RefreshToken : string;
  User : User.t;
  ExpiresAt : Z
}.

End AuthResponse.

Module AuthService.

(** The methods of [auth.JWTService] that issue tokens; the package is not
    among the sources. A call is taken as a function of its arguments. *)
Class TokenIssuer : Type := {
  GenerateAccessToken : string -> string -> result string;
  GenerateRefreshToken : string -> string -> result string;
  RefreshTokenPair : string -> result (string * string)
}.

(** [ds.RoleBuyer]; the package's constants are not among the sources. *)
Class DefaultRole : Type := { RoleBuyer : string }.

(** [time.Minute], times being in nanoseconds. *)
Definition Minute : Z := 60 * 1000000000.

Section WithTokens.

Context {jwt : Middleware.JWTService} {issuer : TokenIssuer}
        {roles : DefaultRole}.

(** The end that [Register] and [Login] share: both tokens, then the
    response without the password. [now] is the reading of [time.Now()]. *)
Definition respond (user : User.t) (now : Z) : result AuthResponse.t :=
  match GenerateAccessToken (User.UUID user) (User.Role user) with
  | Err _ => Err "failed to generate access token"
  | Ok accessToken =>
      match GenerateRefreshToken (User.UUID user) (User.Role user) with
      | Err _ => Err "failed to generate refresh token"
      | Ok refreshToken =>
          Ok (AuthResponse.mk accessToken refreshToken
                (User.with_Password "" user) (now + 15 * Minute))
      end
  end.

Definition Register (req : RegisterRequest.t) (uuid_New : string) (now : Z)
  (db : Users) : result AuthResponse.t * Users :=
  match UserRepository.GetUserByLogin (RegisterRequest.Login req) db with
  | Ok _ => (Err "user with this login already exists", db)
  | Err _ =>
      let role := if (RegisterRequest.Role req =? "")%string
                  then RoleBuyer else RegisterRequest.Role req in
      let user := User.mk 0 "" (RegisterRequest.Login req)
                          (RegisterRequest.Email req)
                          (RegisterRequest.Password req)
                          (RegisterRequest.Name req)
                          (RegisterRequest.Phone req) role in
      let (user, db) := UserRepository.CreateUser uuid_New user db in
      (respond user now, db)
  end.

Definition Login (req : LoginRequest.t) (hashedPassword : string) (now : Z)
  (db : Users) : result AuthResponse.t :=
  match UserRepository.GetUserByLogin (LoginRequest.Login req) db with
  | Err _ => Err "invalid credentials"
  | Ok user =>
      if negb (User.Password user =? hashedPassword)%string
      then Err "invalid credentials"
      else respond user now
  end.

Definition RefreshTokens (refreshToken : string) (now : Z) (db : Users)
  : result AuthResponse.t :=
  match Middleware.ValidateToken refreshToken with
  | Err _ => Err "invalid refresh token"
  | Ok claims =>
      if negb (Middleware.Type_ claims =? "refresh")%string
      then Err "invalid token type"
      else
        match UserRepository.GetUserByUUID (Middleware.UserUUID claims) db with
        | Err _ => Err "user not found"
        | Ok user =>
            match RefreshTokenPair refreshToken with
            | Err _ => Err "failed to refresh token pair"
            | Ok (accessToken, newRefreshToken) =>
                Ok (AuthResponse.mk accessToken newRefreshToken
                      (User.with_Password "" user) (now + 15 * Minute))
            end
        end
  end.

End WithTokens.

End AuthService.

(* ================================================================= *)
(** ** Package [handler]: sign-up and login *)

Module AuthHandlers.

(** The two calls of [golang.org/x/crypto/bcrypt] the handlers make:
    [GenerateFromPassword] at the default cost, and
    [CompareHashAndPassword], [true] for a nil error. *)
Class Bcrypt : Type := {
  GenerateFromPassword : string -> result string;
  CompareHashAndPassword : string -> string -> bool
}.

(** What the two handlers write, the body being bound. *)
Inductive Reply : Type :=
| Fail (code : Z) (message : string)
| Registered (code : Z) (response : AuthResponse.t)
| LoggedIn (code : Z) (response : AuthResponse.t).

Definition StatusOK : Z := 200.
Definition StatusCreated : Z := 201.
Definition StatusUnauthorized : Z := 401.
Definition StatusConflict : Z := 409.
Definition StatusInternalServerError : Z := 500.

Section WithBcrypt.

Context {jwt : Middleware.JWTService} {issuer : AuthService.TokenIssuer}
        {roles : AuthService.DefaultRole} {bcrypt : Bcrypt}.

Definition RegisterUser (req : RegisterRequest.t) (uuid_New : string)
  (now : Z) (db : Users) : Reply * Users :=
  match GenerateFromPassword (RegisterRequest.Password req) with
  | Err _ => (Fail StatusInternalServerError "failed to hash password", db)
  | Ok hashedPassword =>
      let req := RegisterRequest.with_Password hashedPassword req in
      match AuthService.Register req uuid_New now db with
      | (Err e, db) =>
          if (e =? "user with this login already exists")%string
          then (Fail StatusConflict "user with this login already exists", db)
          else (Fail StatusInternalServerError e, db)
      | (Ok response, db) => (Registered StatusCreated response, db)
      end
  end.

Definition LoginUser (req : LoginRequest.t) (now : Z) (db : Users) : Reply :=
  match UserRepository.GetUserByLogin (LoginRequest.Login req) db with
  | Err _ => Fail StatusUnauthorized "invalid credentials"
  | Ok user =>
      if negb (CompareHashAndPassword (User.Password user)
                                      (LoginRequest.Password req))
      then Fail StatusUnauthorized "invalid credentials"
      else
        match AuthService.Login req (User.Password user) now db with
        | Err e => Fail StatusUnauthorized e
        | Ok response => LoggedIn StatusOK response
        end
  end.

End WithBcrypt.

End AuthHandlers.

(* ================================================================= *)
(** ** Example data for sign-up and login *)

Module AuthSample.

(** What follows the prefix [p] in [s], when [s] starts with it. *)
Fixpoint after_prefix (p s : string) : option string :=
  match p, s with
  | EmptyString, _ => Some s
  | String a p', String b s' =>
      if Ascii.eqb a b then after_prefix p' s' else None
  | String _ _, EmptyString => None
  end.

(** Tokens that spell their type and their user out. *)
#[local] Instance jwt : Middleware.JWTService :=
  {| Middleware.ValidateToken token :=
       match after_prefix "access." token with
       | Some uuid => Ok (Middleware.mkClaims uuid "buyer" "access")
       | None =>
           match after_prefix "refresh." token with
           | Some uuid => Ok (Middleware.mkClaims uuid "buyer" "refresh")
           | None => Err "token is malformed"
           end
       end |}.

#[local] Instance issuer : AuthService.TokenIssuer :=
  {| AuthService.GenerateAccessToken uuid _ := Ok ("access." ++ uuid)%string;
     AuthService.GenerateRefreshToken uuid _ := Ok ("refresh." ++ uuid)%string;
     AuthService.RefreshTokenPair token :=
       match after_prefix "refresh." token with
       | Some uuid =>
           Ok (("access." ++ uuid)%string, ("refresh." ++ uuid)%string)
       | None => Err "token is malformed"
       end |}.

#[local] Instance roles : AuthService.DefaultRole :=
  {| AuthService.RoleBuyer := "buyer" |}.

(** A hash that can be read. *)
#[local] Instance bcrypt : AuthHandlers.Bcrypt :=
  {| AuthHandlers.GenerateFromPassword p := Ok ("hash of " ++ p)%string;
     AuthHandlers.CompareHashAndPassword hash p :=
       (hash =? "hash of " ++ p)%string |}.

Definition no_users : Users := mkUsers [] 1.

Definition anna : RegisterRequest.t :=
  RegisterRequest.mk "anna" "anna@example.org" "secret1" "Anna" "" "".

(** The table after Anna signed up. *)
Definition with_anna : Users :=
  snd (AuthHandlers.RegisterUser anna "u-1" 0 no_users).

End AuthSample.

(* ================================================================= *)
(** * Properties *)

(** ** Running a repository method *)

Ltac run_db :=
  unfold bind, attempt, ret, fail, get_store,
    Gorm.first_request, Gorm.first_line, Gorm.first_service,
    Gorm.create_request, Gorm.save_request, Gorm.save_line,
    Gorm.delete_line; cbn [fst snd].

Lemma string_eqb_false (a b : string) : a <> b -> (a =? b)%string = false.
Proof. apply String.eqb_neq. Qed.

Lemma find_app_none {A : Type} (p : A -> bool) (l : list A) (x : A) :
  find p l = None -> p x = true -> find p (l ++ [x]) = Some x.
Proof.
  induction l as [|a l IH]; cbn; intros Hnone Hx.
  - now rewrite Hx.
  - destruct (p a); [discriminate | auto].
Qed.

Lemma find_app_some {A : Type} (p : A -> bool) (l l' : list A) (x : A) :
  find p l = Some x -> find p (l ++ l') = Some x.
Proof.
  induction l as [|a l IH]; cbn; [discriminate|].
  destruct (p a); auto.
Qed.

(* ================================================================= *)
(** ** The Go runtime on examples *)

Lemma find_existsb {A : Type} (p : A -> bool) (l : list A) :
  existsb p l = match find p l with Some _ => true | None => false end.
Proof.
  induction l as [|a l IH]; cbn; [reflexivity|].
  destruct (p a); [reflexivity | exact IH].
Qed.

(** [Create] of a line item: the row is inserted under the next key when its
    (request, service) pair is free, and refused by the unique index when it
    is taken, the key drawn being lost. *)
Lemma create_line_free (l : LogisticRequestService.t) (st : Store) :
  find (LogisticRequestService.has_key
          (LogisticRequestService.LogisticRequestID l)
          (LogisticRequestService.TransportServiceID l)) (lines st) = None ->
  Gorm.create_line l st
  = (Ok (LogisticRequestService.with_ID (line_seq st) l),
     mkStore (services st) (requests st)
             (lines st ++ [LogisticRequestService.with_ID (line_seq st) l])
             (request_seq st) (line_seq st + 1)).
Proof.
  intros Hfree. unfold Gorm.create_line. now rewrite find_existsb, Hfree.
Qed.

Lemma create_line_taken (l x : LogisticRequestService.t) (st : Store) :
  find (LogisticRequestService.has_key
          (LogisticRequestService.LogisticRequestID l)
          (LogisticRequestService.TransportServiceID l)) (lines st) = Some x ->
  Gorm.create_line l st
  = (Err Gorm.ErrDuplicatedKey,
     mkStore (services st) (requests st) (lines st)
             (request_seq st) (line_seq st + 1)).
Proof.
  intros Htaken. unfold Gorm.create_line. now rewrite find_existsb, Htaken.
Qed.

Example ToLower_mixed :
  Go.ToLower "  МоскВА Spb Ёж" = "  москва spb ёж".
Proof. vm_compute. reflexivity. Qed.

Example TrimSpace_both : Go.TrimSpace "  нижний новгород " = "нижний новгород".
Proof. vm_compute. reflexivity. Qed.

Example float_to_int_trunc :
  Go.float_to_int 2.75%float = 2 /\ Go.float_to_int (-2.75)%float = -2
  /\ Go.float_to_int (2500 / 1000)%float = 2 /\ Go.float_to_int 0.5%float = 0.
Proof. vm_compute. repeat split; reflexivity. Qed.

Example float_to_int_out_of_range :
  Go.float_to_int 0x1p+99%float = Go.min_int
  /\ Go.float_to_int (-0x1p+99)%float = Go.min_int
  /\ Go.float_to_int PrimFloat.infinity = Go.min_int
  /\ Go.float_to_int PrimFloat.nan = Go.min_int
  /\ Go.float_to_int 0x1p+62%float = 2 ^ 62.
Proof. vm_compute. repeat split; reflexivity. Qed.

Example itoa_7 : Go.itoa 7 = "7" /\ Go.itoa (-12) = "-12" /\ Go.itoa 0 = "0".
Proof. vm_compute. repeat split; reflexivity. Qed.

(* ================================================================= *)
(** ** The repository *)

Section RepositoryFacts.

Context {calc : DeliveryCalculator} {sys : SystemCreator}.

(** *** Empty item list *)

(** C6: [CreateCargoLogisticRequest] with an empty item list fails with the
    error "no items provided" and leaves the database as it was: no row is
    created and no key is drawn. The guard does nothing else: on a list
    with an item the call is the transaction. *)
Theorem CreateCargoLogisticRequest_no_items (creatorID : Z) (st : Store) :
  Repository.CreateCargoLogisticRequest [] creatorID st
  = (Err "no items provided", st)
  /\ after (Repository.CreateCargoLogisticRequest [] creatorID) st = st
  /\ (forall first rest,
        Repository.CreateCargoLogisticRequest (first :: rest) creatorID st
        = Repository.createCargoLogisticRequestTx (first :: rest) creatorID st).
Proof.
  split; [reflexivity|]. split; [reflexivity|].
  intros first rest. reflexivity.
Qed.

(** *** Status preconditions *)

(** C9: forming a request whose status is not draft, and completing or
    rejecting a request whose status is not formed, returns the error message
    of the precondition and leaves the database as it was. *)
Theorem status_precondition_violations
  (st : Store) (orderID : Z) (order : LogisticRequest.t)
  (Hfound : find (fun o => LogisticRequest.ID o =? orderID) (requests st)
            = Some order) :
  (LogisticRequest.Status order <> StatusDraft ->
   forall fromCity toCity weight length width height now,
     Repository.FormLogisticRequest orderID fromCity toCity
       weight length width height now st
     = (Err "можно формировать только черновики", st))
  /\
  (LogisticRequest.Status order <> StatusFormed ->
   forall status moderatorID now,
     status = StatusCompleted \/ status = StatusRejected ->
     Repository.CompleteLogisticRequest orderID status moderatorID now st
     = (Err "можно завершать только сформированные заявки", st)).
Proof.
  split.
  - intros Hstatus fromCity toCity weight length width height now.
    unfold Repository.FormLogisticRequest. run_db.
    rewrite Hfound. cbn.
    now rewrite (string_eqb_false _ _ Hstatus).
  - intros Hstatus status moderatorID now Hwhich.
    unfold Repository.CompleteLogisticRequest.
    assert (Hgate : negb (status =? StatusCompleted)%string
                    && negb (status =? StatusRejected)%string = false).
    { destruct Hwhich as [-> | ->]; reflexivity. }
    rewrite Hgate. run_db. rewrite Hfound. cbn.
    now rewrite (string_eqb_false _ _ Hstatus).
Qed.

(** *** Get-or-create of the draft *)

Lemma is_draft_of_new_draft (creatorID id : Z) :
  Repository.is_draft_of creatorID
    (LogisticRequest.with_ID id (Repository.new_draft creatorID)) = true.
Proof.
  unfold Repository.is_draft_of; cbn. now rewrite Z.eqb_refl.
Qed.

Lemma is_guest_draft_of_new_guest_draft (sessionID : string) (id : Z) :
  Repository.is_guest_draft_of sessionID
    (LogisticRequest.with_ID id (Repository.new_guest_draft sessionID)) = true.
Proof.
  unfold Repository.is_guest_draft_of; cbn. now rewrite String.eqb_refl.
Qed.

Lemma GetCartIcon_found (creatorID : Z) (st : Store) (order : LogisticRequest.t) :
  find (Repository.is_draft_of creatorID) (requests st) = Some order ->
  Repository.GetCartIcon creatorID st
  = (Ok (LogisticRequest.ID order,
         Z.of_nat (List.length
                     (Gorm.preload_services (LogisticRequest.ID order) st))),
     st).
Proof.
  intros Hfound. unfold Repository.GetCartIcon. run_db. now rewrite Hfound.
Qed.

Lemma GetCartIcon_created (creatorID : Z) (st : Store) :
  find (Repository.is_draft_of creatorID) (requests st) = None ->
  let order := LogisticRequest.with_ID (request_seq st)
                 (Repository.new_draft creatorID) in
  Repository.GetCartIcon creatorID st
  = (Ok (request_seq st, 0),
     mkStore (services st) (requests st ++ [order]) (lines st)
             (request_seq st + 1) (line_seq st)).
Proof.
  intros Hnone. unfold Repository.GetCartIcon, Repository.CreateDraftLogisticRequest.
  run_db. now rewrite Hnone.
Qed.

Lemma ensureGuestDraft_found (sessionID : string) (st : Store)
  (order : LogisticRequest.t) :
  find (Repository.is_guest_draft_of sessionID) (requests st) = Some order ->
  Repository.ensureGuestDraftLogisticRequest sessionID st
  = (Ok (LogisticRequest.ID order), st).
Proof.
  intros Hfound. unfold Repository.ensureGuestDraftLogisticRequest. run_db.
  now rewrite Hfound.
Qed.

Lemma ensureGuestDraft_created (sessionID : string) (st : Store) :
  find (Repository.is_guest_draft_of sessionID) (requests st) = None ->
  let order := LogisticRequest.with_ID (request_seq st)
                 (Repository.new_guest_draft sessionID) in
  Repository.ensureGuestDraftLogisticRequest sessionID st
  = (Ok (request_seq st),
     mkStore (services st) (requests st ++ [order]) (lines st)
             (request_seq st + 1) (line_seq st)).
Proof.
  intros Hnone. unfold Repository.ensureGuestDraftLogisticRequest. run_db.
  now rewrite Hnone.
Qed.

(** C10: [GetCartIcon] never fails: a user who has a draft gets its key and
    the number of its line items and the database is not touched; a user who
    has none gets the key of a draft created on the spot, with count 0, the
    only change to the database being that new row. Either way the user has
    a draft afterwards, the one whose key was returned.
    [ensureGuestDraftLogisticRequest] does the same by session. *)
Theorem draft_get_or_create (creatorID : Z) (sessionID : string) (st : Store) :
  (exists id count st' order,
      Repository.GetCartIcon creatorID st = (Ok (id, count), st')
      /\ find (Repository.is_draft_of creatorID) (requests st') = Some order
      /\ LogisticRequest.ID order = id
      /\ lines st' = lines st
      /\ (find (Repository.is_draft_of creatorID) (requests st) = None ->
          count = 0
          /\ order = LogisticRequest.with_ID (request_seq st)
                       (Repository.new_draft creatorID)
          /\ requests st' = requests st ++ [order])
      /\ (find (Repository.is_draft_of creatorID) (requests st) <> None ->
          st' = st
          /\ count = Z.of_nat (List.length (Gorm.preload_services id st))))
  /\
  (exists id st' order,
      Repository.ensureGuestDraftLogisticRequest sessionID st = (Ok id, st')
      /\ find (Repository.is_guest_draft_of sessionID) (requests st') = Some order
      /\ LogisticRequest.ID order = id
      /\ lines st' = lines st
      /\ (find (Repository.is_guest_draft_of sessionID) (requests st) = None ->
          order = LogisticRequest.with_ID (request_seq st)
                    (Repository.new_guest_draft sessionID)
          /\ requests st' = requests st ++ [order])
      /\ (find (Repository.is_guest_draft_of sessionID) (requests st) <> None ->
          st' = st)).
Proof.
  split.
  - destruct (find (Repository.is_draft_of creatorID) (requests st))
      as [order|] eqn:Hfind.
    + exists (LogisticRequest.ID order). eexists. exists st, order.
      rewrite (GetCartIcon_found _ _ _ Hfind).
      repeat split; auto; try discriminate.
    + exists (request_seq st), 0. eexists. eexists.
      rewrite (GetCartIcon_created _ _ Hfind). cbn.
      split; [reflexivity|]. split.
      { apply find_app_none; [exact Hfind | apply is_draft_of_new_draft]. }
      repeat split; auto; try congruence.
  - destruct (find (Repository.is_guest_draft_of sessionID) (requests st))
      as [order|] eqn:Hfind.
    + exists (LogisticRequest.ID order), st, order.
      rewrite (ensureGuestDraft_found _ _ _ Hfind).
      repeat split; auto; try discriminate.
    + exists (request_seq st). eexists. eexists.
      rewrite (ensureGuestDraft_created _ _ Hfind). cbn.
      split; [reflexivity|]. split.
      { apply find_app_none; [exact Hfind | apply is_guest_draft_of_new_guest_draft]. }
      repeat split; auto; try congruence.
Qed.

(** *** Adding a service to a draft *)


Lemma find_replace_by_key
  (p : LogisticRequestService.t -> bool)
  (rows : list LogisticRequestService.t)
  (old new : LogisticRequestService.t) :
  find p rows = Some old ->
  p new = true ->
  LogisticRequestService.ID new = LogisticRequestService.ID old ->
  find p (map (fun r => if LogisticRequestService.ID r
                           =? LogisticRequestService.ID new
                        then new else r) rows) = Some new.
Proof.
  intros Hold Hnew Hid. induction rows as [|a rows IH]; cbn in *; [discriminate|].
  destruct (LogisticRequestService.ID a =? LogisticRequestService.ID new) eqn:Ha.
  - now rewrite Hnew.
  - destruct (p a) eqn:Hpa; [|auto].
    injection Hold as ->. rewrite Hid, Z.eqb_refl in Ha. discriminate.
Qed.

Lemma find_existsb_same (p : LogisticRequestService.t -> bool)
  (rows : list LogisticRequestService.t) (l : LogisticRequestService.t) :
  find p rows = Some l ->
  existsb (fun r => LogisticRequestService.ID r =? LogisticRequestService.ID l)
          rows = true.
Proof.
  intros Hfind. apply find_some in Hfind as [Hin _].
  apply existsb_exists. exists l. split; [exact Hin | apply Z.eqb_refl].
Qed.

Lemma has_key_with_Quantity (requestID serviceID q : Z)
  (l : LogisticRequestService.t) :
  LogisticRequestService.has_key requestID serviceID
    (LogisticRequestService.with_Quantity q l)
  = LogisticRequestService.has_key requestID serviceID l.
Proof. reflexivity. Qed.

Lemma GetTransportService_found (serviceID : Z) (st : Store)
  (svc : TransportService.t) :
  find (fun s => TransportService.ID s =? serviceID) (services st) = Some svc ->
  Repository.GetTransportService serviceID st = (Ok svc, st).
Proof.
  intros Hsvc. unfold Repository.GetTransportService. run_db. now rewrite Hsvc.
Qed.

Lemma GetTransportService_missing (serviceID : Z) (st : Store) :
  find (fun s => TransportService.ID s =? serviceID) (services st) = None ->
  Repository.GetTransportService serviceID st = (Err "услуга не найдена", st).
Proof.
  intros Hsvc. unfold Repository.GetTransportService. run_db. now rewrite Hsvc.
Qed.















(** *** Removing a service from a draft *)

Lemma find_decrement (requestID serviceID : Z)
  (rows : list LogisticRequestService.t) (l : LogisticRequestService.t) :
  find (LogisticRequestService.has_key requestID serviceID) rows = Some l ->
  find (LogisticRequestService.has_key requestID serviceID)
       (map (fun r => if LogisticRequestService.has_key requestID serviceID r
                      then LogisticRequestService.with_Quantity
                             (LogisticRequestService.Quantity r - 1) r
                      else r) rows)
  = Some (LogisticRequestService.with_Quantity
            (LogisticRequestService.Quantity l - 1) l).
Proof.
  induction rows as [|a rows IH]; cbn; [discriminate|].
  destruct (LogisticRequestService.has_key requestID serviceID a) eqn:Ha.
  - intros [= ->]. now rewrite has_key_with_Quantity, Ha.
  - intros Hfind. rewrite Ha. auto.
Qed.

Lemma find_filter_out {A : Type} (p : A -> bool) (rows : list A) :
  find p (filter (fun r => negb (p r)) rows) = None.
Proof.
  induction rows as [|a rows IH]; cbn; [reflexivity|].
  destruct (p a) eqn:Ha; cbn; [exact IH | now rewrite Ha].
Qed.

Lemma RemoveGuest_run (st : Store) (order : LogisticRequest.t) (serviceID : Z)
  (l : LogisticRequestService.t) :
  find (Repository.is_guest_draft_of "guest") (requests st) = Some order ->
  find (LogisticRequestService.has_key (LogisticRequest.ID order) serviceID)
       (lines st) = Some l ->
  Repository.RemoveTransportServiceFromGuestDraftLogisticRequest serviceID st
  = if LogisticRequestService.Quantity l >? 1
    then Sql.update_decrement (LogisticRequest.ID order) serviceID st
    else Sql.delete_where (LogisticRequest.ID order) serviceID st.
Proof.
  intros Hdraft Hline.
  unfold Repository.RemoveTransportServiceFromGuestDraftLogisticRequest.
  unfold bind at 1. rewrite (ensureGuestDraft_found _ _ _ Hdraft).
  unfold bind, get_store, Sql.select_quantity. rewrite Hline. cbn [option_map].
  now destruct (LogisticRequestService.Quantity l >? 1).
Qed.

Lemma RemoveService_run (st : Store) (orderID serviceID : Z)
  (l : LogisticRequestService.t) :
  find (LogisticRequestService.has_key orderID serviceID) (lines st) = Some l ->
  Repository.RemoveServiceFromLogisticRequest orderID serviceID st
  = (Ok tt,
     mkStore (services st) (requests st)
       (filter (fun r => negb (LogisticRequestService.ID r
                               =? LogisticRequestService.ID l)) (lines st))
       (request_seq st) (line_seq st)).
Proof.
  intros Hline. unfold Repository.RemoveServiceFromLogisticRequest. run_db.
  now rewrite Hline.
Qed.

(** C8, as the code has it: the guest removal lowers the quantity of the line
    item by 1 when it is above 1 and deletes the row otherwise; the
    authenticated removal [RemoveServiceFromLogisticRequest] deletes the row
    whatever its quantity. *)
Theorem remove_service_by_path :
  (forall (st : Store) (order : LogisticRequest.t) (serviceID : Z)
          (l : LogisticRequestService.t),
      find (Repository.is_guest_draft_of "guest") (requests st) = Some order ->
      find (LogisticRequestService.has_key (LogisticRequest.ID order) serviceID)
           (lines st) = Some l ->
      exists st',
        Repository.RemoveTransportServiceFromGuestDraftLogisticRequest serviceID st
        = (Ok tt, st')
        /\ requests st' = requests st
        /\ (1 < LogisticRequestService.Quantity l ->
            List.length (lines st') = List.length (lines st)
            /\ find (LogisticRequestService.has_key (LogisticRequest.ID order)
                       serviceID) (lines st')
               = Some (LogisticRequestService.with_Quantity
                         (LogisticRequestService.Quantity l - 1) l))
        /\ (LogisticRequestService.Quantity l <= 1 ->
            lines st'
            = filter (fun r => negb (LogisticRequestService.has_key
                                       (LogisticRequest.ID order) serviceID r))
                     (lines st)
            /\ find (LogisticRequestService.has_key (LogisticRequest.ID order)
                       serviceID) (lines st') = None))
  /\
  (forall (st : Store) (orderID serviceID : Z) (l : LogisticRequestService.t),
      find (LogisticRequestService.has_key orderID serviceID) (lines st) = Some l ->
      exists st',
        Repository.RemoveServiceFromLogisticRequest orderID serviceID st
        = (Ok tt, st')
        /\ requests st' = requests st
        /\ lines st'
           = filter (fun r => negb (LogisticRequestService.ID r
                                    =? LogisticRequestService.ID l)) (lines st)
        /\ ~ In l (lines st')).
Proof.
  split.
  - intros st order serviceID l Hdraft Hline.
    rewrite (RemoveGuest_run _ _ _ _ Hdraft Hline).
    destruct (Z.gtb_spec (LogisticRequestService.Quantity l) 1) as [Hq|Hq].
    + eexists. split; [reflexivity|]. split; [reflexivity|]. cbn [lines].
      split; [|lia]. intros _. split; [apply length_map|].
      now apply find_decrement.
    + eexists. split; [reflexivity|]. split; [reflexivity|]. cbn [lines].
      split; [lia|]. intros _. split; [reflexivity|].
      apply find_filter_out.
  - intros st orderID serviceID l Hline.
    eexists. rewrite (RemoveService_run _ _ _ _ Hline).
    repeat split. cbn [lines]. intros Hin.
    apply filter_In in Hin as [_ Hin]. now rewrite Z.eqb_refl in Hin.
Qed.

(** *** The aggregation loop *)

Lemma add_items_cons (orderID : Z) (it : CargoLogisticRequestItem.t)
  (rest : list CargoLogisticRequestItem.t) (acc : Repository.Aggregates)
  (st : Store) :
  Repository.add_items orderID (it :: rest) acc st
  = match Spec.item_service (services st) it with
    | None =>
        (Err ("service "
              ++ Go.itoa (CargoLogisticRequestItem.TransportServiceID it)
              ++ " not found")%string, st)
    | Some svc =>
        let res := Spec.item_quote svc it in
        if Quote.IsValid res
        then
          match find (LogisticRequestService.has_key orderID
                        (CargoLogisticRequestItem.TransportServiceID it))
                     (lines st) with
          | Some _ =>
              (Err Gorm.ErrDuplicatedKey,
               mkStore (services st) (requests st) (lines st)
                       (request_seq st) (line_seq st + 1))
          | None =>
              Repository.add_items orderID rest
                (Repository.accumulate acc res it)
                (mkStore (services st) (requests st)
                   (lines st
                    ++ [LogisticRequestService.mk (line_seq st) orderID
                          (CargoLogisticRequestItem.TransportServiceID it)
                          1 0 ""])
                   (request_seq st) (line_seq st + 1))
          end
        else (Err (Quote.ErrorMessage res), st)
    end.
Proof.
  cbn [Repository.add_items]. unfold Spec.item_service, Spec.item_quote.
  unfold bind at 1, attempt at 1, Repository.GetTransportService.
  run_db.
  destruct (find _ (services st)) as [svc|]; [|reflexivity].
  unfold Repository.quote_item.
  destruct (Quote.IsValid _); [|reflexivity]. cbn [negb].
  unfold bind.
  destruct (find _ (lines st)) as [x|] eqn:Hline.
  - now rewrite (create_line_taken
                   (LogisticRequestService.new orderID
                      (CargoLogisticRequestItem.TransportServiceID it))
                   x st Hline).
  - now rewrite (create_line_free
                   (LogisticRequestService.new orderID
                      (CargoLogisticRequestItem.TransportServiceID it))
                   st Hline).
Qed.

Lemma find_snoc_none {A : Type} (p : A -> bool) (l : list A) (x : A) :
  find p (l ++ [x]) = None -> find p l = None /\ p x = false.
Proof.
  induction l as [|a l IH]; cbn.
  - destruct (p x); [discriminate | auto].
  - destruct (p a); [discriminate | exact IH].
Qed.

Lemma find_snoc_free {A : Type} (p : A -> bool) (l : list A) (x : A) :
  find p l = None -> p x = false -> find p (l ++ [x]) = None.
Proof.
  intros Hl Hx. induction l as [|a l IH]; cbn in *.
  - now rewrite Hx.
  - destruct (p a); [discriminate | auto].
Qed.

Lemma has_key_other_service (orderID serviceID serviceID' id : Z) :
  LogisticRequestService.has_key orderID serviceID'
    (LogisticRequestService.mk id orderID serviceID 1 0 "")
  = (serviceID =? serviceID').
Proof.
  unfold LogisticRequestService.has_key. cbn. now rewrite Z.eqb_refl.
Qed.

(** The (request, service) pair of every item is free in the line items. *)
Lemma items_free_after (orderID : Z) (it : CargoLogisticRequestItem.t)
  (rest : list CargoLogisticRequestItem.t) (rows : list LogisticRequestService.t)
  (id : Z) :
  ~ In (CargoLogisticRequestItem.TransportServiceID it)
       (map CargoLogisticRequestItem.TransportServiceID rest) ->
  Forall (fun i => find (LogisticRequestService.has_key orderID
                           (CargoLogisticRequestItem.TransportServiceID i))
                        rows = None) rest ->
  Forall (fun i => find (LogisticRequestService.has_key orderID
                           (CargoLogisticRequestItem.TransportServiceID i))
                        (rows ++ [LogisticRequestService.mk id orderID
                                    (CargoLogisticRequestItem.TransportServiceID it)
                                    1 0 ""]) = None) rest.
Proof.
  intros Hnotin Hfree. rewrite Forall_forall in *. intros i Hi.
  apply find_snoc_free; [now apply Hfree|].
  rewrite has_key_other_service. apply Z.eqb_neq. intros Heq.
  apply Hnotin. rewrite Heq. now apply in_map.
Qed.

(** The loop, when it ends well: every item passed, no two items named one
    service and no pair was taken, the aggregates are the folds of the loop
    body, and one row per item was appended. *)
Lemma add_items_ok (orderID : Z) (items : list CargoLogisticRequestItem.t) :
  forall (acc acc' : Repository.Aggregates) (st st' : Store),
    Repository.add_items orderID items acc st = (Ok acc', st') ->
    exists quotes,
      Forall2 (Spec.item_passes (services st)) items quotes
      /\ Repository.maxDays acc'
         = fold_left Z.max (map Quote.DeliveryDays quotes) (Repository.maxDays acc)
      /\ Repository.totalCost acc'
         = fold_left PrimFloat.add (map Quote.TotalCost quotes)
                     (Repository.totalCost acc)
      /\ Repository.totalWeight acc'
         = fold_left PrimFloat.add (map CargoLogisticRequestItem.Weight items)
                     (Repository.totalWeight acc)
      /\ Repository.totalLength acc'
         = fold_left PrimFloat.add (map CargoLogisticRequestItem.Length items)
                     (Repository.totalLength acc)
      /\ Repository.totalWidth acc'
         = fold_left PrimFloat.add (map CargoLogisticRequestItem.Width items)
                     (Repository.totalWidth acc)
      /\ Repository.totalHeight acc'
         = fold_left PrimFloat.add (map CargoLogisticRequestItem.Height items)
                     (Repository.totalHeight acc)
      /\ st' = mkStore (services st) (requests st)
                 (lines st ++ Spec.item_rows orderID (line_seq st) items)
                 (request_seq st)
                 (line_seq st + Z.of_nat (List.length items)).
Proof.
  induction items as [|it rest IH]; intros acc acc' st st' Hrun.
  - injection Hrun as <- <-. exists []. cbn.
    rewrite app_nil_r, Z.add_0_r. destruct st. repeat split; constructor.
  - rewrite add_items_cons in Hrun.
    destruct (Spec.item_service (services st) it) as [svc|] eqn:Hsvc;
      [|discriminate].
    cbn zeta in Hrun.
    destruct (Quote.IsValid (Spec.item_quote svc it)) eqn:Hvalid;
      [|discriminate].
    destruct (find _ (lines st)) as [x|]; [discriminate|].
    apply IH in Hrun as (quotes & Hpass & Hdays & Hcost & Hw & Hl & Hwd & Hh & ->).
    exists (Spec.item_quote svc it :: quotes). cbn [services] in Hpass.
    split; [constructor; [exists svc; auto | exact Hpass]|].
    cbn [map fold_left]. cbn in Hdays, Hcost, Hw, Hl, Hwd, Hh.
    rewrite Hdays, Hcost, Hw, Hl, Hwd, Hh.
    unfold Repository.raise_days.
    repeat split.
    + f_equal. destruct (Z.gtb_spec (Quote.DeliveryDays (Spec.item_quote svc it))
                           (Repository.maxDays acc)); lia.
    + cbn [services requests lines request_seq line_seq List.length Spec.item_rows].
      rewrite <- app_assoc. cbn [app]. f_equal. lia.
Qed.

(** A loop that ends well met no pair twice: the items name pairwise
    different services, none of them in a line item of the request yet. *)
Lemma add_items_ok_distinct (orderID : Z)
  (items : list CargoLogisticRequestItem.t) :
  forall (acc acc' : Repository.Aggregates) (st st' : Store),
    Repository.add_items orderID items acc st = (Ok acc', st') ->
    Spec.distinct_services items
    /\ Forall (fun i => find (LogisticRequestService.has_key orderID
                                (CargoLogisticRequestItem.TransportServiceID i))
                             (lines st) = None) items.
Proof.
  unfold Spec.distinct_services.
  induction items as [|it rest IH]; intros acc acc' st st' Hrun.
  - split; constructor.
  - rewrite add_items_cons in Hrun.
    destruct (Spec.item_service (services st) it) as [svc|]; [|discriminate].
    cbn zeta in Hrun.
    destruct (Quote.IsValid (Spec.item_quote svc it)); [|discriminate].
    destruct (find _ (lines st)) as [x|] eqn:Hfree; [discriminate|].
    apply IH in Hrun as [Hdistinct Hrest]. cbn [lines] in Hrest.
    rewrite Forall_forall in Hrest.
    assert (Hboth : forall i, In i rest ->
                find (LogisticRequestService.has_key orderID
                        (CargoLogisticRequestItem.TransportServiceID i))
                     (lines st) = None
                /\ CargoLogisticRequestItem.TransportServiceID it
                   <> CargoLogisticRequestItem.TransportServiceID i).
    { intros i Hi. destruct (find_snoc_none _ _ _ (Hrest i Hi)) as [Hl Hx].
      split; [exact Hl|]. rewrite has_key_other_service in Hx.
      now apply Z.eqb_neq. }
    split.
    + cbn [map]. constructor; [|exact Hdistinct].
      intros Hin. apply in_map_iff in Hin as (i & Heq & Hi).
      destruct (Hboth i Hi) as [_ Hne]. congruence.
    + constructor; [exact Hfree|]. apply Forall_forall.
      intros i Hi. now destruct (Hboth i Hi).
Qed.

(** The loop, when it stops at an item that fails, the items before it
    having gone through: that item gives the error, and only line items and
    their sequence have moved. *)
Lemma add_items_first_failure (orderID : Z)
  (pre : list CargoLogisticRequestItem.t) (it : CargoLogisticRequestItem.t)
  (post : list CargoLogisticRequestItem.t) (e : string) :
  forall (acc : Repository.Aggregates) (st : Store),
    Forall (fun i => exists q, Spec.item_passes (services st) i q) pre ->
    Spec.distinct_services pre ->
    Forall (fun i => find (LogisticRequestService.has_key orderID
                             (CargoLogisticRequestItem.TransportServiceID i))
                          (lines st) = None) pre ->
    Spec.item_fails (services st) it e ->
    exists st',
      Repository.add_items orderID (pre ++ it :: post) acc st = (Err e, st')
      /\ services st' = services st /\ requests st' = requests st.
Proof.
  unfold Spec.distinct_services.
  induction pre as [|p pre IH]; intros acc st Hpre Hdistinct Hfree Hfail.
  - cbn [app]. rewrite add_items_cons. exists st.
    destruct Hfail as [[-> ->] | (svc & -> & Hinvalid & ->)].
    + auto.
    + cbn zeta. rewrite Hinvalid. auto.
  - inversion Hpre as [|? ? (q & svc & Hsvc & Hq & Hvalid) Hrest]; subst.
    inversion Hdistinct as [|? ? Hnotin Hdistinct']; subst.
    inversion Hfree as [|? ? Hp Hfree']; subst.
    cbn [app]. rewrite add_items_cons, Hsvc. cbn zeta. rewrite Hvalid, Hp.
    edestruct IH as (st' & -> & Hs & Hr); [| | | | eexists; split; [reflexivity|]].
    + exact Hrest.
    + exact Hdistinct'.
    + cbn [lines]. now apply items_free_after.
    + exact Hfail.
    + cbn in Hs, Hr. auto.
Qed.

(** The loop stops with an error as soon as the list holds an item that
    fails: it never ends well. *)
Lemma add_items_failing_item (orderID : Z)
  (items : list CargoLogisticRequestItem.t) (it : CargoLogisticRequestItem.t)
  (e : string) :
  forall (acc : Repository.Aggregates) (st : Store),
    In it items ->
    Spec.item_fails (services st) it e ->
    exists e' st',
      Repository.add_items orderID items acc st = (Err e', st').
Proof.
  intros acc st Hin Hfail.
  destruct (Repository.add_items orderID items acc st) as [[acc'|e'] st']
    eqn:Hrun; [|eauto].
  exfalso. apply add_items_ok in Hrun as (quotes & Hpass & _).
  revert Hin. clear -Hpass Hfail. induction Hpass as [|i q items quotes Hi _ IH].
  - intros [].
  - intros [<- | Hin]; [|auto].
    destruct Hi as (svc & Hsvc & <- & Hvalid).
    destruct Hfail as [[Hnone _] | (svc' & Hsvc' & Hinvalid & _)]; congruence.
Qed.

(** An item either passes or fails. *)
Lemma item_passes_or_fails (svcs : list TransportService.t)
  (it : CargoLogisticRequestItem.t) :
  (exists q, Spec.item_passes svcs it q) \/ (exists e, Spec.item_fails svcs it e).
Proof.
  unfold Spec.item_passes, Spec.item_fails.
  destruct (Spec.item_service svcs it) as [svc|] eqn:Hsvc.
  - destruct (Quote.IsValid (Spec.item_quote svc it)) eqn:Hvalid.
    + left. eauto.
    + right. eexists. right. eauto.
  - right. eexists. left. eauto.
Qed.

Lemma item_passes_not_fails (svcs : list TransportService.t)
  (it : CargoLogisticRequestItem.t) (q : Quote.t) (e : string) :
  Spec.item_passes svcs it q -> Spec.item_fails svcs it e -> False.
Proof.
  intros (svc & Hsvc & <- & Hvalid) [[Hnone _] | (svc' & Hsvc' & Hinvalid & _)];
    congruence.
Qed.

(** A list of items passes as a whole, or has a first item that fails. *)
Lemma first_failure (svcs : list TransportService.t)
  (items : list CargoLogisticRequestItem.t) :
  Forall (fun i => exists q, Spec.item_passes svcs i q) items
  \/ exists pre it post e,
       items = pre ++ it :: post
       /\ Forall (fun i => exists q, Spec.item_passes svcs i q) pre
       /\ Spec.item_fails svcs it e.
Proof.
  induction items as [|it rest IH]; [left; constructor|].
  destruct (item_passes_or_fails svcs it) as [Hpass | (e & Hfail)].
  - destruct IH as [Hall | (pre & bad & post & e & -> & Hpre & Hfail)].
    + left. now constructor.
    + right. exists (it :: pre), bad, post, e. repeat split; auto.
  - right. exists [], it, rest, e. repeat split; auto.
Qed.

Lemma add_items_all_pass (orderID : Z) (items : list CargoLogisticRequestItem.t)
  (acc : Repository.Aggregates) (st : Store) :
  Forall (fun i => exists q, Spec.item_passes (services st) i q) items ->
  Spec.distinct_services items ->
  Forall (fun i => find (LogisticRequestService.has_key orderID
                           (CargoLogisticRequestItem.TransportServiceID i))
                        (lines st) = None) items ->
  exists acc' st', Repository.add_items orderID items acc st = (Ok acc', st').
Proof.
  unfold Spec.distinct_services.
  revert acc st. induction items as [|it rest IH];
    intros acc st Hall Hdistinct Hfree.
  - now exists acc, st.
  - inversion Hall as [|? ? (q & svc & Hsvc & Hq & Hvalid) Hrest]; subst.
    inversion Hdistinct as [|? ? Hnotin Hdistinct']; subst.
    inversion Hfree as [|? ? Hit Hfree']; subst.
    rewrite add_items_cons, Hsvc. cbn zeta. rewrite Hvalid, Hit.
    apply IH; [exact Hrest | exact Hdistinct' |].
    cbn [lines]. now apply items_free_after.
Qed.

(** In a database whose line items all belong to requests with drawn keys,
    no pair of the next request is taken. *)
Lemma drawn_keys_free (st : Store) (items : list CargoLogisticRequestItem.t) :
  line_requests_drawn st ->
  Forall (fun i => find (LogisticRequestService.has_key (request_seq st)
                           (CargoLogisticRequestItem.TransportServiceID i))
                        (lines st) = None) items.
Proof.
  intros Hdrawn. apply Forall_forall. intros i _.
  unfold line_requests_drawn in Hdrawn.
  induction Hdrawn as [|l rows Hl _ IH]; cbn; [reflexivity|].
  unfold LogisticRequestService.has_key at 1.
  destruct (Z.eqb_spec (LogisticRequestService.LogisticRequestID l)
                       (request_seq st)); [lia | exact IH].
Qed.

(** *** Creating a request from its items *)

Lemma CreateCargo_run (first : CargoLogisticRequestItem.t)
  (rest : list CargoLogisticRequestItem.t) (creatorID : Z) (st : Store) :
  let order := LogisticRequest.with_ID (request_seq st)
                 (Repository.cargo_order first creatorID) in
  let st1 := mkStore (services st) (requests st ++ [order]) (lines st)
                     (request_seq st + 1) (line_seq st) in
  Repository.CreateCargoLogisticRequest (first :: rest) creatorID st
  = match Repository.add_items (request_seq st) (first :: rest)
            Repository.no_aggregates st1 with
    | (Ok acc, st2) =>
        (Ok (request_seq st),
         after (Gorm.save_request
                  (LogisticRequest.with_aggregates
                     (Repository.maxDays acc) (Repository.totalCost acc)
                     (Repository.totalWeight acc) (Repository.totalLength acc)
                     (Repository.totalWidth acc) (Repository.totalHeight acc)
                     order)) st2)
    | (Err e, st2) => (Err e, rollback st st2)
    end.
Proof.
  intros order st1.
  unfold Repository.CreateCargoLogisticRequest,
    Repository.createCargoLogisticRequestTx, Transaction.
  cbn [List.length Nat.eqb].
  unfold bind at 1, Gorm.create_request. fold order. fold st1.
  unfold bind at 1. change (LogisticRequest.ID order) with (request_seq st).
  destruct (Repository.add_items (request_seq st) (first :: rest)
              Repository.no_aggregates st1) as [[acc|e] st2]; reflexivity.
Qed.

Lemma find_replace_request (k : Z) (rows : list LogisticRequest.t)
  (o : LogisticRequest.t) :
  LogisticRequest.ID o = k ->
  existsb (fun r => LogisticRequest.ID r =? k) rows = true ->
  find (fun r => LogisticRequest.ID r =? k)
       (map (fun r => if LogisticRequest.ID r =? k then o else r) rows) = Some o.
Proof.
  intros Ho. induction rows as [|a rows IH]; cbn; [discriminate|].
  destruct (LogisticRequest.ID a =? k) eqn:Ha; cbn.
  - intros _. now rewrite Ho, Z.eqb_refl.
  - intros Hex. rewrite Ha. auto.
Qed.

Lemma replace_fresh_request (k : Z) (o o' : LogisticRequest.t)
  (rows : list LogisticRequest.t) :
  LogisticRequest.ID o = k ->
  Forall (fun r => LogisticRequest.ID r < k) rows ->
  map (fun r => if LogisticRequest.ID r =? k then o' else r) (rows ++ [o])
  = rows ++ [o'].
Proof.
  intros Ho Hfresh. rewrite map_app. cbn. rewrite Ho, Z.eqb_refl. f_equal.
  induction Hfresh as [|a rows Ha _ IH]; cbn; [reflexivity|].
  rewrite IH. destruct (Z.eqb_spec (LogisticRequest.ID a) k); [lia|reflexivity].
Qed.

Lemma existsb_last_request (k : Z) (rows : list LogisticRequest.t)
  (o : LogisticRequest.t) :
  LogisticRequest.ID o = k ->
  existsb (fun r => LogisticRequest.ID r =? k) (rows ++ [o]) = true.
Proof.
  intros Ho. rewrite existsb_app. cbn. rewrite Ho, Z.eqb_refl.
  now rewrite orb_true_r.
Qed.

Lemma fold_max_bounds (ds : list Z) :
  forall m0,
    m0 <= fold_left Z.max ds m0
    /\ Forall (fun d => d <= fold_left Z.max ds m0) ds
    /\ (fold_left Z.max ds m0 = m0 \/ In (fold_left Z.max ds m0) ds).
Proof.
  induction ds as [|d ds IH]; intros m0; cbn.
  - repeat split; auto; lia.
  - destruct (IH (Z.max m0 d)) as (Hle & Hall & Hin).
    split; [lia|]. split; [constructor; [lia | exact Hall]|].
    destruct Hin as [Heq | Hin]; [|auto].
    rewrite Heq. destruct (Z.max_spec m0 d) as [[_ ->] | [_ ->]]; auto.
Qed.

Lemma fold_max_is_maximum (ds : list Z) :
  ds <> [] ->
  Forall (fun d => 0 <= d) ds ->
  Spec.is_maximum (fold_left Z.max ds 0) ds.
Proof.
  intros Hne Hpos. destruct (fold_max_bounds ds 0) as (_ & Hall & [Hzero | Hin]).
  - split; [|exact Hall]. rewrite Hzero in *.
    destruct ds as [|d ds]; [now elim Hne|].
    inversion Hall; inversion Hpos; subst. left. lia.
  - split; assumption.
Qed.

(** The running maximum from 0 is the largest of 0 and the list. *)
Lemma fold_max_is_maximum_with_zero (ds : list Z) :
  Spec.is_maximum (fold_left Z.max ds 0) (0 :: ds).
Proof.
  destruct (fold_max_bounds ds 0) as (Hle & Hall & Hin). split.
  - destruct Hin as [-> | Hin]; [now left | now right].
  - constructor; assumption.
Qed.

(** What a successful creation leaves in the request row: the aggregates of
    the loop, exactly as it computes them. *)
Lemma created_request_aggregates
  (items : list CargoLogisticRequestItem.t) (creatorID : Z) (st st' : Store)
  (id : Z) :
  Repository.CreateCargoLogisticRequest items creatorID st = (Ok id, st') ->
  exists order quotes,
    find (fun o => LogisticRequest.ID o =? id) (requests st') = Some order
    /\ Forall2 (Spec.item_passes (services st)) items quotes
    /\ LogisticRequest.TotalDays order
       = fold_left Z.max (map Quote.DeliveryDays quotes) 0
    /\ LogisticRequest.TotalCost order = Go.fsum (map Quote.TotalCost quotes)
    /\ LogisticRequest.Weight order
       = Go.fsum (map CargoLogisticRequestItem.Weight items)
    /\ LogisticRequest.Length order
       = Go.fsum (map CargoLogisticRequestItem.Length items)
    /\ LogisticRequest.Width order
       = Go.fsum (map CargoLogisticRequestItem.Width items)
    /\ LogisticRequest.Height order
       = Go.fsum (map CargoLogisticRequestItem.Height items).
Proof.
  destruct items as [|first rest]; [discriminate|].
  rewrite CreateCargo_run.
  destruct (Repository.add_items _ _ _ _) as [[acc|e] st2] eqn:Hloop;
    [|discriminate].
  intros [= <- <-].
  apply add_items_ok in Hloop
    as (quotes & Hpass & Hdays & Hcost & Hw & Hl & Hwd & Hh & ->).
  cbn [services requests lines request_seq line_seq] in *.
  eexists. exists quotes. split.
  - unfold after, Gorm.save_request. cbn [snd requests].
    cbn [LogisticRequest.ID LogisticRequest.with_aggregates LogisticRequest.with_ID].
    rewrite existsb_last_request by reflexivity.
    apply find_replace_request; [reflexivity|].
    now apply existsb_last_request.
  - split; [exact Hpass|]. unfold Go.fsum. cbn. auto 10.
Qed.

(** C1, as the code has it: when [CreateCargoLogisticRequest] succeeds, the
    request row it leaves under the returned key has, over the quotes of its
    items in order, [TotalCost] the sum of their costs, [TotalDays] the
    largest of 0 and their days, which is the maximum of their days when no
    quote has negative days, and [Weight], [Length], [Width] and [Height]
    the sums of the items' values. *)
Theorem created_request_totals
  (items : list CargoLogisticRequestItem.t) (creatorID : Z) (st st' : Store)
  (id : Z)
  (Hsuccess :
     Repository.CreateCargoLogisticRequest items creatorID st = (Ok id, st')) :
  exists order quotes,
    items <> []
    /\ find (fun o => LogisticRequest.ID o =? id) (requests st') = Some order
    /\ Forall2 (Spec.item_passes (services st)) items quotes
    /\ LogisticRequest.TotalCost order = Go.fsum (map Quote.TotalCost quotes)
    /\ Spec.is_maximum (LogisticRequest.TotalDays order)
                       (0 :: map Quote.DeliveryDays quotes)
    /\ (Forall (fun q => 0 <= Quote.DeliveryDays q) quotes ->
        Spec.is_maximum (LogisticRequest.TotalDays order)
                        (map Quote.DeliveryDays quotes))
    /\ LogisticRequest.Weight order
       = Go.fsum (map CargoLogisticRequestItem.Weight items)
    /\ LogisticRequest.Length order
       = Go.fsum (map CargoLogisticRequestItem.Length items)
    /\ LogisticRequest.Width order
       = Go.fsum (map CargoLogisticRequestItem.Width items)
    /\ LogisticRequest.Height order
       = Go.fsum (map CargoLogisticRequestItem.Height items).
Proof.
  assert (Hne : items <> []) by (intros ->; discriminate).
  destruct (created_request_aggregates _ _ _ _ _ Hsuccess)
    as (order & quotes & Hrow & Hpass & Hdays & Hcost & Hw & Hl & Hwd & Hh).
  exists order, quotes.
  split; [exact Hne|]. split; [exact Hrow|]. split; [exact Hpass|].
  split; [exact Hcost|].
  split; [rewrite Hdays; apply fold_max_is_maximum_with_zero|].
  split; [|auto].
  intros Hpos. rewrite Hdays. apply fold_max_is_maximum.
  - destruct Hpass; [now elim Hne | discriminate].
  - now apply Forall_map.
Qed.

Lemma CreateCargo_rolls_back
  (items : list CargoLogisticRequestItem.t) (creatorID : Z) (st st' : Store)
  (e : string) :
  Repository.CreateCargoLogisticRequest items creatorID st = (Err e, st') ->
  requests st' = requests st /\ lines st' = lines st
  /\ services st' = services st.
Proof.
  destruct items as [|first rest]; [now intros [= <- <-]|].
  rewrite CreateCargo_run.
  destruct (Repository.add_items _ _ _ _) as [[acc|e'] st2]; [discriminate|].
  now intros [= <- <-].
Qed.

Lemma CreateCargo_first_failure
  (pre : list CargoLogisticRequestItem.t) (bad : CargoLogisticRequestItem.t)
  (post : list CargoLogisticRequestItem.t) (e : string) (creatorID : Z)
  (st : Store) :
  Forall (fun i => exists q, Spec.item_passes (services st) i q) pre ->
  Spec.distinct_services pre ->
  line_requests_drawn st ->
  Spec.item_fails (services st) bad e ->
  exists st',
    Repository.CreateCargoLogisticRequest (pre ++ bad :: post) creatorID st
    = (Err e, st').
Proof.
  intros Hpre Hdistinct Hdrawn Hfail.
  destruct (pre ++ bad :: post) as [|first rest] eqn:Hitems;
    [now destruct pre|].
  rewrite CreateCargo_run, <- Hitems.
  edestruct (add_items_first_failure (request_seq st) pre bad post e)
    as (st2 & -> & _);
    [exact Hpre | exact Hdistinct | exact (drawn_keys_free st pre Hdrawn)
     | exact Hfail |].
  eauto.
Qed.

Lemma CreateCargo_failing_item
  (items : list CargoLogisticRequestItem.t) (it : CargoLogisticRequestItem.t)
  (e : string) (creatorID : Z) (st : Store) :
  In it items ->
  Spec.item_fails (services st) it e ->
  exists e' st',
    Repository.CreateCargoLogisticRequest items creatorID st = (Err e', st').
Proof.
  intros Hin Hfail. destruct items as [|first rest]; [destruct Hin|].
  rewrite CreateCargo_run.
  edestruct (add_items_failing_item (request_seq st) (first :: rest) it e)
    as (e' & st2 & ->); [exact Hin | exact Hfail |].
  eauto.
Qed.

Lemma CreateCargo_commits
  (items : list CargoLogisticRequestItem.t) (creatorID : Z) (st : Store) :
  items <> [] ->
  Forall (fun i => exists q, Spec.item_passes (services st) i q) items ->
  Spec.distinct_services items ->
  request_keys_fresh st ->
  line_requests_drawn st ->
  exists order st',
    Repository.CreateCargoLogisticRequest items creatorID st
    = (Ok (request_seq st), st')
    /\ LogisticRequest.ID order = request_seq st
    /\ LogisticRequest.CreatorID order = creatorID
    /\ requests st' = requests st ++ [order]
    /\ lines st' = lines st ++ Spec.item_rows (request_seq st) (line_seq st) items.
Proof.
  intros Hne Hall Hdistinct Hfresh Hdrawn.
  destruct items as [|first rest]; [now elim Hne|].
  rewrite CreateCargo_run.
  set (order := LogisticRequest.with_ID (request_seq st)
                  (Repository.cargo_order first creatorID)).
  set (st1 := mkStore _ _ _ _ _).
  destruct (add_items_all_pass (request_seq st) (first :: rest)
              Repository.no_aggregates st1 Hall Hdistinct
              (drawn_keys_free st (first :: rest) Hdrawn))
    as (acc & st2 & Hloop).
  rewrite Hloop.
  apply add_items_ok in Hloop as (_ & _ & _ & _ & _ & _ & _ & _ & ->).
  eexists. eexists. split; [reflexivity|].
  unfold after, Gorm.save_request.
  cbn [snd services requests lines request_seq line_seq st1].
  cbn [LogisticRequest.ID LogisticRequest.with_aggregates LogisticRequest.with_ID
       order].
  rewrite existsb_last_request by reflexivity.
  rewrite replace_fresh_request by (try reflexivity; exact Hfresh).
  repeat split; reflexivity.
Qed.

(** Items that name one service twice never make a request: the second
    insert of the pair is refused. *)
Lemma CreateCargo_repeated_service
  (items : list CargoLogisticRequestItem.t) (creatorID : Z) (st : Store) :
  items <> [] ->
  ~ Spec.distinct_services items ->
  exists e st',
    Repository.CreateCargoLogisticRequest items creatorID st = (Err e, st').
Proof.
  intros Hne Hrepeated. destruct items as [|first rest]; [now elim Hne|].
  rewrite CreateCargo_run.
  destruct (Repository.add_items _ _ _ _) as [[acc|e] st2] eqn:Hloop; [|eauto].
  apply add_items_ok_distinct in Hloop as [Hdistinct _]. now elim Hrepeated.
Qed.

(** C2, as the code has it: [CreateCargoLogisticRequest] on a non-empty list
    is all or nothing. If some item names a service that does not exist or
    gets an invalid quote, the call returns an error, and whenever it returns
    an error the rows of requests and line items are those from before the
    call. The error is that of the first such item when the items before it
    name pairwise different services. If every item passes and the items
    name pairwise different services, the request row and one line item per
    item, in order, are the rows added. If two items name one service the
    call returns an error and adds no row, even when every item passes: the
    insert of the second line item of the pair is refused. (The keys in use
    are below the sequences, as they are in every database the repository's
    calls lead to.) *)
Theorem create_is_all_or_nothing
  (items : list CargoLogisticRequestItem.t) (creatorID : Z) (st : Store)
  (Hitems : items <> []) :
  (forall it e,
      In it items -> Spec.item_fails (services st) it e ->
      exists e' st',
        Repository.CreateCargoLogisticRequest items creatorID st = (Err e', st')
        /\ requests st' = requests st
        /\ lines st' = lines st)
  /\
  (forall pre bad post e,
      items = pre ++ bad :: post ->
      Forall (fun i => exists q, Spec.item_passes (services st) i q) pre ->
      Spec.item_fails (services st) bad e ->
      Spec.distinct_services pre ->
      line_requests_drawn st ->
      exists st',
        Repository.CreateCargoLogisticRequest items creatorID st = (Err e, st')
        /\ requests st' = requests st
        /\ lines st' = lines st)
  /\
  (forall e st',
      Repository.CreateCargoLogisticRequest items creatorID st = (Err e, st') ->
      requests st' = requests st /\ lines st' = lines st)
  /\
  (Forall (fun i => exists q, Spec.item_passes (services st) i q) items ->
   Spec.distinct_services items ->
   request_keys_fresh st ->
   line_requests_drawn st ->
   exists order st',
     Repository.CreateCargoLogisticRequest items creatorID st
     = (Ok (request_seq st), st')
     /\ LogisticRequest.ID order = request_seq st
     /\ LogisticRequest.CreatorID order = creatorID
     /\ requests st' = requests st ++ [order]
     /\ lines st' = lines st ++ Spec.item_rows (request_seq st) (line_seq st) items)
  /\
  (~ Spec.distinct_services items ->
   exists e st',
     Repository.CreateCargoLogisticRequest items creatorID st = (Err e, st')
     /\ requests st' = requests st
     /\ lines st' = lines st).
Proof.
  assert (Hback : forall e st',
             Repository.CreateCargoLogisticRequest items creatorID st
             = (Err e, st') ->
             requests st' = requests st /\ lines st' = lines st).
  { intros e st' Hrun.
    destruct (CreateCargo_rolls_back _ _ _ _ _ Hrun) as (Hr & Hl & _). auto. }
  split; [|split; [|split; [|split]]].
  - intros it e Hin Hfail.
    destruct (CreateCargo_failing_item items it e creatorID st Hin Hfail)
      as (e' & st' & Hrun).
    exists e', st'. split; [exact Hrun | exact (Hback _ _ Hrun)].
  - intros pre bad post e Heq Hpre Hbad Hdistinct Hdrawn.
    destruct (CreateCargo_first_failure pre bad post e creatorID st
                Hpre Hdistinct Hdrawn Hbad) as (st' & Hrun).
    rewrite <- Heq in Hrun. exists st'.
    split; [exact Hrun | exact (Hback _ _ Hrun)].
  - exact Hback.
  - intros Hall Hdistinct Hfresh Hdrawn. now apply CreateCargo_commits.
  - intros Hrepeated.
    destruct (CreateCargo_repeated_service items creatorID st Hitems Hrepeated)
      as (e & st' & Hrun).
    exists e, st'. split; [exact Hrun | exact (Hback _ _ Hrun)].
Qed.

(** *** Recomputing the totals *)

Lemma CompleteLogisticRequest_completed (st : Store) (orderID moderatorID now : Z)
  (order : LogisticRequest.t) :
  find (fun o => LogisticRequest.ID o =? orderID) (requests st) = Some order ->
  LogisticRequest.Status order = StatusFormed ->
  let totals :=
    Repository.recompute_totals order (Repository.loaded_services st order) in
  let order' :=
    LogisticRequest.closed StatusCompleted moderatorID now
      (LogisticRequest.with_totals (fst totals) (snd totals) order) in
  Repository.CompleteLogisticRequest orderID StatusCompleted moderatorID now st
  = (Ok tt,
     mkStore (services st)
       (map (fun r => if LogisticRequest.ID r =? orderID then order' else r)
            (requests st))
       (lines st) (request_seq st) (line_seq st)).
Proof.
  intros Hfound Hstatus totals order'.
  unfold Repository.CompleteLogisticRequest. cbn [negb andb String.eqb].
  change (negb (StatusCompleted =? StatusCompleted)%string
          && negb (StatusCompleted =? StatusRejected)%string) with false.
  run_db. rewrite Hfound, Hstatus.
  change (negb (StatusFormed =? StatusFormed)%string) with false.
  change (StatusCompleted =? StatusCompleted)%string with true.
  cbv iota.
  assert (Hid : LogisticRequest.ID order = orderID).
  { apply find_some in Hfound as [_ Hid]. now apply Z.eqb_eq. }
  cbn [LogisticRequest.ID LogisticRequest.closed LogisticRequest.with_totals].
  rewrite Hid, find_existsb, Hfound. reflexivity.
Qed.

Lemma AddService_keeps_requests (orderID serviceID : Z) (st : Store) :
  requests (after (Repository.AddServiceToLogisticRequest orderID serviceID) st)
  = requests st.
Proof.
  unfold after, Repository.AddServiceToLogisticRequest.
  unfold bind at 1, attempt at 1, Gorm.first_request.
  destruct (find _ (requests st)); [|reflexivity].
  unfold bind at 1, attempt at 1, Repository.GetTransportService.
  run_db.
  destruct (find _ (services st)); [|reflexivity].
  destruct (find _ (lines st)) eqn:Hline; [reflexivity|].
  now rewrite (create_line_free
                 (LogisticRequestService.new orderID serviceID) st Hline).
Qed.

Lemma RemoveService_keeps_requests (orderID serviceID : Z) (st : Store) :
  requests (after (Repository.RemoveServiceFromLogisticRequest orderID serviceID) st)
  = requests st.
Proof.
  unfold after, Repository.RemoveServiceFromLogisticRequest. run_db.
  destruct (find _ (lines st)); reflexivity.
Qed.

Lemma UpdateService_keeps_requests (orderID serviceID quantity orderNum : Z)
  (comment : string) (st : Store) :
  requests (after (Repository.UpdateLogisticRequestService orderID serviceID
                     quantity orderNum comment) st)
  = requests st.
Proof.
  unfold after, Repository.UpdateLogisticRequestService. run_db.
  destruct (find _ (lines st)); reflexivity.
Qed.

(** The loop that recomputes the totals, from any pair of running values:
    the valid quotes' costs are added in order and their days raise the
    running maximum. *)
Lemma recompute_fold (order : LogisticRequest.t)
  (Services : list (LogisticRequestService.t * TransportService.t)) :
  forall (cost : float) (days : Z),
    let quotes :=
      map (fun os =>
             CalculateDelivery (snd os)
               (LogisticRequest.FromCity order) (LogisticRequest.ToCity order)
               (LogisticRequest.Length order) (LogisticRequest.Width order)
               (LogisticRequest.Height order) (LogisticRequest.Weight order))
          Services in
    fold_left (Repository.recompute_step order) Services (cost, days)
    = (fold_left PrimFloat.add
         (map Quote.TotalCost (filter Quote.IsValid quotes)) cost,
       fold_left Z.max
         (map Quote.DeliveryDays (filter Quote.IsValid quotes)) days).
Proof.
  induction Services as [|os Services IH]; intros cost days; [reflexivity|].
  cbn [fold_left map filter]. unfold Repository.recompute_step at 2.
  cbn [fst snd].
  destruct (Quote.IsValid _); [|apply IH].
  cbn zeta in IH. rewrite IH. cbn [map fold_left]. f_equal. f_equal.
  unfold Repository.raise_days.
  match goal with |- context [?d >? days] => destruct (Z.gtb_spec d days) end;
    lia.
Qed.

Lemma loaded_quotes (st : Store) (order : LogisticRequest.t) :
  map (fun os =>
         CalculateDelivery (snd os)
           (LogisticRequest.FromCity order) (LogisticRequest.ToCity order)
           (LogisticRequest.Length order) (LogisticRequest.Width order)
           (LogisticRequest.Height order) (LogisticRequest.Weight order))
      (Repository.loaded_services st order)
  = Spec.line_quotes st order.
Proof.
  unfold Repository.loaded_services, Spec.line_quotes, Gorm.preload_services.
  rewrite map_map. reflexivity.
Qed.

Lemma fold_max_right (ds : list Z) :
  fold_left Z.max ds 0 = fold_right Z.max 0 ds.
Proof.
  assert (Hshift : forall (l : list Z) (m d : Z),
             fold_right Z.max (Z.max m d) l = Z.max d (fold_right Z.max m l)).
  { induction l as [|x l IH]; intros m d; cbn [fold_right]; [lia|].
    rewrite IH. lia. }
  generalize 0. induction ds as [|d ds IH]; intros m; [reflexivity|].
  cbn [fold_left fold_right]. rewrite IH. apply Hshift.
Qed.

(** The totals the completion stores are those of the rule over the valid
    quotes of the line items. *)
Lemma recompute_totals_derived (st : Store) (order : LogisticRequest.t) :
  Repository.recompute_totals order (Repository.loaded_services st order)
  = Spec.derived_totals st order.
Proof.
  unfold Repository.recompute_totals, Spec.derived_totals.
  rewrite recompute_fold. cbn zeta. rewrite loaded_quotes.
  unfold Go.fsum. now rewrite fold_max_right.
Qed.

Lemma derived_totals_meet_rule (st : Store) (order : LogisticRequest.t) :
  Spec.completion_rule (Spec.line_quotes st order)
    (fst (Spec.derived_totals st order)) (snd (Spec.derived_totals st order)).
Proof.
  unfold Spec.derived_totals, Spec.completion_rule. cbn [fst snd].
  split; [reflexivity|]. rewrite <- fold_max_right.
  apply fold_max_is_maximum_with_zero.
Qed.

(** Over quotes that are all valid with days that are not negative, the rule
    over the valid quotes is the aggregation rule. *)
Lemma completion_rule_aggregates (quotes : list Quote.t) (cost : float)
  (days : Z) :
  Forall (fun q => Quote.IsValid q = true /\ 0 <= Quote.DeliveryDays q) quotes ->
  Spec.completion_rule quotes cost days ->
  Spec.aggregation_rule quotes cost days.
Proof.
  intros Hall [Hcost [Hin Hmax]].
  assert (Hvalid : filter Quote.IsValid quotes = quotes).
  { clear -Hall. induction Hall as [|q quotes [Hq _] _ IH]; [reflexivity|].
    cbn. now rewrite Hq, IH. }
  rewrite Hvalid in *. split; [exact Hcost|]. split.
  - intros ->. destruct Hin as [<- | []]. reflexivity.
  - intros Hne. inversion Hmax as [|? ? Hzero Hle]; subst. split; [|exact Hle].
    destruct Hin as [<- | Hin]; [|exact Hin].
    destruct quotes as [|q quotes]; [now elim Hne|]. left.
    inversion Hall as [|? ? [_ Hq] _]; subst.
    inversion Hle; subst. lia.
Qed.

(** C3, as the code has it: right after the call that recomputes them from
    the line items, [CompleteLogisticRequest] with status completed on a
    formed request, the stored [TotalCost] is the sum of the costs of the
    valid quotes of the line items and the stored [TotalDays] is the largest
    of 0 and their days, each line item being quoted at the request's route
    and cargo; this is the aggregation rule (cost the sum, days the maximum
    over the line items) when every such quote is valid and has days that
    are not negative. The calls that add, remove or update a line item leave
    every request row, and so its stored totals, as they were. *)
Theorem totals_follow_recomputation :
  (forall (st : Store) (orderID moderatorID now : Z) (order : LogisticRequest.t),
      find (fun o => LogisticRequest.ID o =? orderID) (requests st) = Some order ->
      LogisticRequest.Status order = StatusFormed ->
      exists order' st',
        Repository.CompleteLogisticRequest orderID StatusCompleted moderatorID now st
        = (Ok tt, st')
        /\ find (fun o => LogisticRequest.ID o =? orderID) (requests st')
           = Some order'
        /\ lines st' = lines st
        /\ LogisticRequest.Status order' = StatusCompleted
        /\ Spec.completion_rule (Spec.line_quotes st' order')
             (LogisticRequest.TotalCost order') (LogisticRequest.TotalDays order')
        /\ (Forall (fun q => Quote.IsValid q = true /\ 0 <= Quote.DeliveryDays q)
                   (Spec.line_quotes st' order') ->
            Spec.totals_derived st' order'))
  /\
  (forall (st : Store) (orderID serviceID quantity orderNum : Z) (comment : string),
      requests (after (Repository.AddServiceToLogisticRequest orderID serviceID) st)
      = requests st
      /\ requests (after (Repository.RemoveServiceFromLogisticRequest
                            orderID serviceID) st)
         = requests st
      /\ requests (after (Repository.UpdateLogisticRequestService
                            orderID serviceID quantity orderNum comment) st)
         = requests st).
Proof.
  split.
  - intros st orderID moderatorID now order Hfound Hstatus.
    pose proof (CompleteLogisticRequest_completed _ _ moderatorID now _
                  Hfound Hstatus) as Hrun.
    cbn zeta in Hrun. rewrite recompute_totals_derived in Hrun.
    exists (LogisticRequest.closed StatusCompleted moderatorID now
              (LogisticRequest.with_totals
                 (fst (Spec.derived_totals st order))
                 (snd (Spec.derived_totals st order)) order)).
    eexists. split; [exact Hrun|]. cbn [requests lines].
    split; [|split; [reflexivity|split; [reflexivity|]]].
    + apply find_replace_request; [|now rewrite find_existsb, Hfound].
      apply find_some in Hfound as [_ Hid]. now apply Z.eqb_eq.
    + assert (Hrule : Spec.completion_rule (Spec.line_quotes st order)
                        (fst (Spec.derived_totals st order))
                        (snd (Spec.derived_totals st order)))
        by apply derived_totals_meet_rule.
      split; [exact Hrule|].
      intros Hall. now apply completion_rule_aggregates.
  - intros st orderID serviceID quantity orderNum comment.
    split; [apply AddService_keeps_requests|].
    split; [apply RemoveService_keeps_requests|].
    apply UpdateService_keeps_requests.
Qed.

(** *** The keys of reachable databases *)

Lemma sorted_snoc (keys : list Z) (k : Z) :
  StronglySorted Z.lt keys -> Forall (fun x => x < k) keys ->
  StronglySorted Z.lt (keys ++ [k]).
Proof.
  induction 1 as [|x keys Hs IH Hx]; intros Hk; cbn.
  - repeat constructor.
  - inversion Hk; subst. constructor; [auto|].
    apply Forall_app. split; [exact Hx | now repeat constructor].
Qed.

Lemma sorted_filter {A : Type} (key : A -> Z) (keep : A -> bool) (rows : list A) :
  StronglySorted Z.lt (map key rows) ->
  StronglySorted Z.lt (map key (filter keep rows)).
Proof.
  induction rows as [|a rows IH]; cbn; intros Hs; [constructor|].
  inversion Hs as [|? ? Hrest Ha]; subst.
  destruct (keep a); cbn; [|auto].
  constructor; [auto|].
  rewrite Forall_forall in *. intros k Hin. apply Ha.
  apply in_map_iff in Hin as (r & <- & Hr). apply filter_In in Hr as [Hr _].
  now apply in_map.
Qed.

Ltac unfold_keys :=
  unfold well_keyed, keys_fresh, keys_ordered, request_keys_fresh,
    line_keys_fresh in *.

(** A new request under the next key. *)
Lemma well_keyed_new_request (o : LogisticRequest.t) (st : Store) :
  well_keyed st -> well_keyed (after (Gorm.create_request o) st).
Proof.
  unfold_keys. intros [[Hr Hl] [Hor Hol]].
  unfold after, Gorm.create_request. cbn.
  split; split; auto.
  - apply Forall_app. split; [|repeat constructor; cbn; lia].
    revert Hr. apply Forall_impl. intros r. lia.
  - rewrite map_app. apply sorted_snoc; [exact Hor | now apply Forall_map].
Qed.

(** A new line item under the next key. *)
Lemma well_keyed_line_appended (l : LogisticRequestService.t) (st : Store) :
  well_keyed st ->
  well_keyed (mkStore (services st) (requests st)
                (lines st ++ [LogisticRequestService.with_ID (line_seq st) l])
                (request_seq st) (line_seq st + 1)).
Proof.
  unfold_keys. intros [[Hr Hl] [Hor Hol]]. cbn.
  split; split; auto.
  - apply Forall_app. split; [|repeat constructor; cbn; lia].
    revert Hl. apply Forall_impl. intros r. lia.
  - rewrite map_app. apply sorted_snoc; [exact Hol | now apply Forall_map].
Qed.

(** A key drawn for an insert that was refused. *)
Lemma well_keyed_key_lost (st : Store) :
  well_keyed st ->
  well_keyed (mkStore (services st) (requests st) (lines st)
                (request_seq st) (line_seq st + 1)).
Proof.
  unfold_keys. intros [[Hr Hl] [Hor Hol]]. cbn.
  split; split; auto.
  revert Hl. apply Forall_impl. intros r. lia.
Qed.

Lemma well_keyed_new_line (l : LogisticRequestService.t) (st : Store) :
  well_keyed st -> well_keyed (after (Gorm.create_line l) st).
Proof.
  intros Hwk. unfold after, Gorm.create_line.
  destruct (existsb _ (lines st)); cbn [snd].
  - now apply well_keyed_key_lost.
  - now apply well_keyed_line_appended.
Qed.

(** Requests rewritten under their keys. *)
Lemma well_keyed_same_requests (rows : list LogisticRequest.t) (st : Store) :
  map LogisticRequest.ID rows = map LogisticRequest.ID (requests st) ->
  well_keyed st ->
  well_keyed (mkStore (services st) rows (lines st) (request_seq st) (line_seq st)).
Proof.
  unfold_keys. intros Hkeys [[Hr Hl] [Hor Hol]]. cbn. split; split; auto.
  - apply (Forall_map LogisticRequest.ID (fun k => k < request_seq st)).
    rewrite Hkeys.
    now apply (Forall_map LogisticRequest.ID (fun k => k < request_seq st)).
  - now rewrite Hkeys.
Qed.

(** Line items rewritten under their keys. *)
Lemma well_keyed_same_lines (rows : list LogisticRequestService.t) (st : Store) :
  map LogisticRequestService.ID rows = map LogisticRequestService.ID (lines st) ->
  well_keyed st ->
  well_keyed (mkStore (services st) (requests st) rows (request_seq st)
                      (line_seq st)).
Proof.
  unfold_keys. intros Hkeys [[Hr Hl] [Hor Hol]]. cbn. split; split; auto.
  - apply (Forall_map LogisticRequestService.ID (fun k => k < line_seq st)).
    rewrite Hkeys.
    now apply (Forall_map LogisticRequestService.ID (fun k => k < line_seq st)).
  - now rewrite Hkeys.
Qed.

(** Line items deleted. *)
Lemma well_keyed_fewer_lines (keep : LogisticRequestService.t -> bool)
  (st : Store) :
  well_keyed st ->
  well_keyed (mkStore (services st) (requests st) (filter keep (lines st))
                      (request_seq st) (line_seq st)).
Proof.
  unfold_keys. intros [[Hr Hl] [Hor Hol]]. cbn. split; split; auto.
  - rewrite Forall_forall in *.
    intros l Hin. apply filter_In in Hin as [Hin _]. auto.
  - now apply sorted_filter.
Qed.

(** A transaction rolled back. *)
Lemma well_keyed_rollback (st st2 : Store) :
  request_seq st <= request_seq st2 -> line_seq st <= line_seq st2 ->
  well_keyed st -> well_keyed (rollback st st2).
Proof.
  unfold_keys. intros Hrs Hls [[Hr Hl] Hord]. cbn. split; [split|exact Hord].
  - revert Hr. apply Forall_impl. intros r. lia.
  - revert Hl. apply Forall_impl. intros r. lia.
Qed.

Lemma replace_request_keys (o : LogisticRequest.t)
  (rows : list LogisticRequest.t) :
  map LogisticRequest.ID
      (map (fun r => if LogisticRequest.ID r =? LogisticRequest.ID o
                     then o else r) rows)
  = map LogisticRequest.ID rows.
Proof.
  rewrite map_map. apply map_ext. intros r.
  destruct (Z.eqb_spec (LogisticRequest.ID r) (LogisticRequest.ID o)); auto.
Qed.

Lemma replace_line_keys (l : LogisticRequestService.t)
  (rows : list LogisticRequestService.t) :
  map LogisticRequestService.ID
      (map (fun r => if LogisticRequestService.ID r
                        =? LogisticRequestService.ID l then l else r) rows)
  = map LogisticRequestService.ID rows.
Proof.
  rewrite map_map. apply map_ext. intros r.
  destruct (Z.eqb_spec (LogisticRequestService.ID r)
              (LogisticRequestService.ID l)); auto.
Qed.

(** [Save] of a request that is in the table. *)
Lemma well_keyed_save_request (o : LogisticRequest.t) (st : Store) :
  existsb (fun r => LogisticRequest.ID r =? LogisticRequest.ID o) (requests st)
  = true ->
  well_keyed st -> well_keyed (after (Gorm.save_request o) st).
Proof.
  intros Hin Hwk. unfold after, Gorm.save_request. cbn [snd]. rewrite Hin.
  apply well_keyed_same_requests; [apply replace_request_keys | exact Hwk].
Qed.

(** [Save] of a line item that is in the table. *)
Lemma well_keyed_save_line (l : LogisticRequestService.t) (st : Store) :
  existsb (fun r => LogisticRequestService.ID r =? LogisticRequestService.ID l)
          (lines st) = true ->
  well_keyed st -> well_keyed (after (Gorm.save_line l) st).
Proof.
  intros Hin Hwk. unfold after, Gorm.save_line. cbn [snd]. rewrite Hin.
  apply well_keyed_same_lines; [apply replace_line_keys | exact Hwk].
Qed.

Lemma found_request_saved (cond : LogisticRequest.t -> bool)
  (rows : list LogisticRequest.t) (o : LogisticRequest.t) :
  find cond rows = Some o ->
  existsb (fun r => LogisticRequest.ID r =? LogisticRequest.ID o) rows = true.
Proof.
  intros Hfind. apply find_some in Hfind as [Hin _].
  apply existsb_exists. exists o. split; [exact Hin | apply Z.eqb_refl].
Qed.

Lemma raise_first_keys (requestID serviceID : Z)
  (rows : list LogisticRequestService.t) :
  map LogisticRequestService.ID (Sql.raise_first requestID serviceID rows)
  = map LogisticRequestService.ID rows.
Proof.
  induction rows as [|a rows IH]; cbn; [reflexivity|].
  destruct (LogisticRequestService.has_key requestID serviceID a); cbn;
    [reflexivity | now rewrite IH].
Qed.

Lemma add_items_well_keyed (orderID : Z)
  (items : list CargoLogisticRequestItem.t) :
  forall (acc : Repository.Aggregates) (st : Store),
    well_keyed st ->
    let st' := after (Repository.add_items orderID items acc) st in
    well_keyed st'
    /\ requests st' = requests st
    /\ request_seq st' = request_seq st
    /\ line_seq st <= line_seq st'.
Proof.
  induction items as [|it rest IH]; intros acc st Hwk; unfold after.
  - cbn. repeat split; try apply Hwk; lia.
  - rewrite add_items_cons.
    destruct (Spec.item_service (services st) it) as [svc|];
      [|cbn; repeat split; try apply Hwk; lia].
    cbn zeta. destruct (Quote.IsValid (Spec.item_quote svc it));
      [|cbn; repeat split; try apply Hwk; lia].
    destruct (find _ (lines st)) as [x|].
    { cbn [snd requests request_seq line_seq].
      repeat split; try apply (well_keyed_key_lost st Hwk); lia. }
    set (st1 := mkStore _ _ _ _ _).
    assert (Hwk1 : well_keyed st1).
    { apply (well_keyed_line_appended
               (LogisticRequestService.new orderID
                  (CargoLogisticRequestItem.TransportServiceID it)) st Hwk). }
    destruct (IH (Repository.accumulate acc (Spec.item_quote svc it) it)
                 st1 Hwk1) as (Hf & Hr & Hs & Hl).
    unfold after in Hf, Hr, Hs, Hl. cbn in Hr, Hs, Hl.
    repeat split; try apply Hf; auto; lia.
Qed.

Lemma ensureGuestDraft_well_keyed (sessionID : string) (st : Store) :
  well_keyed st ->
  well_keyed (after (Repository.ensureGuestDraftLogisticRequest sessionID) st).
Proof.
  intros Hwk. unfold after.
  destruct (find (Repository.is_guest_draft_of sessionID) (requests st))
    as [order|] eqn:Hfind.
  - now rewrite (ensureGuestDraft_found _ _ _ Hfind).
  - rewrite (ensureGuestDraft_created _ _ Hfind).
    apply (well_keyed_new_request (Repository.new_guest_draft sessionID) st Hwk).
Qed.

(** Each call of the repository keeps the tables well keyed. *)
Lemma exec_keeps_well_keyed (st : Store) (c : Api.Call) :
  well_keyed st -> well_keyed (Api.exec st c).
Proof.
  intros Hwk. destruct c; cbn [Api.exec].
  - (* CreateCargoLogisticRequest *)
    destruct items as [|first rest]; [exact Hwk|].
    unfold after. rewrite CreateCargo_run.
    set (order := LogisticRequest.with_ID _ _). set (st1 := mkStore _ _ _ _ _).
    assert (Hwk1 : well_keyed st1)
      by apply (well_keyed_new_request (Repository.cargo_order first creatorID)
                  st Hwk).
    destruct (add_items_well_keyed (request_seq st) (first :: rest)
                Repository.no_aggregates st1 Hwk1) as (Hf & Hr & Hs & Hl).
    unfold after in Hf, Hr, Hs, Hl.
    destruct (Repository.add_items _ _ _ st1) as [[acc|e] st2]; cbn [snd] in *.
    + apply well_keyed_save_request; [|exact Hf].
      rewrite Hr. now apply existsb_last_request.
    + cbn in Hs, Hl. apply well_keyed_rollback; [lia | lia | exact Hwk].
  - (* GetCartIcon *)
    unfold after.
    destruct (find (Repository.is_draft_of creatorID) (requests st))
      as [order|] eqn:Hfind.
    + now rewrite (GetCartIcon_found _ _ _ Hfind).
    + rewrite (GetCartIcon_created _ _ Hfind).
      apply (well_keyed_new_request (Repository.new_draft creatorID) st Hwk).
  - (* FormLogisticRequest *)
    unfold after, Repository.FormLogisticRequest.
    unfold bind at 1, attempt at 1, Gorm.first_request.
    destruct (find _ (requests st)) as [order|] eqn:Hfind; [|exact Hwk].
    unfold bind, get_store, fail. cbn [fst snd].
    repeat (match goal with
            | |- context [if ?b then _ else _] => destruct b
            end; try exact Hwk).
    apply well_keyed_save_request; [|exact Hwk].
    apply (found_request_saved _ _ _ Hfind).
  - (* CompleteLogisticRequest *)
    unfold after, Repository.CompleteLogisticRequest.
    destruct (negb _ && negb _); [exact Hwk|].
    unfold bind at 1, attempt at 1, Gorm.first_request.
    destruct (find _ (requests st)) as [order|] eqn:Hfind; [|exact Hwk].
    unfold bind, get_store, fail. cbn [fst snd].
    destruct (negb _); [exact Hwk|].
    apply well_keyed_save_request; [|exact Hwk].
    pose proof (found_request_saved _ _ _ Hfind) as Hsaved.
    now destruct (status =? StatusCompleted)%string.
  - (* AddServiceToLogisticRequest *)
    unfold after, Repository.AddServiceToLogisticRequest.
    unfold bind at 1, attempt at 1, Gorm.first_request.
    destruct (find _ (requests st)); [|exact Hwk].
    unfold bind at 1, attempt at 1, Repository.GetTransportService.
    unfold bind at 1, attempt at 1, Gorm.first_service.
    destruct (find _ (services st)); [|exact Hwk].
    unfold ret at 1. unfold bind at 1, attempt at 1, Gorm.first_line.
    destruct (find _ (lines st)) as [existing|] eqn:Hline.
    + apply well_keyed_save_line; [|exact Hwk].
      apply (find_existsb_same _ _ _ Hline).
    + unfold bind, ret.
      rewrite (create_line_free (LogisticRequestService.new orderID serviceID)
                 st Hline).
      apply (well_keyed_line_appended
               (LogisticRequestService.new orderID serviceID) st Hwk).
  - (* RemoveServiceFromLogisticRequest *)
    unfold after, Repository.RemoveServiceFromLogisticRequest.
    unfold bind, attempt, Gorm.first_line.
    destruct (find _ (lines st)); [|exact Hwk].
    now apply well_keyed_fewer_lines.
  - (* UpdateLogisticRequestService *)
    unfold after, Repository.UpdateLogisticRequestService.
    unfold bind, attempt, Gorm.first_line.
    destruct (find _ (lines st)) as [existing|] eqn:Hline; [|exact Hwk].
    apply well_keyed_save_line; [|exact Hwk].
    apply (find_existsb_same _ _ _ Hline).
  - (* AddTransportServiceToGuestDraftLogisticRequest *)
    unfold after, Repository.AddTransportServiceToGuestDraftLogisticRequest.
    unfold bind at 1, attempt at 1, Repository.GetTransportService.
    unfold bind at 1, attempt at 1, Gorm.first_service.
    destruct (find _ (services st)); [|exact Hwk].
    unfold ret at 1, bind.
    pose proof (ensureGuestDraft_well_keyed "guest" st Hwk) as Hwk1.
    unfold after in Hwk1.
    destruct (Repository.ensureGuestDraftLogisticRequest "guest" st)
      as [[gid|e] st1]; [|exact Hwk1].
    cbn [snd] in Hwk1. unfold Sql.insert_on_conflict_increment.
    destruct (existsb _ (lines st1)).
    + apply well_keyed_same_lines; [apply raise_first_keys | exact Hwk1].
    + apply (well_keyed_line_appended
               (LogisticRequestService.new gid serviceID) st1 Hwk1).
  - (* RemoveTransportServiceFromGuestDraftLogisticRequest *)
    unfold after, Repository.RemoveTransportServiceFromGuestDraftLogisticRequest.
    unfold bind at 1.
    pose proof (ensureGuestDraft_well_keyed "guest" st Hwk) as Hwk1.
    unfold after in Hwk1.
    destruct (Repository.ensureGuestDraftLogisticRequest "guest" st)
      as [[gid|e] st1]; [|exact Hwk1].
    cbn [snd] in Hwk1. unfold bind, get_store, fail.
    destruct (Sql.select_quantity gid serviceID st1) as [qty|]; [|exact Hwk1].
    destruct (qty >? 1).
    + apply well_keyed_same_lines; [|exact Hwk1].
      rewrite map_map. apply map_ext. intros l.
      now destruct (LogisticRequestService.has_key gid serviceID l).
    + now apply well_keyed_fewer_lines.
Qed.

(** The loop only adds line items of the request it is run for. *)
Lemma add_items_lines (orderID : Z) (items : list CargoLogisticRequestItem.t) :
  forall (acc : Repository.Aggregates) (st : Store),
    exists rows,
      lines (after (Repository.add_items orderID items acc) st)
      = lines st ++ rows
      /\ Forall (fun l => LogisticRequestService.LogisticRequestID l = orderID)
                rows.
Proof.
  induction items as [|it rest IH]; intros acc st; unfold after.
  - exists []. cbn. now rewrite app_nil_r.
  - rewrite add_items_cons.
    destruct (Spec.item_service (services st) it) as [svc|];
      [|exists []; cbn; now rewrite app_nil_r].
    cbn zeta. destruct (Quote.IsValid (Spec.item_quote svc it));
      [|exists []; cbn; now rewrite app_nil_r].
    destruct (find _ (lines st)) as [x|];
      [exists []; cbn; now rewrite app_nil_r|].
    match goal with
    | |- context [Repository.add_items orderID rest ?a ?s] =>
        destruct (IH a s) as (rows & Hlines & Hrows)
    end.
    unfold after in Hlines. cbn [lines] in Hlines.
    eexists. rewrite Hlines, <- app_assoc. split; [reflexivity|].
    constructor; [reflexivity | exact Hrows].
Qed.

Lemma drawn_rows_replaced (seq : Z) (same : LogisticRequestService.t -> bool)
  (l : LogisticRequestService.t) (rows : list LogisticRequestService.t) :
  LogisticRequestService.LogisticRequestID l < seq ->
  Forall (fun r => LogisticRequestService.LogisticRequestID r < seq) rows ->
  Forall (fun r => LogisticRequestService.LogisticRequestID r < seq)
         (map (fun r => if same r then l else r) rows).
Proof.
  intros Hl Hrows. apply Forall_map. revert Hrows. apply Forall_impl.
  intros r Hr. now destruct (same r).
Qed.

Lemma drawn_save_line (l : LogisticRequestService.t) (st : Store) :
  LogisticRequestService.LogisticRequestID l < request_seq st ->
  line_requests_drawn st ->
  line_requests_drawn (after (Gorm.save_line l) st).
Proof.
  unfold line_requests_drawn, after, Gorm.save_line. cbn.
  intros Hl Hdrawn. destruct (existsb _ (lines st)).
  - now apply drawn_rows_replaced.
  - apply Forall_app. split; [exact Hdrawn | now repeat constructor].
Qed.

Lemma drawn_fewer_lines (keep : LogisticRequestService.t -> bool) (st : Store) :
  line_requests_drawn st ->
  line_requests_drawn (mkStore (services st) (requests st)
                         (filter keep (lines st)) (request_seq st) (line_seq st)).
Proof.
  unfold line_requests_drawn. cbn. rewrite !Forall_forall.
  intros Hdrawn l Hin. apply filter_In in Hin as [Hin _]. auto.
Qed.

Lemma drawn_found_line (cond : LogisticRequestService.t -> bool) (st : Store)
  (l : LogisticRequestService.t) :
  line_requests_drawn st ->
  find cond (lines st) = Some l ->
  LogisticRequestService.LogisticRequestID l < request_seq st.
Proof.
  unfold line_requests_drawn. rewrite Forall_forall. intros Hdrawn Hfind.
  apply find_some in Hfind as [Hin _]. auto.
Qed.

Lemma raise_first_drawn (seq requestID serviceID : Z)
  (rows : list LogisticRequestService.t) :
  Forall (fun r => LogisticRequestService.LogisticRequestID r < seq) rows ->
  Forall (fun r => LogisticRequestService.LogisticRequestID r < seq)
         (Sql.raise_first requestID serviceID rows).
Proof.
  induction 1 as [|l rows Hl Hrows IH]; cbn [Sql.raise_first]; [constructor|].
  destruct (LogisticRequestService.has_key requestID serviceID l);
    constructor; auto.
Qed.

Lemma ensureGuestDraft_drawn (sessionID : string) (st : Store) :
  well_keyed st ->
  line_requests_drawn st ->
  match Repository.ensureGuestDraftLogisticRequest sessionID st with
  | (Ok gid, st1) => line_requests_drawn st1 /\ gid < request_seq st1
  | (Err _, st1) => line_requests_drawn st1
  end.
Proof.
  intros [[Hfresh _] _] Hdrawn.
  destruct (find (Repository.is_guest_draft_of sessionID) (requests st))
    as [order|] eqn:Hfind.
  - rewrite (ensureGuestDraft_found _ _ _ Hfind). split; [exact Hdrawn|].
    apply find_some in Hfind as [Hin _].
    unfold request_keys_fresh in Hfresh. rewrite Forall_forall in Hfresh. auto.
  - rewrite (ensureGuestDraft_created _ _ Hfind).
    unfold line_requests_drawn in *. cbn. split; [|lia].
    revert Hdrawn. apply Forall_impl. intros l. lia.
Qed.

(** Each call of the repository keeps the line items with requests whose
    keys were drawn. *)
Lemma exec_keeps_drawn (st : Store) (c : Api.Call) :
  well_keyed st -> line_requests_drawn st ->
  line_requests_drawn (Api.exec st c).
Proof.
  intros Hwk Hdrawn. destruct c; cbn [Api.exec].
  - (* CreateCargoLogisticRequest *)
    destruct items as [|first rest]; [exact Hdrawn|].
    unfold after. rewrite CreateCargo_run.
    set (order := LogisticRequest.with_ID _ _). set (st1 := mkStore _ _ _ _ _).
    assert (Hwk1 : well_keyed st1)
      by apply (well_keyed_new_request (Repository.cargo_order first creatorID)
                  st Hwk).
    destruct (add_items_well_keyed (request_seq st) (first :: rest)
                Repository.no_aggregates st1 Hwk1) as (_ & _ & Hs & _).
    destruct (add_items_lines (request_seq st) (first :: rest)
                Repository.no_aggregates st1) as (rows & Hlines & Hrows).
    unfold after in Hs, Hlines.
    destruct (Repository.add_items _ _ _ st1) as [[acc|e] st2]; cbn [snd] in *.
    + unfold line_requests_drawn, after, Gorm.save_request.
      cbn [snd lines request_seq].
      rewrite Hlines, Hs. cbn [lines request_seq st1].
      apply Forall_app. split.
      * revert Hdrawn. apply Forall_impl. intros l. lia.
      * revert Hrows. apply Forall_impl. intros l. lia.
    + unfold line_requests_drawn, rollback. cbn [lines request_seq].
      rewrite Hs. cbn [request_seq st1].
      revert Hdrawn. apply Forall_impl. intros l. lia.
  - (* GetCartIcon *)
    unfold after.
    destruct (find (Repository.is_draft_of creatorID) (requests st))
      as [order|] eqn:Hfind.
    + now rewrite (GetCartIcon_found _ _ _ Hfind).
    + rewrite (GetCartIcon_created _ _ Hfind).
      unfold line_requests_drawn in *. cbn.
      revert Hdrawn. apply Forall_impl. intros l. lia.
  - (* FormLogisticRequest *)
    unfold after, Repository.FormLogisticRequest.
    unfold bind at 1, attempt at 1, Gorm.first_request.
    destruct (find _ (requests st)) as [order|] eqn:Hfind; [|exact Hdrawn].
    unfold bind, get_store, fail. cbn [fst snd].
    repeat (match goal with
            | |- context [if ?b then _ else _] => destruct b
            end; try exact Hdrawn).
  - (* CompleteLogisticRequest *)
    unfold after, Repository.CompleteLogisticRequest.
    destruct (negb _ && negb _); [exact Hdrawn|].
    unfold bind at 1, attempt at 1, Gorm.first_request.
    destruct (find _ (requests st)) as [order|] eqn:Hfind; [|exact Hdrawn].
    unfold bind, get_store, fail. cbn [fst snd].
    destruct (negb _); exact Hdrawn.
  - (* AddServiceToLogisticRequest *)
    unfold after, Repository.AddServiceToLogisticRequest.
    unfold bind at 1, attempt at 1, Gorm.first_request.
    destruct (find _ (requests st)) as [order|] eqn:Hfind; [|exact Hdrawn].
    unfold bind at 1, attempt at 1, Repository.GetTransportService.
    unfold bind at 1, attempt at 1, Gorm.first_service.
    destruct (find _ (services st)); [|exact Hdrawn].
    unfold ret at 1. unfold bind at 1, attempt at 1, Gorm.first_line.
    destruct (find _ (lines st)) as [existing|] eqn:Hline.
    + apply drawn_save_line; [|exact Hdrawn].
      apply (drawn_found_line _ _ _ Hdrawn Hline).
    + unfold bind, ret.
      rewrite (create_line_free (LogisticRequestService.new orderID serviceID)
                 st Hline).
      unfold line_requests_drawn in *. cbn.
      apply Forall_app. split; [exact Hdrawn|]. repeat constructor. cbn.
      apply find_some in Hfind as [Hin Hcond].
      destruct Hwk as [[Hfresh _] _].
      unfold request_keys_fresh in Hfresh. rewrite Forall_forall in Hfresh.
      specialize (Hfresh order Hin).
      unfold Repository.draft_with_key in Hcond.
      apply andb_prop in Hcond as [Hcond _].
      apply Z.eqb_eq in Hcond. lia.
  - (* RemoveServiceFromLogisticRequest *)
    unfold after, Repository.RemoveServiceFromLogisticRequest.
    unfold bind, attempt, Gorm.first_line.
    destruct (find _ (lines st)); [|exact Hdrawn].
    now apply drawn_fewer_lines.
  - (* UpdateLogisticRequestService *)
    unfold after, Repository.UpdateLogisticRequestService.
    unfold bind, attempt, Gorm.first_line.
    destruct (find _ (lines st)) as [existing|] eqn:Hline; [|exact Hdrawn].
    apply drawn_save_line; [|exact Hdrawn].
    apply (drawn_found_line _ _ _ Hdrawn Hline).
  - (* AddTransportServiceToGuestDraftLogisticRequest *)
    unfold after, Repository.AddTransportServiceToGuestDraftLogisticRequest.
    unfold bind at 1, attempt at 1, Repository.GetTransportService.
    unfold bind at 1, attempt at 1, Gorm.first_service.
    destruct (find _ (services st)); [|exact Hdrawn].
    unfold ret at 1, bind.
    pose proof (ensureGuestDraft_drawn "guest" st Hwk Hdrawn) as Hdrawn1.
    destruct (Repository.ensureGuestDraftLogisticRequest "guest" st)
      as [[gid|e] st1]; [|exact Hdrawn1].
    destruct Hdrawn1 as [Hdrawn1 Hgid].
    unfold Sql.insert_on_conflict_increment, line_requests_drawn in *.
    destruct (existsb _ (lines st1)); cbn.
    + now apply raise_first_drawn.
    + apply Forall_app. split; [exact Hdrawn1 | now repeat constructor].
  - (* RemoveTransportServiceFromGuestDraftLogisticRequest *)
    unfold after, Repository.RemoveTransportServiceFromGuestDraftLogisticRequest.
    unfold bind at 1.
    pose proof (ensureGuestDraft_drawn "guest" st Hwk Hdrawn) as Hdrawn1.
    destruct (Repository.ensureGuestDraftLogisticRequest "guest" st)
      as [[gid|e] st1]; [|exact Hdrawn1].
    destruct Hdrawn1 as [Hdrawn1 Hgid].
    unfold bind, get_store, fail. cbn [fst snd].
    destruct (Sql.select_quantity gid serviceID st1) as [qty|]; [|exact Hdrawn1].
    destruct (qty >? 1).
    + unfold Sql.update_decrement, line_requests_drawn in *. cbn.
      apply Forall_map. revert Hdrawn1. apply Forall_impl. intros l Hl.
      now destruct (LogisticRequestService.has_key gid serviceID l).
    + now apply drawn_fewer_lines.
Qed.

(** In a table in key order, the row [First] finds is the one with the least
    key among those that meet the condition. *)
Lemma find_has_least_key {A : Type} (key : A -> Z) (cond : A -> bool)
  (rows : list A) (o : A) :
  StronglySorted Z.lt (map key rows) ->
  find cond rows = Some o ->
  forall o', In o' rows -> cond o' = true -> key o <= key o'.
Proof.
  induction rows as [|a rows IH]; cbn; intros Hs Hfind o' Hin Hcond;
    [discriminate|].
  inversion Hs as [|? ? Hrest Ha]; subst.
  destruct (cond a) eqn:Hca.
  - injection Hfind as <-. destruct Hin as [<- | Hin]; [lia|].
    rewrite Forall_forall in Ha. specialize (Ha (key o') (in_map key _ _ Hin)).
    lia.
  - destruct Hin as [<- | Hin]; [congruence|]. now apply IH.
Qed.

(** In every database the calls of the repository lead to from an empty one,
    the keys in use are below the sequences and the rows are in key order:
    the premises [request_keys_fresh] and [line_keys_fresh] hold there, and
    the first row a lookup finds is the one with the least key. *)
Lemma well_keyed_reachable (svcs : list TransportService.t)
  (calls : list Api.Call) :
  well_keyed (Api.run svcs calls).
Proof.
  unfold Api.run.
  assert (Hinit : well_keyed (Api.initial svcs))
    by (unfold_keys; cbn; repeat split; constructor).
  revert Hinit. generalize (Api.initial svcs).
  induction calls as [|c calls IH]; intros st Hwk; cbn; [exact Hwk|].
  apply IH. now apply exec_keeps_well_keyed.
Qed.

(** In every such database each line item belongs to a request whose key was
    drawn: the premise [line_requests_drawn] holds there. *)
Lemma line_requests_drawn_reachable (svcs : list TransportService.t)
  (calls : list Api.Call) :
  line_requests_drawn (Api.run svcs calls).
Proof.
  unfold Api.run.
  assert (Hinit : well_keyed (Api.initial svcs)
                  /\ line_requests_drawn (Api.initial svcs)).
  { split; [unfold_keys; cbn; repeat split; constructor | constructor]. }
  revert Hinit. generalize (Api.initial svcs).
  induction calls as [|c calls IH]; intros st [Hwk Hdrawn]; cbn;
    [exact Hdrawn|].
  apply IH. split; [now apply exec_keeps_well_keyed | now apply exec_keeps_drawn].
Qed.

End RepositoryFacts.

(** C8, counterexample: on a draft whose one line item has quantity 2, the
    authenticated removal leaves no line item at all, where the
    specification has it stay with quantity 1. *)
Lemma remove_service_deletes_whole_row :
  ~ Spec.decrements_quantity Repository.RemoveServiceFromLogisticRequest.
Proof.
  intros Hspec.
  pose (st := mkStore [Sample.fura]
                      [LogisticRequest.with_ID 1 (Repository.new_draft 7)]
                      [LogisticRequestService.mk 1 1 1 2 0 ""] 2 2).
  specialize (Hspec st 1 1 (LogisticRequestService.mk 1 1 1 2 0 "")
                eq_refl eq_refl).
  vm_compute in Hspec. discriminate.
Qed.

(* ================================================================= *)
(** ** The calculator of the specification and the quote handler *)

Section CalculatorFacts.

Variable rates : Calculator.Rates.

Lemma CalculateDelivery_spec_valid_iff (service : option TransportService.t)
  (fromCity toCity : string) (length width height weight : float) :
  Quote.IsValid
    (Calculator.CalculateDelivery_spec rates service fromCity toCity
       length width height weight) = true
  <-> service <> None
      /\ Calculator.non_positive length width height weight = false.
Proof.
  unfold Calculator.CalculateDelivery_spec.
  destruct service as [svc|]; cbn.
  - destruct (Calculator.non_positive length width height weight); cbn;
      split; intros H; try discriminate; auto.
    + now destruct H.
    + split; [discriminate | reflexivity].
  - split; [discriminate | intros [H _]; now elim H].
Qed.

Lemma non_positive_true (length width height weight : float) :
  (length <=? 0)%float = true \/ (width <=? 0)%float = true
  \/ (height <=? 0)%float = true \/ (weight <=? 0)%float = true ->
  Calculator.non_positive length width height weight = true.
Proof.
  unfold Calculator.non_positive.
  intros [-> | [-> | [-> | ->]]]; rewrite ?orb_true_r; reflexivity.
Qed.

(** C4: the calculator of the specification, a total function, answers an
    absent service reference or a dimension or weight [<= 0] with an invalid
    quote that carries a non-empty message; otherwise the quote is valid
    whether or not the distance table has the pair of cities, a missing
    entry giving the default distance. The handler
    [CalculateLogisticRequestQuote] over this calculator answers a request
    for a service that is not in the database with 404 and a message, and a
    request with a non-positive dimension or weight with 400 and the
    calculator's message. *)
Theorem CalculateDelivery_validation
  (Habsent : Calculator.service_absent_message rates <> "")
  (Hnonpos : Calculator.non_positive_message rates <> "") :
  (forall (service : option TransportService.t) (fromCity toCity : string)
          (length width height weight : float),
      service = None
      \/ (length <=? 0)%float = true \/ (width <=? 0)%float = true
      \/ (height <=? 0)%float = true \/ (weight <=? 0)%float = true ->
      let q := Calculator.CalculateDelivery_spec rates service fromCity toCity
                 length width height weight in
      Quote.IsValid q = false /\ Quote.ErrorMessage q <> "")
  /\
  (forall (svc : TransportService.t) (fromCity toCity : string)
          (length width height weight : float),
      Calculator.non_positive length width height weight = false ->
      let q := Calculator.CalculateDelivery_spec rates (Some svc) fromCity toCity
                 length width height weight in
      Quote.IsValid q = true
      /\ (Calculator.distance_table rates
            (Go.ToLower (Go.TrimSpace fromCity))
            (Go.ToLower (Go.TrimSpace toCity)) = None ->
          Quote.Distance q = Calculator.default_distance rates))
  /\
  (forall (request : CargoLogisticRequestItem.t) (st : Store),
      let respond :=
        @Handler.CalculateLogisticRequestQuote (Calculator.of_rates rates)
          request st in
      (Spec.item_service (services st) request = None ->
       respond = (Ok (Handler.Fail 404 "transport type not found"), st))
      /\
      (Spec.item_service (services st) request <> None ->
       Calculator.non_positive
         (CargoLogisticRequestItem.Length request)
         (CargoLogisticRequestItem.Width request)
         (CargoLogisticRequestItem.Height request)
         (CargoLogisticRequestItem.Weight request) = true ->
       exists message,
         respond = (Ok (Handler.Fail 400 message), st) /\ message <> "")).
Proof.
  split; [|split].
  - intros service fromCity toCity length width height weight Hbad q. subst q.
    unfold Calculator.CalculateDelivery_spec.
    destruct service as [svc|]; [|now split].
    destruct Hbad as [Hnone | Hdims]; [discriminate|].
    rewrite (non_positive_true _ _ _ _ Hdims). now split.
  - intros svc fromCity toCity length width height weight Hpos q. subst q.
    unfold Calculator.CalculateDelivery_spec, Calculator.resolve_distance.
    rewrite Hpos. cbn. split; [reflexivity|]. now intros ->.
  - intros request st respond. subst respond.
    unfold Handler.CalculateLogisticRequestQuote, Spec.item_service, bind, attempt.
    split.
    + intros Hnone. now rewrite (GetTransportService_missing _ _ Hnone).
    + intros Hsome Hdims.
      destruct (find _ (services st)) as [svc|] eqn:Hsvc; [|now elim Hsome].
      rewrite (GetTransportService_found _ _ _ Hsvc).
      unfold Repository.quote_item. cbn [CalculateDelivery Calculator.of_rates].
      unfold Calculator.CalculateDelivery_spec.
      destruct (Calculator.service_reference svc); rewrite ?Hdims; cbn;
        eexists; (split; [reflexivity | assumption]).
Qed.

End CalculatorFacts.

(* ================================================================= *)
(** ** The handler's distance lookup *)

Example calculateDistance_case_fold :
  Handler.calculateDistance " Москва" "КАЗАНЬ " = 820%float.
Proof. vm_compute. reflexivity. Qed.

Example calculateDistance_same_city :
  Handler.calculateDistance "Томск" " томск" = 0%float.
Proof. vm_compute. reflexivity. Qed.

(** The pairs both of whose directions the table lists resolve to the same
    distance either way: these are the twelve entries among the four cities
    that have a table of their own. *)
Lemma symmetric_entries_are_the_hub_pairs :
  map (fun e => (fst (fst e), snd (fst e))) Handler.symmetric_entries
  = [ ("москва", "санкт-петербург"); ("москва", "екатеринбург");
      ("москва", "новосибирск");
      ("санкт-петербург", "москва"); ("санкт-петербург", "екатеринбург");
      ("санкт-петербург", "новосибирск");
      ("екатеринбург", "москва"); ("екатеринбург", "санкт-петербург");
      ("екатеринбург", "новосибирск");
      ("новосибирск", "москва"); ("новосибирск", "санкт-петербург");
      ("новосибирск", "екатеринбург") ].
Proof. vm_compute. reflexivity. Qed.

(** C5 (the code departs from it): the pair ("москва", "спб") is in the
    table with 635, and the lookup gives 635 from "москва" to "спб" but the
    default 500 from "спб" to "москва"; 33 of the 45 entries of the table
    resolve differently in the two directions. *)
Theorem calculateDistance_not_symmetric :
  Handler.table_entry "москва" "спб" = Some 635%float
  /\ Handler.calculateDistance "москва" "спб" = 635%float
  /\ Handler.calculateDistance "спб" "москва" = 500%float
  /\ List.length Handler.table_entries = 45%nat
  /\ List.length Handler.symmetric_entries = 12%nat.
Proof. vm_compute. repeat split; reflexivity. Qed.

(* ================================================================= *)
(** ** The properties on the example data *)

Example golden_quote :
  let q := @CalculateDelivery Sample.calc Sample.fura "Москва" "Санкт-Петербург"
             1 1 1 100 in
  Quote.IsValid q = true /\ Quote.Distance q = 635%float
  /\ Quote.TotalCost q = 1250%float /\ Quote.DeliveryDays q = 3
  /\ (Quote.DeliveryDays q, Quote.TotalCost q)
     = Handler.PostDeliveryQuote_formula Sample.fura 1 1 1 100.
Proof. vm_compute. repeat split; reflexivity. Qed.

Lemma sample_items_pass :
  Forall (fun i => exists q,
            @Spec.item_passes Sample.calc (services Sample.store0) i q)
         Sample.items.
Proof.
  repeat constructor; eexists; eexists;
    (split; [reflexivity | split; [reflexivity | vm_compute; reflexivity]]).
Qed.

(** C1 on the example: the request created from a plane, a train and a
    truck, quoted at 1, 5 and 3 days, takes 5 days and costs the sum of the
    three quotes. *)
Lemma created_request_totals_witness :
  let st' := after (@Repository.CreateCargoLogisticRequest Sample.calc
                      Sample.fleet_items 7) Sample.store_fleet in
  exists order quotes,
    Sample.fleet_items <> []
    /\ find (fun o => LogisticRequest.ID o =? 1) (requests st') = Some order
    /\ Forall2 (@Spec.item_passes Sample.calc (services Sample.store_fleet))
               Sample.fleet_items quotes
    /\ LogisticRequest.TotalCost order = Go.fsum (map Quote.TotalCost quotes)
    /\ Spec.is_maximum (LogisticRequest.TotalDays order)
                       (0 :: map Quote.DeliveryDays quotes)
    /\ (Forall (fun q => 0 <= Quote.DeliveryDays q) quotes ->
        Spec.is_maximum (LogisticRequest.TotalDays order)
                        (map Quote.DeliveryDays quotes))
    /\ LogisticRequest.Weight order
       = Go.fsum (map CargoLogisticRequestItem.Weight Sample.fleet_items)
    /\ LogisticRequest.Length order
       = Go.fsum (map CargoLogisticRequestItem.Length Sample.fleet_items)
    /\ LogisticRequest.Width order
       = Go.fsum (map CargoLogisticRequestItem.Width Sample.fleet_items)
    /\ LogisticRequest.Height order
       = Go.fsum (map CargoLogisticRequestItem.Height Sample.fleet_items).
Proof.
  intros st'.
  apply (@created_request_totals Sample.calc Sample.fleet_items 7
           Sample.store_fleet st' 1).
  vm_compute. reflexivity.
Defined.

Example created_request_values :
  map (fun o => (LogisticRequest.TotalCost o, LogisticRequest.TotalDays o,
                 LogisticRequest.Weight o))
      (requests Sample.created)
  = [(11350%float, 3, 2600%float)].
Proof. vm_compute. reflexivity. Qed.

Example fleet_request_values :
  map (fun i => option_map
                  (fun svc => (Quote.TotalCost (@Spec.item_quote Sample.calc svc i),
                               Quote.DeliveryDays (@Spec.item_quote Sample.calc svc i)))
                  (Spec.item_service (services Sample.store_fleet) i))
      Sample.fleet_items
  = [Some (5250%float, 1); Some (2500%float, 5); Some (1250%float, 3)]
  /\ map (fun o => (LogisticRequest.TotalCost o, LogisticRequest.TotalDays o,
                    LogisticRequest.Weight o, LogisticRequest.Length o))
         (requests (after (@Repository.CreateCargoLogisticRequest Sample.calc
                             Sample.fleet_items 7) Sample.store_fleet))
     = [(9000%float, 5, 400%float, 4%float)].
Proof. vm_compute. split; reflexivity. Qed.

(** C1, counterexample: a service stored with -5 delivery days quotes a
    valid -5 days for a cargo of 100 kg; the request created from that one
    item is stored with 0 days (and cost 1250), which is not among the
    quotes' days. *)
Lemma created_days_are_not_the_maximum :
  ~ @Spec.created_days_are_the_maximum Sample.calc.
Proof.
  intros Hspec.
  pose (st' := after (@Repository.CreateCargoLogisticRequest Sample.calc
                        Sample.express_items 7) Sample.store_express).
  pose (order := hd LogisticRequest.zero (requests st')).
  pose (q := @CalculateDelivery Sample.calc Sample.express
               "Москва" "Казань" 1 1 1 100).
  assert (Hrun : @Repository.CreateCargoLogisticRequest Sample.calc
                   Sample.express_items 7 Sample.store_express = (Ok 1, st'))
    by (vm_compute; reflexivity).
  assert (Hfind : find (fun o => LogisticRequest.ID o =? 1) (requests st')
                  = Some order)
    by (vm_compute; reflexivity).
  assert (Hpass : Forall2 (@Spec.item_passes Sample.calc
                             (services Sample.store_express))
                          Sample.express_items [q]).
  { constructor; [|constructor]. exists Sample.express.
    split; [reflexivity | split; [reflexivity | vm_compute; reflexivity]]. }
  destruct (Hspec _ _ _ _ _ _ _ Hrun Hfind Hpass) as [Hin _].
  vm_compute in Hin. destruct Hin as [Heq | []]. discriminate.
Qed.

Example express_request_values :
  Quote.DeliveryDays (@CalculateDelivery Sample.calc Sample.express
                        "Москва" "Казань" 1 1 1 100) = -5
  /\ map (fun o => (LogisticRequest.TotalCost o, LogisticRequest.TotalDays o))
         (requests (after (@Repository.CreateCargoLogisticRequest Sample.calc
                             Sample.express_items 7) Sample.store_express))
     = [(1250%float, 0)].
Proof. vm_compute. split; reflexivity. Qed.

Lemma truck_twice_passes :
  Forall (fun i => exists q,
            @Spec.item_passes Sample.calc (services Sample.store0) i q)
         Sample.truck_twice.
Proof.
  repeat constructor; eexists; eexists;
    (split; [reflexivity | split; [reflexivity | vm_compute; reflexivity]]).
Qed.

(** C2 on the example: the two items are committed with their request; with
    an item for the unknown service 9 in between, the call returns that
    item's error and no row stays; two items that both name service 1 are
    refused and no row stays. *)
Lemma create_is_all_or_nothing_witness :
  (exists order st',
      @Repository.CreateCargoLogisticRequest Sample.calc Sample.items 7
        Sample.store0 = (Ok 1, st')
      /\ LogisticRequest.ID order = 1
      /\ LogisticRequest.CreatorID order = 7
      /\ requests st' = [order]
      /\ lines st' = [LogisticRequestService.mk 1 1 1 1 0 "";
                      LogisticRequestService.mk 2 1 3 1 0 ""])
  /\
  (exists st',
      @Repository.CreateCargoLogisticRequest Sample.calc
        Sample.items_with_unknown_service 7 Sample.store0
      = (Err "service 9 not found", st')
      /\ requests st' = [] /\ lines st' = [])
  /\
  (forall e st',
      @Repository.CreateCargoLogisticRequest Sample.calc
        Sample.items_with_unknown_service 7 Sample.store0 = (Err e, st') ->
      requests st' = [] /\ lines st' = [])
  /\
  (exists e st',
      @Repository.CreateCargoLogisticRequest Sample.calc Sample.truck_twice 7
        Sample.store0 = (Err e, st')
      /\ requests st' = [] /\ lines st' = []).
Proof.
  split; [|split; [|split]].
  - destruct (@create_is_all_or_nothing Sample.calc Sample.items 7 Sample.store0)
      as (_ & _ & _ & Hcommit & _); [discriminate|].
    apply Hcommit;
      [exact sample_items_pass
      | repeat constructor; cbn; intuition discriminate
      | constructor | constructor].
  - destruct (@create_is_all_or_nothing Sample.calc
                Sample.items_with_unknown_service 7 Sample.store0)
      as (_ & Hfirst & _); [discriminate|].
    apply (Hfirst [Sample.item 1 "Москва" "Санкт-Петербург" 1 1 1 100]
                  (Sample.item 9 "Москва" "Казань" 1 1 1 100)
                  [Sample.item 3 "Москва" "Казань" 2 1 1 2500]).
    + reflexivity.
    + repeat constructor; eexists; eexists;
        (split; [reflexivity | split; [reflexivity | vm_compute; reflexivity]]).
    + left. split; reflexivity.
    + repeat constructor. intros [].
    + constructor.
  - destruct (@create_is_all_or_nothing Sample.calc
                Sample.items_with_unknown_service 7 Sample.store0)
      as (_ & _ & Hrollback & _); [discriminate|].
    exact Hrollback.
  - destruct (@create_is_all_or_nothing Sample.calc Sample.truck_twice 7
                Sample.store0)
      as (_ & _ & _ & _ & Hrepeated); [discriminate|].
    apply Hrepeated. intros Hdistinct.
    inversion Hdistinct as [|? ? Hnotin _]; subst. apply Hnotin. now left.
Defined.

(** C2, counterexample: two trucks, both items passing and both naming
    service 1; the second line item repeats the pair of the first, its insert
    is refused and the call returns the database's error. *)
Lemma repeated_service_is_not_committed :
  ~ @Spec.passing_items_are_committed Sample.calc.
Proof.
  intros Hspec.
  destruct (Hspec Sample.truck_twice 7 Sample.store0) as (id & st' & Hrun).
  - discriminate.
  - exact truck_twice_passes.
  - vm_compute in Hrun. discriminate.
Qed.

Example truck_twice_error :
  @Repository.CreateCargoLogisticRequest Sample.calc Sample.truck_twice 7
    Sample.store0
  = (Err Gorm.ErrDuplicatedKey,
     mkStore (services Sample.store0) [] [] 2 3).
Proof. vm_compute. reflexivity. Qed.

(** The totals a creation stores are those of its items' own routes and
    cargo; the rule over the line items, at the request's route and summed
    cargo, gives other values. *)
Example created_totals_against_rule :
  map (fun o => (LogisticRequest.TotalCost o, LogisticRequest.TotalDays o,
                 @Spec.derived_totals Sample.calc Sample.created o))
      (requests Sample.created)
  = [(11350%float, 3, (17600%float, 5))].
Proof. vm_compute. reflexivity. Qed.

Example unknown_service_error :
  fst (@Repository.CreateCargoLogisticRequest Sample.calc
         Sample.items_with_unknown_service 7 Sample.store0)
  = Err "service 9 not found".
Proof. vm_compute. reflexivity. Qed.

(** C3, counterexample: user 7 creates a request for a plane (1 day, 5250)
    and then adds a truck to it; the row still says 1 day and 5250, while the
    quotes of its two line items take 1 and 3 days and cost 6500. *)
Lemma totals_drift_after_adding_a_service :
  ~ @Spec.totals_never_drift Sample.calc Sample.sys.
Proof.
  intros Hspec.
  pose (st := @Api.run Sample.calc Sample.sys (services Sample.store0)
                Sample.plane_then_truck).
  pose (order := hd LogisticRequest.zero (requests st)).
  assert (Hin : In order (requests st)) by (vm_compute; left; reflexivity).
  assert (Hstored : LogisticRequest.TotalDays order = 1)
    by (vm_compute; reflexivity).
  assert (Hquotes : map Quote.DeliveryDays
                      (@Spec.line_quotes Sample.calc st order) = [1; 3])
    by (vm_compute; reflexivity).
  destruct (Hspec _ _ order Hin) as (_ & _ & Hdays). fold st in Hdays.
  destruct Hdays as [_ Hmax].
  - intros Hnone. rewrite Hnone in Hquotes. discriminate.
  - rewrite Hstored, Hquotes in Hmax.
    inversion Hmax as [|? ? _ Hrest]; subst.
    inversion Hrest as [|? ? Hle _]; subst. lia.
Qed.

Example drift_values :
  let st := @Api.run Sample.calc Sample.sys (services Sample.store0)
              Sample.plane_then_truck in
  map (fun o => (LogisticRequest.TotalCost o, LogisticRequest.TotalDays o,
                 @Spec.derived_totals Sample.calc st o))
      (requests st)
  = [(5250%float, 1, (6500%float, 3))].
Proof. vm_compute. reflexivity. Qed.

(** C4 on the example rates: a zero length is refused with the message of
    the rates, and a pair of cities the table does not have is quoted at the
    default distance. *)
Lemma CalculateDelivery_validation_witness :
  (let q := Calculator.CalculateDelivery_spec Calculator.inline_rates
              (Some Sample.fura) "Москва" "Казань" 0 1 1 100 in
   Quote.IsValid q = false /\ Quote.ErrorMessage q <> "")
  /\
  (let q := Calculator.CalculateDelivery_spec Calculator.inline_rates
              (Some Sample.fura) "Томск" "Омск" 1 1 1 100 in
   Quote.IsValid q = true /\ Quote.Distance q = 500%float).
Proof.
  destruct (CalculateDelivery_validation Calculator.inline_rates)
    as (Hbad & Hgood & _); [discriminate | discriminate |].
  split.
  - apply Hbad. right. left. reflexivity.
  - destruct (Hgood Sample.fura "Томск" "Омск" 1%float 1%float 1%float 100%float
                eq_refl)
      as [Hvalid Hdefault].
    split; [exact Hvalid | apply Hdefault; reflexivity].
Defined.


(** C9 on the example: a completed request can neither be formed nor
    completed again, and the database stays as it is. *)
Lemma status_precondition_violations_witness :
  Repository.FormLogisticRequest 1 "Москва" "Казань" 100 1 1 1 30
    Sample.with_completed
  = (Err "можно формировать только черновики", Sample.with_completed)
  /\
  @Repository.CompleteLogisticRequest Sample.calc 1 StatusRejected 2 30
    Sample.with_completed
  = (Err "можно завершать только сформированные заявки", Sample.with_completed).
Proof.
  destruct (@status_precondition_violations Sample.calc Sample.with_completed 1
              Sample.completed_request eq_refl) as [Hform Hcomplete].
  split.
  - apply Hform. discriminate.
  - apply Hcomplete; [discriminate | right; reflexivity].
Defined.

Example remove_by_path :
  let st := mkStore [Sample.fura]
              [LogisticRequest.with_ID 1
                 (@Repository.new_guest_draft Sample.sys "guest")]
              [LogisticRequestService.mk 1 1 1 2 0 ""] 2 2 in
  lines (after (@Repository.RemoveTransportServiceFromGuestDraftLogisticRequest
                  Sample.sys 1) st)
  = [LogisticRequestService.mk 1 1 1 1 0 ""]
  /\ lines (after (Repository.RemoveServiceFromLogisticRequest 1 1) st) = [].
Proof. vm_compute. split; reflexivity. Qed.

(* ================================================================= *)
(** * Further properties *)

(** ** The bearer token of a request *)

Lemma Split_not_nil (s : string) (sep : ascii) : GoStrings.Split s sep <> [].
Proof.
  destruct s as [|c rest]; cbn; [discriminate|].
  destruct (Ascii.eqb c sep); [discriminate|].
  destruct (GoStrings.Split rest sep); discriminate.
Qed.

Lemma Split_no_separator (s : string) (sep : ascii) :
  GoStrings.has_byte sep s = false -> GoStrings.Split s sep = [s].
Proof.
  induction s as [|c rest IH]; cbn; [reflexivity|].
  destruct (Ascii.eqb c sep); cbn; [discriminate|].
  intros Hrest. now rewrite (IH Hrest).
Qed.

(** The first piece holds no separator; it is the whole string, or what
    comes before the first separator, the other pieces being those of what
    comes after it. *)
Lemma Split_first (sep : ascii) (s : string) :
  forall p parts,
    GoStrings.Split s sep = p :: parts ->
    GoStrings.has_byte sep p = false
    /\ ((parts = [] /\ s = p)
        \/ exists rest, s = (p ++ String sep rest)%string
                        /\ GoStrings.Split rest sep = parts).
Proof.
  induction s as [|c rest IH]; cbn; intros p parts Heq.
  - injection Heq as <- <-. auto.
  - destruct (Ascii.eqb_spec c sep) as [-> | Hc].
    + injection Heq as <- <-. split; [reflexivity|]. right. now exists rest.
    + destruct (GoStrings.Split rest sep) as [|q qs] eqn:Hrest;
        [now elim (Split_not_nil rest sep)|].
      injection Heq as <- <-.
      destruct (IH q qs eq_refl) as [Hq Hshape]. split.
      * cbn. rewrite Hq. destruct (Ascii.eqb_spec c sep); [contradiction|reflexivity].
      * destruct Hshape as [[-> ->] | (rest' & -> & Hrest')]; [left; auto|].
        right. now exists rest'.
Qed.

(** Exactly two pieces: one separator, with the pieces around it. *)
Lemma Split_two (sep : ascii) (s p0 p1 : string) :
  GoStrings.Split s sep = [p0; p1] ->
  s = (p0 ++ String sep p1)%string /\ GoStrings.has_byte sep p1 = false.
Proof.
  intros Heq. destruct (Split_first sep s _ _ Heq) as [_ [[Hnil _] | Hrest]];
    [discriminate|].
  destruct Hrest as (rest & -> & Hrest).
  destruct (Split_first sep rest _ _ Hrest) as [Hp1 [[_ ->] | (r & _ & Hr)]].
  - auto.
  - now elim (Split_not_nil r sep).
Qed.

(** X1: [extractToken] returns a non-empty token [t] exactly for the header
    "Bearer " followed by [t], [t] holding no space; every other header
    (no header, another scheme, a blank too many) gives the empty token. *)
Theorem extractToken_bearer (authHeader t : string) (Ht : t <> "") :
  Middleware.extractToken authHeader = t
  <-> authHeader = ("Bearer " ++ t)%string
      /\ GoStrings.has_byte " "%char t = false.
Proof.
  unfold Middleware.extractToken. split.
  - destruct (authHeader =? "")%string; [intros <-; now elim Ht|].
    destruct (GoStrings.Split authHeader " ") as [|p0 [|p1 [|p2 ps]]] eqn:Hsplit;
      try (intros <-; now elim Ht).
    destruct (String.eqb_spec p0 "Bearer") as [-> | _]; cbn;
      [|intros <-; now elim Ht].
    intros <-. apply Split_two in Hsplit as [-> Hp1]. auto.
  - intros [-> Hspace]. cbn. now rewrite (Split_no_separator _ _ Hspace).
Qed.

Example extractToken_rejects :
  Middleware.extractToken "" = ""
  /\ Middleware.extractToken "Bearer" = ""
  /\ Middleware.extractToken "Bearer " = ""
  /\ Middleware.extractToken "bearer abc" = ""
  /\ Middleware.extractToken "Bearer  abc" = ""
  /\ Middleware.extractToken "Bearer abc def" = "".
Proof. vm_compute. repeat split; reflexivity. Qed.

Section MiddlewareFacts.

Context {jwt : Middleware.JWTService} {roles : Middleware.Roles}.

(** X2: [RequireModerator] does what [RequireAuth] followed by
    [RequireRole(RoleManager, RoleAdmin)] does: it aborts with the same code
    and message where [RequireAuth] aborts, aborts with 403 where the role
    check does, and otherwise passes the request on with the same
    context. *)
Theorem RequireModerator_is_auth_then_role
  (authHeader : string) (c : Middleware.Context) :
  match Middleware.RequireAuth authHeader c with
  | Middleware.Abort code message =>
      Middleware.RequireModerator authHeader c = Middleware.Abort code message
  | Middleware.Next c1 =>
      match Middleware.RequireRole
              [Middleware.RoleManager; Middleware.RoleAdmin] c1 with
      | Middleware.Next c2 =>
          Middleware.RequireModerator authHeader c = Middleware.Next c2
      | Middleware.Abort code _ =>
          code = Middleware.StatusForbidden
          /\ exists message,
               Middleware.RequireModerator authHeader c
               = Middleware.Abort code message
      end
  end.
Proof.
  unfold Middleware.RequireAuth, Middleware.RequireModerator,
    Middleware.RequireRole.
  destruct (Middleware.extractToken authHeader =? "")%string; [reflexivity|].
  destruct (Middleware.ValidateToken (Middleware.extractToken authHeader))
    as [claims|e]; [|reflexivity].
  destruct (negb (Middleware.Type_ claims =? "access")%string); [reflexivity|].
  cbn [Middleware.user_role Middleware.set_user existsb].
  destruct (Middleware.Role claims =? Middleware.RoleManager)%string; cbn;
    [reflexivity|].
  destruct (Middleware.Role claims =? Middleware.RoleAdmin)%string; cbn;
    [reflexivity|].
  split; [reflexivity | eauto].
Qed.

(** X3: [OptionalAuth] never aborts: where [RequireAuth] passes the request
    on, it passes it on with the same context; where [RequireAuth] aborts
    (no token, an invalid one, a token that is not an access token), it
    passes the request on with the context untouched. *)
Theorem OptionalAuth_follows_RequireAuth
  (authHeader : string) (c : Middleware.Context) :
  Middleware.OptionalAuth authHeader c
  = match Middleware.RequireAuth authHeader c with
    | Middleware.Next c1 => Middleware.Next c1
    | Middleware.Abort _ _ => Middleware.Next c
    end.
Proof.
  unfold Middleware.OptionalAuth, Middleware.RequireAuth.
  destruct (Middleware.extractToken authHeader =? "")%string; [reflexivity|].
  destruct (Middleware.ValidateToken (Middleware.extractToken authHeader))
    as [claims|e]; [|reflexivity].
  now destruct (negb (Middleware.Type_ claims =? "access")%string).
Qed.

End MiddlewareFacts.

(** X1 on an example. *)
Lemma extractToken_bearer_witness :
  Middleware.extractToken "Bearer abc.def.ghi" = "abc.def.ghi".
Proof.
  apply (extractToken_bearer "Bearer abc.def.ghi" "abc.def.ghi").
  - discriminate.
  - split; reflexivity.
Defined.

(** ** The distance lookup on every input *)

Lemma float_neq (x y : float) : PrimFloat.eqb x y = false -> PrimFloat.eqb y y = true -> x <> y.
Proof. intros Hxy Hyy ->. congruence. Qed.

(** Walks the literal table: one case per key of the outer and of the inner
    map. *)
Ltac walk_table :=
  repeat first
    [ progress cbn [Go.map_get]
    | match goal with
      | |- context [String.eqb ?k ?x] =>
          destruct (String.eqb_spec k x); [subst|]
      end ].

(** X4: for two names written in ASCII and Cyrillic letters,
    [calculateDistance] is 0 exactly when the two names are the same after
    trimming and lower-casing, or when they are "санкт-петербург" and its
    alias "спб", in that order. *)
Theorem calculateDistance_zero_iff (fromCity toCity : string)
  (Hfrom : Go.latin_cyrillic fromCity = true)
  (Hto : Go.latin_cyrillic toCity = true) :
  let from := Go.ToLower (Go.TrimSpace fromCity) in
  let to := Go.ToLower (Go.TrimSpace toCity) in
  Handler.calculateDistance fromCity toCity = 0%float
  <-> from = to \/ (from = "санкт-петербург" /\ to = "спб").
Proof.
  clear Hfrom Hto.
  intros from to. unfold Handler.calculateDistance. fold from. fold to.
  generalize from to. clear. intros from to.
  destruct (String.eqb_spec from to) as [-> | Hne]; [tauto|].
  unfold Handler.distances. cbn [Go.map_get].
  walk_table.
  all: try tauto.
  all: split;
    [ intros E; exfalso; revert E; apply float_neq; reflexivity
    | intros [E | [E1 E2]];
      [ now elim Hne
      | try discriminate E1; try discriminate E2; try (now elim n);
        congruence ] ].
Qed.

(** X5: whatever the two names are, [calculateDistance] gives a number between
    0 and 9100 (the entry from "москва" to "владивосток"); it is never NaN
    and never negative. *)
Theorem calculateDistance_range (fromCity toCity : string) :
  (0 <=? Handler.calculateDistance fromCity toCity)%float = true
  /\ (Handler.calculateDistance fromCity toCity <=? 9100)%float = true.
Proof.
  unfold Handler.calculateDistance.
  generalize (Go.ToLower (Go.TrimSpace fromCity))
             (Go.ToLower (Go.TrimSpace toCity)).
  intros from to.
  destruct (String.eqb from to); [split; reflexivity|].
  unfold Handler.distances.
  walk_table; split; reflexivity.
Qed.

(** ** Rows rewritten by key *)

(** No row with the key [k] meets [q] once every such row is turned into one
    that does not. *)
Lemma find_rewritten_none (k : Z) (q : LogisticRequest.t -> bool)
  (f : LogisticRequest.t -> LogisticRequest.t)
  (rows : list LogisticRequest.t) :
  (forall r, q (f r) = false) ->
  find (fun r => (LogisticRequest.ID r =? k) && q r)
       (map (fun r => if LogisticRequest.ID r =? k then f r else r) rows) = None.
Proof.
  intros Hq. induction rows as [|a rows IH]; cbn; [reflexivity|].
  destruct (LogisticRequest.ID a =? k) eqn:Ha.
  - rewrite Hq, andb_false_r. exact IH.
  - rewrite Ha. exact IH.
Qed.

Lemma find_rewritten (k : Z) (f : LogisticRequest.t -> LogisticRequest.t)
  (rows : list LogisticRequest.t) (o : LogisticRequest.t) :
  (forall r, LogisticRequest.ID (f r) = LogisticRequest.ID r) ->
  find (fun r => LogisticRequest.ID r =? k) rows = Some o ->
  find (fun r => LogisticRequest.ID r =? k)
       (map (fun r => if LogisticRequest.ID r =? k then f r else r) rows)
  = Some (f o).
Proof.
  intros Hf. induction rows as [|a rows IH]; cbn; [discriminate|].
  destruct (LogisticRequest.ID a =? k) eqn:Ha.
  - intros H. injection H as <-. now rewrite Hf, Ha.
  - rewrite Ha. exact IH.
Qed.

Lemma map_untouched (k : Z) (f : LogisticRequest.t -> LogisticRequest.t)
  (rows : list LogisticRequest.t) :
  existsb (fun r => LogisticRequest.ID r =? k) rows = false ->
  map (fun r => if LogisticRequest.ID r =? k then f r else r) rows = rows.
Proof.
  induction rows as [|a rows IH]; cbn; [reflexivity|].
  destruct (LogisticRequest.ID a =? k); cbn; [discriminate|].
  intros H. now rewrite IH.
Qed.

Lemma store_eta (st : Store) :
  mkStore (services st) (requests st) (lines st) (request_seq st) (line_seq st)
  = st.
Proof. now destruct st. Qed.


(** ** The life of a request *)

Lemma find_by_key_in (k : Z) (rows : list LogisticRequest.t)
  (o : LogisticRequest.t) :
  find (fun r => LogisticRequest.ID r =? k) rows = Some o ->
  In o rows /\ LogisticRequest.ID o = k.
Proof.
  intros H. apply find_some in H as [Hin Hk]. split; [assumption|lia].
Qed.

Lemma existsb_of_find {A : Type} (p : A -> bool) (rows : list A) (x : A) :
  find p rows = Some x -> existsb p rows = true.
Proof. intros H. rewrite find_existsb, H. reflexivity. Qed.

(** What [Save] leaves under the key of the struct it was given, when a row
    had that key. *)
Lemma save_request_found (o o' : LogisticRequest.t) (st : Store) :
  find (fun r => LogisticRequest.ID r =? LogisticRequest.ID o') (requests st)
  = Some o ->
  find (fun r => LogisticRequest.ID r =? LogisticRequest.ID o')
       (requests (after (Gorm.save_request o') st)) = Some o'
  /\ lines (after (Gorm.save_request o') st) = lines st
  /\ services (after (Gorm.save_request o') st) = services st.
Proof.
  intros Hfind. unfold after, Gorm.save_request. cbn.
  rewrite (existsb_of_find _ _ _ Hfind). repeat split.
  apply find_replace_request; [reflexivity|].
  exact (existsb_of_find _ _ _ Hfind).
Qed.

Section LifecycleFacts.

Context {calc : DeliveryCalculator} {sys : SystemCreator}.

(** [FormLogisticRequest] when it goes through. *)
Lemma FormLogisticRequest_run (orderID : Z) (fromCity toCity : string)
  (weight length width height : float) (now : Z) (st : Store)
  (order : LogisticRequest.t) :
  find (fun o => LogisticRequest.ID o =? orderID) (requests st) = Some order ->
  LogisticRequest.Status order = StatusDraft ->
  ((fromCity =? "")%string || (toCity =? "")%string
   || (weight <=? 0)%float || (length <=? 0)%float
   || (width <=? 0)%float || (height <=? 0)%float) = false ->
  Gorm.preload_services orderID st <> [] ->
  Repository.FormLogisticRequest orderID fromCity toCity weight length width
    height now st
  = Gorm.save_request
      (LogisticRequest.formed fromCity toCity weight length width height now
         order) st.
Proof.
  intros Hfind Hstatus Hfields Hlines.
  destruct (find_by_key_in _ _ _ Hfind) as [_ Hid].
  unfold Repository.FormLogisticRequest. run_db. rewrite Hfind. cbn.
  rewrite Hstatus. cbn. rewrite Hfields. rewrite Hid.
  destruct (Gorm.preload_services orderID st); [now elim Hlines|reflexivity].
Qed.

(** What a call of [FormLogisticRequest] that returned nil found. *)
Lemma FormLogisticRequest_inv (orderID : Z) (fromCity toCity : string)
  (weight length width height : float) (now : Z) (st st1 : Store) :
  Repository.FormLogisticRequest orderID fromCity toCity weight length width
    height now st = (Ok tt, st1) ->
  exists order,
    find (fun o => LogisticRequest.ID o =? orderID) (requests st) = Some order
    /\ LogisticRequest.Status order = StatusDraft
    /\ ((fromCity =? "")%string || (toCity =? "")%string
        || (weight <=? 0)%float || (length <=? 0)%float
        || (width <=? 0)%float || (height <=? 0)%float) = false
    /\ Gorm.preload_services orderID st <> []
    /\ st1 = after (Gorm.save_request
                      (LogisticRequest.formed fromCity toCity weight length
                         width height now order)) st.
Proof.
  unfold Repository.FormLogisticRequest. run_db.
  destruct (find _ (requests st)) as [order|] eqn:Hfind; cbn; [|discriminate].
  destruct (find_by_key_in _ _ _ Hfind) as [_ Hid].
  destruct (String.eqb_spec (LogisticRequest.Status order) StatusDraft)
    as [Hstatus|_]; cbn; [|discriminate].
  destruct (_ || _) eqn:Hfields; [discriminate|].
  destruct (Gorm.preload_services (LogisticRequest.ID order) st) eqn:Hlines;
    cbn; [discriminate|].
  intros H. injection H as <-. exists order. repeat split; auto.
  rewrite <- Hid, Hlines. discriminate.
Qed.

(** [CompleteLogisticRequest] when it goes through. *)
Lemma CompleteLogisticRequest_run (orderID : Z) (status : string)
  (moderatorID now : Z) (st : Store) (order : LogisticRequest.t) :
  status = StatusCompleted \/ status = StatusRejected ->
  find (fun o => LogisticRequest.ID o =? orderID) (requests st) = Some order ->
  LogisticRequest.Status order = StatusFormed ->
  Repository.CompleteLogisticRequest orderID status moderatorID now st
  = Gorm.save_request
      (LogisticRequest.closed status moderatorID now
         (if (status =? StatusCompleted)%string
          then LogisticRequest.with_totals
                 (fst (Repository.recompute_totals order
                         (Repository.loaded_services st order)))
                 (snd (Repository.recompute_totals order
                         (Repository.loaded_services st order)))
                 order
          else order)) st.
Proof.
  intros Hstatus Hfind Hformed. unfold Repository.CompleteLogisticRequest.
  replace (negb (status =? StatusCompleted)%string
           && negb (status =? StatusRejected)%string) with false
    by (destruct Hstatus as [-> | ->]; reflexivity).
  run_db. rewrite Hfind. cbn. rewrite Hformed. reflexivity.
Qed.

(** X6: a draft that [FormLogisticRequest] accepts can then be closed: after
    the call, [CompleteLogisticRequest] with "completed" or "rejected" goes
    through, and the row it leaves has that status, the moderator, both
    times, and the route and cargo given when it was formed. *)
Theorem form_then_complete (orderID : Z) (fromCity toCity : string)
  (weight length width height : float) (now : Z) (st st1 : Store)
  (status : string) (moderatorID later : Z) :
  Repository.FormLogisticRequest orderID fromCity toCity weight length width
    height now st = (Ok tt, st1) ->
  status = StatusCompleted \/ status = StatusRejected ->
  exists st2 order,
    Repository.CompleteLogisticRequest orderID status moderatorID later st1
    = (Ok tt, st2)
    /\ find (fun o => LogisticRequest.ID o =? orderID) (requests st2)
       = Some order
    /\ LogisticRequest.Status order = status
    /\ LogisticRequest.ModeratorID order = Some moderatorID
    /\ LogisticRequest.FormedAt order = Some now
    /\ LogisticRequest.CompletedAt order = Some later
    /\ LogisticRequest.IsDraft order = false
    /\ LogisticRequest.FromCity order = fromCity
    /\ LogisticRequest.ToCity order = toCity
    /\ LogisticRequest.Weight order = weight
    /\ LogisticRequest.Length order = length
    /\ LogisticRequest.Width order = width
    /\ LogisticRequest.Height order = height
    /\ lines st2 = lines st.
Proof.
  intros Hform Hstatus.
  destruct (FormLogisticRequest_inv _ _ _ _ _ _ _ _ _ _ Hform)
    as (order0 & Hfind & _ & _ & _ & ->).
  destruct (find_by_key_in _ _ _ Hfind) as [_ Hid].
  set (formed := LogisticRequest.formed fromCity toCity weight length width
                   height now order0).
  assert (Hkey : LogisticRequest.ID formed = orderID) by exact Hid.
  rewrite <- Hkey in Hfind.
  destruct (save_request_found _ _ _ Hfind) as (Hfound & Hlines & _).
  rewrite Hkey in Hfound.
  set (st1 := after (Gorm.save_request formed) st) in *.
  rewrite (CompleteLogisticRequest_run orderID status moderatorID later st1
             formed Hstatus Hfound eq_refl).
  match goal with
  | |- context [Gorm.save_request ?o st1] => set (closed := o)
  end.
  assert (Hclosed : LogisticRequest.ID closed = orderID)
    by (subst closed; destruct (status =? StatusCompleted)%string; exact Hid).
  rewrite <- Hclosed in Hfound.
  destruct (save_request_found _ _ _ Hfound) as (Hfound2 & Hlines2 & _).
  rewrite Hclosed in Hfound2.
  exists (after (Gorm.save_request closed) st1), closed.
  split; [reflexivity|]. split; [exact Hfound2|].
  rewrite Hlines2, Hlines. subst closed.
  destruct (status =? StatusCompleted)%string; cbn; repeat split; reflexivity.
Qed.


(** X7: forming is done once: after a call of [FormLogisticRequest] that went
    through, a second call for the same request is refused as not a draft,
    whatever its arguments, and so is [AddServiceToLogisticRequest] on it;
    both leave the database as it is. *)
Theorem formed_request_is_no_draft (orderID : Z) (fromCity toCity : string)
  (weight length width height : float) (now : Z) (st st1 : Store) :
  Repository.FormLogisticRequest orderID fromCity toCity weight length width
    height now st = (Ok tt, st1) ->
  (forall fromCity' toCity' weight' length' width' height' now',
      Repository.FormLogisticRequest orderID fromCity' toCity' weight' length'
        width' height' now' st1
      = (Err "можно формировать только черновики", st1))
  /\ (forall serviceID,
         Repository.AddServiceToLogisticRequest orderID serviceID st1
         = (Err "заявка не найдена или не является черновиком", st1)).
Proof.
  intros Hform.
  destruct (FormLogisticRequest_inv _ _ _ _ _ _ _ _ _ _ Hform)
    as (order0 & Hfind & _ & _ & _ & ->).
  destruct (find_by_key_in _ _ _ Hfind) as [_ Hid].
  set (formed := LogisticRequest.formed fromCity toCity weight length width
                   height now order0).
  assert (Hkey : LogisticRequest.ID formed = orderID) by exact Hid.
  pose proof Hfind as Hfind'. rewrite <- Hkey in Hfind'.
  destruct (save_request_found _ _ _ Hfind') as (Hfound & _ & _).
  rewrite Hkey in Hfound.
  set (st1 := after (Gorm.save_request formed) st) in *.
  split.
  - intros. unfold Repository.FormLogisticRequest. run_db.
    rewrite Hfound. reflexivity.
  - intros serviceID. unfold Repository.AddServiceToLogisticRequest. run_db.
    replace (find (Repository.draft_with_key orderID) (requests st1))
      with (@None LogisticRequest.t); [reflexivity|].
    symmetry. subst st1. unfold after, Gorm.save_request. cbn.
    rewrite Hid, (existsb_of_find _ _ _ Hfind).
    apply (find_rewritten_none orderID
             (fun r => (LogisticRequest.Status r =? StatusDraft)%string)
             (fun _ => formed)).
    reflexivity.
Qed.

(** ** Requests that are closed *)

Lemma sorted_keys_unique {A : Type} (key : A -> Z) (rows : list A) (a b : A) :
  StronglySorted Z.lt (map key rows) ->
  In a rows -> In b rows -> key a = key b -> a = b.
Proof.
  induction rows as [|x rows IH]; cbn; intros Hs Ha Hb Hkey; [contradiction|].
  inversion Hs as [|? ? Hrest Hx]; subst. rewrite Forall_forall in Hx.
  destruct Ha as [<- | Ha], Hb as [<- | Hb].
  - reflexivity.
  - specialize (Hx (key b) (in_map key _ _ Hb)). lia.
  - specialize (Hx (key a) (in_map key _ _ Ha)). lia.
  - now apply IH.
Qed.

(** [Save] leaves the rows of other keys where they are. *)
Lemma save_request_keeps (o' r : LogisticRequest.t) (st : Store) :
  In r (requests st) ->
  LogisticRequest.ID r <> LogisticRequest.ID o' ->
  In r (requests (after (Gorm.save_request o') st)).
Proof.
  intros Hin Hne. unfold after, Gorm.save_request. cbn.
  destruct (existsb _ (requests st)).
  - apply in_map_iff. exists r. split; [|exact Hin].
    destruct (Z.eqb_spec (LogisticRequest.ID r) (LogisticRequest.ID o'));
      [contradiction | reflexivity].
  - apply in_or_app. now left.
Qed.

(** What [FormLogisticRequest] leaves: the database as it was, or the draft
    it found saved as formed. *)
Lemma after_FormLogisticRequest (orderID : Z) (fromCity toCity : string)
  (weight length width height : float) (now : Z) (st : Store) :
  after (Repository.FormLogisticRequest orderID fromCity toCity weight length
           width height now) st = st
  \/ exists order,
       In order (requests st)
       /\ LogisticRequest.Status order = StatusDraft
       /\ after (Repository.FormLogisticRequest orderID fromCity toCity weight
                   length width height now) st
          = after (Gorm.save_request
                     (LogisticRequest.formed fromCity toCity weight length
                        width height now order)) st.
Proof.
  destruct (Repository.FormLogisticRequest orderID fromCity toCity weight
              length width height now st) as [[[]|e] st1] eqn:Hrun.
  - destruct (FormLogisticRequest_inv _ _ _ _ _ _ _ _ _ _ Hrun)
      as (order & Hfind & Hstatus & _ & _ & Hst1).
    right. exists order. destruct (find_by_key_in _ _ _ Hfind).
    repeat split; auto. unfold after at 1. now rewrite Hrun.
  - left. unfold after. rewrite Hrun. cbn. revert Hrun.
    unfold Repository.FormLogisticRequest. run_db.
    destruct (find _ (requests st)); cbn; [|congruence].
    repeat (match goal with
            | |- context [if ?b then _ else _] => destruct b
            end; cbn; try congruence).
Qed.

(** The same for [CompleteLogisticRequest] and the formed request it found. *)
Lemma after_CompleteLogisticRequest (orderID : Z) (status : string)
  (moderatorID now : Z) (st : Store) :
  after (Repository.CompleteLogisticRequest orderID status moderatorID now) st
  = st
  \/ exists order order',
       In order (requests st)
       /\ LogisticRequest.Status order = StatusFormed
       /\ LogisticRequest.ID order' = LogisticRequest.ID order
       /\ after (Repository.CompleteLogisticRequest orderID status moderatorID
                   now) st
          = after (Gorm.save_request order') st.
Proof.
  unfold after, Repository.CompleteLogisticRequest.
  destruct (negb _ && negb _); [now left|]. run_db.
  destruct (find _ (requests st)) as [order|] eqn:Hfind; cbn; [|now left].
  destruct (String.eqb_spec (LogisticRequest.Status order) StatusFormed)
    as [Hstatus|_]; cbn; [|now left].
  right. destruct (find_by_key_in _ _ _ Hfind) as [Hin _].
  exists order,
    (LogisticRequest.closed status moderatorID now
       (if (status =? StatusCompleted)%string
        then LogisticRequest.with_totals
               (fst (Repository.recompute_totals order
                       (Repository.loaded_services st order)))
               (snd (Repository.recompute_totals order
                       (Repository.loaded_services st order)))
               order
        else order)).
  split; [exact Hin|]. split; [exact Hstatus|]. split; [|reflexivity].
  now destruct (status =? StatusCompleted)%string.
Qed.

Lemma ensureGuestDraft_keeps (sessionID : string) (st : Store)
  (o : LogisticRequest.t) :
  In o (requests st) ->
  In o (requests (after (Repository.ensureGuestDraftLogisticRequest sessionID)
                    st)).
Proof.
  intros Hin. unfold after.
  destruct (find (Repository.is_guest_draft_of sessionID) (requests st))
    as [order|] eqn:Hfind.
  - now rewrite (ensureGuestDraft_found _ _ _ Hfind).
  - rewrite (ensureGuestDraft_created _ _ Hfind). cbn.
    apply in_or_app. now left.
Qed.

(** One call leaves a closed request where it is. *)
Lemma exec_keeps_closed (st : Store) (c : Api.Call) (o : LogisticRequest.t) :
  well_keyed st ->
  In o (requests st) ->
  LogisticRequest.Status o <> StatusDraft ->
  LogisticRequest.Status o <> StatusFormed ->
  In o (requests (Api.exec st c)).
Proof.
  intros Hwk Hin Hdraft Hformed.
  assert (Hunique : forall r, In r (requests st) ->
                              LogisticRequest.ID o = LogisticRequest.ID r ->
                              o = r).
  { intros r Hr. apply (sorted_keys_unique LogisticRequest.ID (requests st));
      [apply Hwk | exact Hin | exact Hr]. }
  destruct c; cbn [Api.exec].
  - (* CreateCargoLogisticRequest *)
    destruct items as [|first rest]; [exact Hin|].
    unfold after. rewrite CreateCargo_run.
    set (order := LogisticRequest.with_ID _ _). set (st1 := mkStore _ _ _ _ _).
    assert (Hwk1 : well_keyed st1)
      by apply (well_keyed_new_request (Repository.cargo_order first creatorID)
                  st Hwk).
    destruct (add_items_well_keyed (request_seq st) (first :: rest)
                Repository.no_aggregates st1 Hwk1) as (_ & Hr & _ & _).
    unfold after in Hr.
    destruct (Repository.add_items _ _ _ st1) as [[acc|e] st2]; cbn [snd] in *;
      [|exact Hin].
    apply save_request_keeps.
    + rewrite Hr. cbn. apply in_or_app. now left.
    + cbn. destruct Hwk as [[Hfresh _] _].
      unfold request_keys_fresh in Hfresh. rewrite Forall_forall in Hfresh.
      specialize (Hfresh o Hin). lia.
  - (* GetCartIcon *)
    unfold after.
    destruct (find (Repository.is_draft_of creatorID) (requests st))
      as [order|] eqn:Hfind.
    + now rewrite (GetCartIcon_found _ _ _ Hfind).
    + rewrite (GetCartIcon_created _ _ Hfind). cbn. apply in_or_app. now left.
  - (* FormLogisticRequest *)
    destruct (after_FormLogisticRequest orderID fromCity toCity weight length
                width height now st) as [-> | (order & Hor & Hst & ->)];
      [exact Hin|].
    apply save_request_keeps; [exact Hin|]. cbn. intros Hkey.
    rewrite (Hunique order Hor Hkey) in Hdraft. contradiction.
  - (* CompleteLogisticRequest *)
    destruct (after_CompleteLogisticRequest orderID status moderatorID now st)
      as [-> | (order & order' & Hor & Hst & Hid & ->)]; [exact Hin|].
    apply save_request_keeps; [exact Hin|]. rewrite Hid. intros Hkey.
    rewrite (Hunique order Hor Hkey) in Hformed. contradiction.
  - now rewrite AddService_keeps_requests.
  - now rewrite RemoveService_keeps_requests.
  - now rewrite UpdateService_keeps_requests.
  - (* AddTransportServiceToGuestDraftLogisticRequest *)
    unfold after, Repository.AddTransportServiceToGuestDraftLogisticRequest.
    unfold bind at 1, attempt at 1, Repository.GetTransportService.
    unfold bind at 1, attempt at 1, Gorm.first_service.
    destruct (find _ (services st)); [|exact Hin].
    unfold ret at 1, bind.
    pose proof (ensureGuestDraft_keeps "guest" st o Hin) as Hin1.
    unfold after in Hin1.
    destruct (Repository.ensureGuestDraftLogisticRequest "guest" st)
      as [[gid|e] st1]; [|exact Hin1].
    cbn [snd] in Hin1. unfold Sql.insert_on_conflict_increment.
    now destruct (existsb _ (lines st1)).
  - (* RemoveTransportServiceFromGuestDraftLogisticRequest *)
    unfold after, Repository.RemoveTransportServiceFromGuestDraftLogisticRequest.
    unfold bind at 1.
    pose proof (ensureGuestDraft_keeps "guest" st o Hin) as Hin1.
    unfold after in Hin1.
    destruct (Repository.ensureGuestDraftLogisticRequest "guest" st)
      as [[gid|e] st1]; [|exact Hin1].
    cbn [snd] in Hin1. unfold bind, get_store, fail.
    destruct (Sql.select_quantity gid serviceID st1) as [qty|]; [|exact Hin1].
    now destruct (qty >? 1).
Qed.

(** X8: a request that is neither a draft nor formed (completed, rejected)
    is final for the repository's calls: whatever calls of
    [CreateCargoLogisticRequest], [GetCartIcon], [FormLogisticRequest],
    [CompleteLogisticRequest] and of the line-item and guest-draft methods
    follow, its row stays as it is, field for field. *)
Theorem closed_requests_are_final (st : Store) (calls : list Api.Call)
  (o : LogisticRequest.t) :
  well_keyed st ->
  In o (requests st) ->
  LogisticRequest.Status o <> StatusDraft ->
  LogisticRequest.Status o <> StatusFormed ->
  In o (requests (fold_left Api.exec calls st)).
Proof.
  intros Hwk Hin Hdraft Hformed. revert st Hwk Hin.
  induction calls as [|c calls IH]; intros st Hwk Hin; cbn; [exact Hin|].
  apply IH; [now apply exec_keeps_well_keyed | now apply exec_keeps_closed].
Qed.

End LifecycleFacts.

(** ** The status set through the cursor *)

Lemma valid_status_is_outside_the_lifecycle (status : string) :
  In status HandlerOps.validStatuses ->
  (status =? StatusDraft)%string = false
  /\ (status =? StatusFormed)%string = false.
Proof.
  cbn. intros [<- | [<- | [<- | [<- | [<- | []]]]]]; split; reflexivity.
Qed.

Section StatusFacts.

Context {calc : DeliveryCalculator} {sys : SystemCreator}.

(** X9: the status handler refuses a status outside its five with 400, and
    reports a request that does not exist as 500, not as 404; in both cases
    the database stays as it is. *)
Theorem UpdateLogisticRequestStatus_refusals (orderID : Z) (status : string)
  (st : Store) :
  (~ In status HandlerOps.validStatuses ->
   HandlerOps.UpdateLogisticRequestStatus orderID status st
   = (Ok (HandlerOps.Fail 400
            "invalid status. allowed: pending, processing, shipped, delivered, cancelled"),
      st))
  /\ (In status HandlerOps.validStatuses ->
      find (fun o => LogisticRequest.ID o =? orderID) (requests st) = None ->
      HandlerOps.UpdateLogisticRequestStatus orderID status st
      = (Ok (HandlerOps.Fail 500 "failed to update logistic request status"),
         st)
      /\ RepositoryOps.UpdateLogisticRequestStatusWithCursor orderID status st
         = (Err ("order with id " ++ Go.itoa orderID ++ " not found")%string,
            st)).
Proof.
  unfold HandlerOps.UpdateLogisticRequestStatus. split.
  - intros Hout.
    destruct (existsb (String.eqb status) HandlerOps.validStatuses) eqn:Hin;
      [|reflexivity].
    apply existsb_exists in Hin as (s & Hs & Heq).
    apply String.eqb_eq in Heq as <-. contradiction.
  - intros Hin Hnone.
    assert (Hvalid : existsb (String.eqb status) HandlerOps.validStatuses = true).
    { apply existsb_exists. exists status. split; [exact Hin|].
      apply String.eqb_refl. }
    rewrite Hvalid. cbn [negb].
    assert (Hrun : RepositoryOps.UpdateLogisticRequestStatusWithCursor
                     orderID status st
                   = (Err ("order with id " ++ Go.itoa orderID ++ " not found")%string,
                      st)).
    { unfold RepositoryOps.UpdateLogisticRequestStatusWithCursor.
      assert (Hnot : existsb (fun o => LogisticRequest.ID o =? orderID)
                             (requests st) = false)
        by (rewrite find_existsb, Hnone; reflexivity).
      rewrite Hnot, (map_untouched _ _ _ Hnot), store_eta. reflexivity. }
    split; [|exact Hrun].
    unfold bind, attempt, ret. now rewrite Hrun.
Qed.

(** X10: the status handler sets any of its five statuses on a request that
    exists, whatever the request's status was (a draft, a completed one);
    nothing else of the row and no line item changes. None of the five is
    "draft" or "formed", so from then on [FormLogisticRequest],
    [CompleteLogisticRequest] and [AddServiceToLogisticRequest] all refuse
    the request. *)
Theorem UpdateLogisticRequestStatus_leaves_lifecycle (orderID : Z)
  (status : string) (st : Store) (o : LogisticRequest.t) :
  find (fun r => LogisticRequest.ID r =? orderID) (requests st) = Some o ->
  In status HandlerOps.validStatuses ->
  exists st',
    HandlerOps.UpdateLogisticRequestStatus orderID status st
    = (Ok (HandlerOps.NewStatus 200
             "Статус логистической заявки успешно обновлен" orderID status),
       st')
    /\ find (fun r => LogisticRequest.ID r =? orderID) (requests st')
       = Some (RepositoryOps.with_Status status o)
    /\ lines st' = lines st
    /\ (forall fromCity toCity weight length width height now,
           Repository.FormLogisticRequest orderID fromCity toCity weight
             length width height now st'
           = (Err "можно формировать только черновики", st'))
    /\ (forall newStatus moderatorID now,
           exists e,
             Repository.CompleteLogisticRequest orderID newStatus moderatorID
               now st' = (Err e, st'))
    /\ (forall serviceID,
           Repository.AddServiceToLogisticRequest orderID serviceID st'
           = (Err "заявка не найдена или не является черновиком", st')).
Proof.
  intros Hfind Hin.
  destruct (valid_status_is_outside_the_lifecycle status Hin)
    as [Hdraft Hformed].
  assert (Hvalid : existsb (String.eqb status) HandlerOps.validStatuses = true).
  { apply existsb_exists. exists status. split; [exact Hin|].
    apply String.eqb_refl. }
  set (st' := mkStore (services st)
                (map (fun r => if LogisticRequest.ID r =? orderID
                               then RepositoryOps.with_Status status r else r)
                     (requests st))
                (lines st) (request_seq st) (line_seq st)).
  assert (Hfound : find (fun r => LogisticRequest.ID r =? orderID) (requests st')
                   = Some (RepositoryOps.with_Status status o))
    by (apply find_rewritten; [reflexivity | exact Hfind]).
  exists st'. split; [|split; [exact Hfound|split; [reflexivity|]]].
  - unfold HandlerOps.UpdateLogisticRequestStatus. rewrite Hvalid. cbn [negb].
    unfold bind, attempt, ret,
      RepositoryOps.UpdateLogisticRequestStatusWithCursor.
    now rewrite (existsb_of_find _ _ _ Hfind).
  - split; [|split].
    + intros. unfold Repository.FormLogisticRequest. run_db.
      rewrite Hfound. cbn. now rewrite Hdraft.
    + intros newStatus moderatorID now.
      unfold Repository.CompleteLogisticRequest.
      destruct (negb _ && negb _); [eexists; reflexivity|]. run_db.
      rewrite Hfound. cbn. rewrite Hformed. eexists; reflexivity.
    + intros serviceID. unfold Repository.AddServiceToLogisticRequest. run_db.
      replace (find (Repository.draft_with_key orderID) (requests st'))
        with (@None LogisticRequest.t); [reflexivity|].
      symmetry.
      apply (find_rewritten_none orderID
               (fun r => (LogisticRequest.Status r =? StatusDraft)%string)).
      intros r. exact Hdraft.
Qed.

End StatusFacts.

(** ** The handlers of a request *)

Section HandlerFacts.

Context {calc : DeliveryCalculator} {sys : SystemCreator}.

(** What a call of [FormLogisticRequest] that returned an error did: nothing
    to the database, and the error is one of its four. *)
Lemma FormLogisticRequest_error (orderID : Z) (fromCity toCity : string)
  (weight length width height : float) (now : Z) (st st1 : Store) (e : string) :
  Repository.FormLogisticRequest orderID fromCity toCity weight length width
    height now st = (Err e, st1) ->
  st1 = st
  /\ (e = "заявка не найдена"
      \/ e = "можно формировать только черновики"
      \/ e = "в заявке нет услуг"
      \/ (e = "не заполнены обязательные поля: города и параметры груза"
          /\ ((fromCity =? "")%string || (toCity =? "")%string
              || (weight <=? 0)%float || (length <=? 0)%float
              || (width <=? 0)%float || (height <=? 0)%float) = true)).
Proof.
  unfold Repository.FormLogisticRequest. run_db.
  destruct (find _ (requests st)) as [order|]; cbn.
  2: { intros H. injection H as <- <-. auto. }
  destruct (negb _); cbn.
  1: { intros H. injection H as <- <-. auto. }
  destruct (_ || _) eqn:Hfields.
  1: { intros H. injection H as <- <-. auto 6. }
  destruct (List.length _ =? 0)%nat.
  1: { intros H. injection H as <- <-. auto 6. }
  discriminate.
Qed.

(** X11: the handler [FormLogisticRequest] checks the cities and the four
    numbers itself before it calls the repository, so the repository's own
    message about missing fields never reaches the client: the reply is 200
    when the repository formed the request, and otherwise 400 with one of
    the handler's two messages or one of the repository's other three, the
    database being as it was. *)
Theorem FormLogisticRequest_handler_replies (id : Z)
  (request : HandlerOps.CargoBody) (now : Z) (st : Store) :
  match HandlerOps.FormLogisticRequest id request now st with
  | (Ok (HandlerOps.Message code message), st') =>
      code = 200
      /\ Repository.FormLogisticRequest id
           (HandlerOps.FromCity request) (HandlerOps.ToCity request)
           (HandlerOps.Weight request) (HandlerOps.Length request)
           (HandlerOps.Width request) (HandlerOps.Height request) now st
         = (Ok tt, st')
  | (Ok (HandlerOps.Fail code message), st') =>
      code = 400 /\ st' = st
      /\ In message
           [ "from_city and to_city are required";
             "weight, length, width, height must be greater than 0";
             "заявка не найдена";
             "можно формировать только черновики";
             "в заявке нет услуг" ]
  | _ => False
  end.
Proof.
  unfold HandlerOps.FormLogisticRequest.
  destruct ((HandlerOps.FromCity request =? "")%string
            || (HandlerOps.ToCity request =? "")%string) eqn:Hcities;
    [cbn; auto 7|].
  destruct ((HandlerOps.Weight request <=? 0)%float
            || (HandlerOps.Length request <=? 0)%float
            || (HandlerOps.Width request <=? 0)%float
            || (HandlerOps.Height request <=? 0)%float) eqn:Hcargo;
    [cbn; auto 7|].
  unfold bind, attempt, ret.
  destruct (Repository.FormLogisticRequest id _ _ _ _ _ _ now st)
    as [[[]|e] st1] eqn:Hrun.
  - split; reflexivity.
  - destruct (FormLogisticRequest_error _ _ _ _ _ _ _ _ _ _ _ Hrun)
      as (-> & [-> | [-> | [-> | [_ Hfields]]]]).
    1-3: cbn; auto 9.
    exfalso. revert Hfields.
    apply orb_false_elim in Hcities as [-> ->].
    apply orb_false_elim in Hcargo as [Hcargo ->].
    apply orb_false_elim in Hcargo as [Hcargo ->].
    apply orb_false_elim in Hcargo as [-> ->]. discriminate.
Qed.

(** X12: the handler [UpdateLogisticRequest] changes a request only while it
    is a draft and not deleted: it answers 404 when no such row is live and
    400 when the row is not a draft, the database staying as it is; for a
    draft it saves the row with the fields of the body that are non-empty or
    positive put in, answers 200 with that row, and the row is then the one
    stored under the key, no line item being touched. *)
Theorem UpdateLogisticRequest_handler_outcome (id : Z)
  (req : HandlerOps.CargoBody) (st : Store) :
  match find (RepositoryOps.live_with_key id) (requests st) with
  | None =>
      HandlerOps.UpdateLogisticRequest id req st
      = (Ok (HandlerOps.Fail 404 "logistic request not found"), st)
  | Some o =>
      if (LogisticRequest.Status o =? StatusDraft)%string
      then exists st',
             HandlerOps.UpdateLogisticRequest id req st
             = (Ok (HandlerOps.Request 200 (HandlerOps.apply_body req o)), st')
             /\ find (fun r => LogisticRequest.ID r =? id) (requests st')
                = Some (HandlerOps.apply_body req o)
             /\ lines st' = lines st
      else HandlerOps.UpdateLogisticRequest id req st
           = (Ok (HandlerOps.Fail 400 "can only update draft logistic requests"),
              st)
  end.
Proof.
  unfold HandlerOps.UpdateLogisticRequest, RepositoryOps.GetLogisticRequest.
  run_db.
  destruct (find (RepositoryOps.live_with_key id) (requests st)) as [o|]
    eqn:Hfind; cbn; [|reflexivity].
  destruct (LogisticRequest.Status o =? StatusDraft)%string; cbn;
    [|reflexivity].
  apply find_some in Hfind as [Hin Hlive].
  unfold RepositoryOps.live_with_key in Hlive.
  apply andb_prop in Hlive as [Hid _]. apply Z.eqb_eq in Hid.
  assert (Hex : existsb (fun r => LogisticRequest.ID r =? id) (requests st)
                = true).
  { apply existsb_exists. exists o. split; [exact Hin|]. now apply Z.eqb_eq. }
  unfold RepositoryOps.UpdateLogisticRequest. run_db. cbn. rewrite Hid, Hex.
  eexists. split; [reflexivity|]. split; [|reflexivity]. cbn.
  apply find_replace_request; [exact Hid | exact Hex].
Qed.

End HandlerFacts.

(** ** Line items *)

Section LineItemFacts.

Context {calc : DeliveryCalculator} {sys : SystemCreator}.

(** X13: [RemoveServiceFromLogisticRequest] and [UpdateLogisticRequestService]
    read and write the line-item table only: what they return and the line
    items they leave are the same in two databases with the same line items,
    whatever requests there are and whatever their status, so they go
    through on a request that is formed, completed or not there at all. *)
Theorem line_item_calls_ignore_requests (orderID serviceID : Z)
  (quantity orderNum : Z) (comment : string) (st1 st2 : Store) :
  lines st1 = lines st2 ->
  fst (Repository.RemoveServiceFromLogisticRequest orderID serviceID st1)
  = fst (Repository.RemoveServiceFromLogisticRequest orderID serviceID st2)
  /\ lines (after (Repository.RemoveServiceFromLogisticRequest orderID
                     serviceID) st1)
     = lines (after (Repository.RemoveServiceFromLogisticRequest orderID
                       serviceID) st2)
  /\ fst (Repository.UpdateLogisticRequestService orderID serviceID quantity
            orderNum comment st1)
     = fst (Repository.UpdateLogisticRequestService orderID serviceID quantity
              orderNum comment st2)
  /\ lines (after (Repository.UpdateLogisticRequestService orderID serviceID
                     quantity orderNum comment) st1)
     = lines (after (Repository.UpdateLogisticRequestService orderID serviceID
                       quantity orderNum comment) st2).
Proof.
  intros Hlines.
  unfold after, Repository.RemoveServiceFromLogisticRequest,
    Repository.UpdateLogisticRequestService.
  run_db. rewrite Hlines.
  destruct (find _ (lines st2)); cbn; rewrite ?Hlines; auto.
Qed.

(** X14: [UpdateLogisticRequestService] stores what it is given: when the
    request has a line item for the service, the call returns nil and that
    line item then holds the quantity, the sort order and the comment of the
    call, for any quantity (zero and negative ones too), with its key and
    the number of line items as before; when it has none, the call returns
    its error and the database stays as it is. *)
Theorem UpdateLogisticRequestService_stores (orderID serviceID : Z)
  (quantity orderNum : Z) (comment : string) (st : Store) :
  match find (LogisticRequestService.has_key orderID serviceID) (lines st) with
  | Some l =>
      exists st',
        Repository.UpdateLogisticRequestService orderID serviceID quantity
          orderNum comment st = (Ok tt, st')
        /\ find (LogisticRequestService.has_key orderID serviceID) (lines st')
           = Some (LogisticRequestService.mk (LogisticRequestService.ID l)
                     orderID serviceID quantity orderNum comment)
        /\ List.length (lines st') = List.length (lines st)
        /\ requests st' = requests st
  | None =>
      Repository.UpdateLogisticRequestService orderID serviceID quantity
        orderNum comment st = (Err "услуга не найдена в заявке", st)
  end.
Proof.
  destruct (find _ (lines st)) as [l|] eqn:Hfind.
  - unfold Repository.UpdateLogisticRequestService. run_db. rewrite Hfind.
    cbn. rewrite (find_existsb_same _ _ _ Hfind).
    eexists. split; [reflexivity|]. cbn.
    pose proof Hfind as Hkey. apply find_some in Hkey as [_ Hkey].
    unfold LogisticRequestService.has_key in Hkey.
    apply andb_prop in Hkey as [Hr Hs].
    apply Z.eqb_eq in Hr. apply Z.eqb_eq in Hs. rewrite Hr, Hs.
    split; [|split; [apply length_map | reflexivity]].
    apply (find_replace_by_key _ _ l
             (LogisticRequestService.mk (LogisticRequestService.ID l) orderID
                serviceID quantity orderNum comment) Hfind).
    + unfold LogisticRequestService.has_key. cbn. now rewrite !Z.eqb_refl.
    + reflexivity.
  - unfold Repository.UpdateLogisticRequestService. run_db. now rewrite Hfind.
Qed.

(** The totals of a completion read each loaded line item's service only. *)
Lemma recompute_totals_services (order : LogisticRequest.t)
  (Services Services' : list (LogisticRequestService.t * TransportService.t)) :
  map snd Services = map snd Services' ->
  Repository.recompute_totals order Services
  = Repository.recompute_totals order Services'.
Proof.
  unfold Repository.recompute_totals. generalize (0%float, 0).
  revert Services'.
  induction Services as [|a rest IH]; intros [|b rest'] acc Heq;
    try discriminate; cbn; [reflexivity|].
  cbn in Heq. injection Heq as Hab Hrest.
  rewrite (IH rest' _ Hrest). f_equal.
  unfold Repository.recompute_step. now rewrite Hab.
Qed.

(** X15: the totals [CompleteLogisticRequest] computes for a request are
    settled by the services table and by which (request, service) pairs the
    line items hold, in their order: the quantity, the sort order and the
    comment of a line item play no part, so a service added three times
    costs what it costs added once. *)
Theorem completion_totals_ignore_quantity (st1 st2 : Store)
  (order : LogisticRequest.t) :
  services st1 = services st2 ->
  map RepositoryOps.line_key (lines st1) = map RepositoryOps.line_key (lines st2) ->
  Repository.recompute_totals order (Repository.loaded_services st1 order)
  = Repository.recompute_totals order (Repository.loaded_services st2 order).
Proof.
  intros Hsvc Hkeys. apply recompute_totals_services.
  unfold Repository.loaded_services, Gorm.preload_services.
  rewrite !map_map. cbn [snd].
  revert Hkeys. generalize (lines st1) (lines st2).
  induction l as [|a rows IH]; intros [|b rows']; try discriminate;
    [reflexivity|].
  cbn [map]. unfold RepositoryOps.line_key at 1 3. intros Heq.
  injection Heq as Hr Hs Hrest.
  cbn [filter]. rewrite Hr.
  destruct (LogisticRequestService.LogisticRequestID b
            =? LogisticRequest.ID order); cbn [map].
  - f_equal; [|now apply IH].
    unfold Gorm.preload_transport_service. now rewrite Hsvc, Hs.
  - now apply IH.
Qed.

End LineItemFacts.

(** ** The counters of the two carts *)






Lemma filter_filtered_out {A : Type} (p : A -> bool) (rows : list A) :
  filter p (filter (fun r => negb (p r)) rows) = [].
Proof.
  induction rows as [|a rows IH]; cbn; [reflexivity|].
  destruct (p a) eqn:Ha; cbn; [exact IH|]. now rewrite Ha.
Qed.

Lemma filter_other_key (k k' : Z) (rows : list LogisticRequestService.t) :
  k' <> k ->
  filter (fun l => LogisticRequestService.LogisticRequestID l =? k')
         (filter (fun l => negb (LogisticRequestService.LogisticRequestID l
                                 =? k)) rows)
  = filter (fun l => LogisticRequestService.LogisticRequestID l =? k') rows.
Proof.
  intros Hne. induction rows as [|a rows IH]; cbn; [reflexivity|].
  destruct (Z.eqb_spec (LogisticRequestService.LogisticRequestID a) k) as [Ha|Ha];
    cbn.
  - destruct (Z.eqb_spec (LogisticRequestService.LogisticRequestID a) k');
      [congruence | exact IH].
  - now rewrite IH.
Qed.

Section CounterFacts.

Context {calc : DeliveryCalculator} {sys : SystemCreator}.

(** After [GetCartIcon] the user has a draft, the one whose key was returned;
    the line items and the services are as before. *)
Lemma GetCartIcon_draft (creatorID : Z) (st : Store) :
  exists order n st1,
    Repository.GetCartIcon creatorID st = (Ok (LogisticRequest.ID order, n), st1)
    /\ find (Repository.is_draft_of creatorID) (requests st1) = Some order
    /\ lines st1 = lines st /\ services st1 = services st
    /\ line_seq st1 = line_seq st.
Proof.
  destruct (find (Repository.is_draft_of creatorID) (requests st))
    as [order|] eqn:Hfind.
  - exists order, (Z.of_nat (List.length
                      (Gorm.preload_services (LogisticRequest.ID order) st))), st.
    rewrite (GetCartIcon_found _ _ _ Hfind). auto.
  - rewrite (GetCartIcon_created _ _ Hfind).
    eexists (LogisticRequest.with_ID (request_seq st)
               (Repository.new_draft creatorID)), 0, _.
    split; [reflexivity|]. cbn. repeat split.
    apply find_app_none; [exact Hfind | apply is_draft_of_new_draft].
Qed.

(** The same for the draft of a session. *)
Lemma ensureGuestDraft_draft (sessionID : string) (st : Store) :
  exists order st1,
    Repository.ensureGuestDraftLogisticRequest sessionID st
    = (Ok (LogisticRequest.ID order), st1)
    /\ find (Repository.is_guest_draft_of sessionID) (requests st1) = Some order
    /\ lines st1 = lines st /\ services st1 = services st
    /\ line_seq st1 = line_seq st.
Proof.
  destruct (find (Repository.is_guest_draft_of sessionID) (requests st))
    as [order|] eqn:Hfind.
  - exists order, st. rewrite (ensureGuestDraft_found _ _ _ Hfind). auto.
  - rewrite (ensureGuestDraft_created _ _ Hfind).
    eexists (LogisticRequest.with_ID (request_seq st)
               (Repository.new_guest_draft sessionID)), _.
    split; [reflexivity|]. cbn. repeat split.
    apply find_app_none; [exact Hfind | apply is_guest_draft_of_new_guest_draft].
Qed.

(** The count of the guest draft in a database where the draft is [order]. *)
Lemma guest_count_found (st : Store) (order : LogisticRequest.t) :
  find (Repository.is_guest_draft_of "guest") (requests st) = Some order ->
  RepositoryOps.GetGuestDraftLogisticRequestServiceCount st
  = (RepositoryOps.sum_quantity (LogisticRequest.ID order) st, st).
Proof.
  intros Hfind. unfold RepositoryOps.GetGuestDraftLogisticRequestServiceCount.
  now rewrite (ensureGuestDraft_found _ _ _ Hfind).
Qed.


(** X17: the 0 that the guest handler [ClearDraftLogisticRequest] answers is
    the count of the draft it leaves: [GetGuestDraftLogisticRequestServiceCount]
    gives 0 right after it, without changing the database again. *)
Theorem ClearDraftLogisticRequest_empties (st : Store) :
  exists st',
    HandlerOps.ClearDraftLogisticRequest st
    = (Ok (HandlerOps.Count 200 0 "Черновик логистической заявки очищен"), st')
    /\ RepositoryOps.GetGuestDraftLogisticRequestServiceCount st' = (0, st').
Proof.
  destruct (ensureGuestDraft_draft "guest" st)
    as (order & st1 & Hensure & Hdraft & _).
  unfold HandlerOps.ClearDraftLogisticRequest,
    RepositoryOps.ClearGuestDraftLogisticRequest.
  rewrite Hensure. eexists. split; [reflexivity|].
  unfold after, RepositoryOps.delete_lines_of. cbn [snd].
  rewrite (guest_count_found _ order); [|exact Hdraft]. f_equal.
  unfold RepositoryOps.sum_quantity, Gorm.preload_services. cbn [lines].
  now rewrite filter_filtered_out.
Qed.

(** X18: the handler [ClearUserDraftLogisticRequest] answers with the key of
    the user's draft (created when there was none) and the count 0, and the
    0 is true: [GetUserDraftIcon] then answers the same key and 0, and the
    line items of every other request are as before. *)
Theorem ClearUserDraftLogisticRequest_empties (userID : Z) (st : Store) :
  exists id st',
    HandlerOps.ClearUserDraftLogisticRequest userID st
    = (Ok (HandlerOps.Icon 200 id 0), st')
    /\ HandlerOps.GetUserDraftIcon userID st'
       = (Ok (HandlerOps.Icon 200 id 0), st')
    /\ (forall other, other <> id ->
          Gorm.preload_services other st' = Gorm.preload_services other st).
Proof.
  destruct (GetCartIcon_draft userID st)
    as (order & n & st1 & Hicon & Hdraft & Hlines & _).
  unfold HandlerOps.ClearUserDraftLogisticRequest.
  unfold bind, attempt at 1. unfold attempt at 1. rewrite Hicon.
  unfold RepositoryOps.ClearUserDraftLogisticRequest,
    RepositoryOps.GetDraftLogisticRequest.
  run_db. rewrite Hdraft. cbn.
  eexists _, _. split; [reflexivity|]. split.
  - unfold HandlerOps.GetUserDraftIcon. unfold bind, attempt.
    rewrite (GetCartIcon_found userID _ order); [|exact Hdraft]. cbn.
    do 3 f_equal.
    unfold RepositoryOps.sum_quantity, Gorm.preload_services. cbn [lines].
    now rewrite filter_filtered_out.
  - intros other Hother. unfold Gorm.preload_services. cbn. rewrite Hlines.
    now apply filter_other_key.
Qed.

End CounterFacts.

(** ** The user's cart *)


Section CartFacts.

Context {calc : DeliveryCalculator} {sys : SystemCreator}.




End CartFacts.

(** ** The guest draft *)






Section GuestFacts.

Context {calc : DeliveryCalculator} {sys : SystemCreator}.


(** What a call of [CreateCargoLogisticRequest] that returned a key left: the
    row with that key is the last one and is the draft row of the
    transaction. *)
Lemma CreateCargo_row (items : list CargoLogisticRequestItem.t)
  (creatorID : Z) (st st' : Store) (id : Z) :
  Repository.CreateCargoLogisticRequest items creatorID st = (Ok id, st') ->
  request_keys_fresh st ->
  exists order,
    requests st' = requests st ++ [order]
    /\ LogisticRequest.ID order = id
    /\ LogisticRequest.SessionID order = "guest"
    /\ LogisticRequest.IsDraft order = true
    /\ LogisticRequest.Status order = StatusDraft
    /\ LogisticRequest.CreatorID order = creatorID
    /\ LogisticRequest.DeletedAt order = None
    /\ lines st' = lines st ++ Spec.item_rows id (line_seq st) items.
Proof.
  intros Hrun Hfresh. destruct items as [|first rest]; [discriminate|].
  rewrite CreateCargo_run in Hrun.
  set (order := LogisticRequest.with_ID (request_seq st)
                  (Repository.cargo_order first creatorID)) in *.
  set (st1 := mkStore _ _ _ _ _) in *.
  destruct (Repository.add_items (request_seq st) (first :: rest)
              Repository.no_aggregates st1) as [[acc|e] st2] eqn:Hloop;
    [|discriminate].
  apply add_items_ok in Hloop as (_ & _ & _ & _ & _ & _ & _ & _ & ->).
  injection Hrun as <- <-.
  unfold after, Gorm.save_request.
  cbn [snd services requests lines request_seq line_seq st1].
  cbn [LogisticRequest.ID LogisticRequest.with_aggregates LogisticRequest.with_ID
       order].
  rewrite existsb_last_request by reflexivity.
  rewrite replace_fresh_request by (try reflexivity; exact Hfresh).
  eexists. split; [reflexivity|]. repeat split; reflexivity.
Qed.

(** X21: the request [CreateCargoLogisticRequest] creates is written with the
    session "guest" and as a draft, so it is picked up as a cart: when no
    guest draft was there before, [ensureGuestDraftLogisticRequest("guest")]
    then returns its key without creating anything, and the guest handlers
    work on the user's request; when its creator had no draft before,
    [GetCartIcon] of the creator returns it too, counting at least its
    items. *)
Theorem created_request_is_a_cart (items : list CargoLogisticRequestItem.t)
  (creatorID : Z) (st st' : Store) (id : Z) :
  Repository.CreateCargoLogisticRequest items creatorID st = (Ok id, st') ->
  request_keys_fresh st ->
  (find (Repository.is_guest_draft_of "guest") (requests st) = None ->
   Repository.ensureGuestDraftLogisticRequest "guest" st' = (Ok id, st'))
  /\ (find (Repository.is_draft_of creatorID) (requests st) = None ->
      exists n,
        Repository.GetCartIcon creatorID st' = (Ok (id, n), st')
        /\ Z.of_nat (List.length items) <= n).
Proof.
  intros Hrun Hfresh.
  destruct (CreateCargo_row _ _ _ _ _ Hrun Hfresh)
    as (order & Hrows & Hid & Hsession & Hisdraft & Hstatus & Hcreator
        & Hdeleted & Hlines).
  split; intros Hnone.
  - rewrite (ensureGuestDraft_found "guest" st' order); [now rewrite Hid|].
    rewrite Hrows. apply find_app_none; [exact Hnone|].
    unfold Repository.is_guest_draft_of, Repository.deleted_at_is_null.
    now rewrite Hsession, Hisdraft, Hdeleted.
  - rewrite (GetCartIcon_found creatorID st' order).
    + rewrite Hid. eexists. split; [reflexivity|].
      unfold Gorm.preload_services. rewrite Hlines, filter_app, length_app.
      assert (Hall : forall k rows,
                 filter (fun l => LogisticRequestService.LogisticRequestID l
                                  =? id) (Spec.item_rows id k rows)
                 = Spec.item_rows id k rows).
      { intros k rows. revert k.
        induction rows as [|it rows IH]; intros k; cbn; [reflexivity|].
        now rewrite Z.eqb_refl, IH. }
      assert (Hlen : forall k rows,
                 List.length (Spec.item_rows id k rows) = List.length rows).
      { intros k rows. revert k.
        induction rows as [|it rows IH]; intros k; cbn; [reflexivity|].
        now rewrite IH. }
      rewrite Hall, Hlen. lia.
    + rewrite Hrows. apply find_app_none; [exact Hnone|].
      unfold Repository.is_draft_of, Repository.deleted_at_is_null.
      now rewrite Hcreator, Hstatus, Hdeleted, Z.eqb_refl.
Qed.

(** The loop of [GetGuestDraftLogisticRequestServices] keeps what it found
    and adds the service of each item that has one. *)
Lemma collect_services_run (items : list DraftLogisticRequestService.t) :
  forall (found : list TransportService.t) (st : Store),
    RepositoryOps.collect_services items found st
    = (Ok (found
           ++ flat_map
                (fun it =>
                   match find (fun s => TransportService.ID s
                                        =? DraftLogisticRequestService.TransportServiceID it)
                              (services st) with
                   | Some s => [s]
                   | None => []
                   end) items), st).
Proof.
  induction items as [|it rest IH]; intros found st; cbn.
  - now rewrite app_nil_r.
  - unfold bind, attempt.
    destruct (find (fun s => TransportService.ID s
                             =? DraftLogisticRequestService.TransportServiceID it)
                   (services st)) as [s|] eqn:Hfind.
    + rewrite (GetTransportService_found _ _ _ Hfind), IH.
      now rewrite <- app_assoc.
    + now rewrite (GetTransportService_missing _ _ Hfind), IH.
Qed.

(** X22: [GetGuestDraftLogisticRequestServices] never fails on a line item
    whose service is gone: it returns, in the order of the line items that
    [GetGuestDraftLogisticRequestView] lists, the service of each line item
    that still has one and passes over the others, so its list can be
    shorter than the view's; both calls leave the same database. *)
Theorem GetGuestDraftLogisticRequestServices_found (st : Store) :
  exists view svcs st',
    RepositoryOps.GetGuestDraftLogisticRequestView st = (Ok view, st')
    /\ RepositoryOps.GetGuestDraftLogisticRequestServices st = (Ok svcs, st')
    /\ svcs
       = flat_map
           (fun it =>
              match find (fun s => TransportService.ID s
                                   =? DraftLogisticRequestService.TransportServiceID it)
                         (services st) with
              | Some s => [s]
              | None => []
              end) (DraftLogisticRequest.Services view)
    /\ (List.length svcs
        <= List.length (DraftLogisticRequest.Services view))%nat.
Proof.
  destruct (ensureGuestDraft_draft "guest" st)
    as (order & st0 & Hensure & _ & _ & Hsvcs & _).
  unfold RepositoryOps.GetGuestDraftLogisticRequestView,
    RepositoryOps.GetGuestDraftLogisticRequestServices.
  unfold bind, get_store, ret. rewrite Hensure, collect_services_run.
  eexists _, _, _. split; [reflexivity|]. split; [reflexivity|].
  cbn [DraftLogisticRequest.Services app]. rewrite Hsvcs.
  split; [reflexivity|].
  induction (RepositoryOps.find_draft_items (LogisticRequest.ID order) st0)
    as [|it rest IH]; cbn; [lia|].
  rewrite length_app.
  destruct (find _ (services st)); cbn; lia.
Qed.

End GuestFacts.

(** X23: [GetTransportServiceByDeliveryType] looks up one of the keys 1 to 6:
    a service it returns is a row of the table with such a key, a name that
    is not one of its six (another case, a blank) gives "тип доставки не
    найден", and a name of the six whose row is missing gives the error of
    [GetTransportService]; the database is left as it is. *)
Theorem GetTransportServiceByDeliveryType_keys (deliveryType : string)
  (st : Store) :
  match RepositoryOps.GetTransportServiceByDeliveryType deliveryType st with
  | (Ok service, st') =>
      st' = st /\ In service (services st)
      /\ 1 <= TransportService.ID service <= 6
      /\ In (deliveryType, TransportService.ID service) RepositoryOps.typeMap
  | (Err e, st') =>
      st' = st
      /\ ((e = "тип доставки не найден"
           /\ ~ In deliveryType (map fst RepositoryOps.typeMap))
          \/ (e = "услуга не найдена"
              /\ In deliveryType (map fst RepositoryOps.typeMap)))
  end.
Proof.
  unfold RepositoryOps.GetTransportServiceByDeliveryType, RepositoryOps.typeMap.
  cbn [Go.map_get].
  repeat match goal with
         | |- context [String.eqb ?k deliveryType] =>
             destruct (String.eqb_spec k deliveryType); [subst|]
         end.
  1-6: match goal with
       | |- context [Repository.GetTransportService ?id ?db] =>
           destruct (find (fun s => TransportService.ID s =? id) (services db))
             as [svc|] eqn:Hfind;
           [ rewrite (GetTransportService_found _ _ _ Hfind);
             apply find_some in Hfind as [Hin Hid]; apply Z.eqb_eq in Hid;
             rewrite Hid; cbn; intuition lia
           | rewrite (GetTransportService_missing _ _ Hfind); cbn; intuition ]
       end.
  cbn. split; [reflexivity|]. left. split; [reflexivity|]. intuition.
Qed.

(** ** The handler that creates a request *)

Lemma items_copied (Services : list CargoLogisticRequestItem.t) :
  map (fun s =>
         CargoLogisticRequestItem.mk
           (CargoLogisticRequestItem.TransportServiceID s)
           (CargoLogisticRequestItem.FromCity s)
           (CargoLogisticRequestItem.ToCity s)
           (CargoLogisticRequestItem.Length s)
           (CargoLogisticRequestItem.Width s)
           (CargoLogisticRequestItem.Height s)
           (CargoLogisticRequestItem.Weight s)) Services = Services.
Proof.
  induction Services as [|s rest IH]; cbn; [reflexivity|].
  rewrite IH. now destruct s.
Qed.

Section CreateHandlerFacts.

Context {calc : DeliveryCalculator} {sys : SystemCreator}.

(** X24: the handler [CreateCargoLogisticRequest] refuses an empty list itself,
    with 400 and a message of its own, so the repository is only called with
    items and its "no items provided" is never what the client reads for an
    empty list; with items it answers 201 with the key and the creator when
    the repository returned the key, and 400 with the repository's error
    otherwise, the rows of requests and line items being then as before. *)
Theorem CreateCargoLogisticRequest_handler_replies (userID : Z)
  (Services : list CargoLogisticRequestItem.t) (st : Store) :
  match HandlerOps.CreateCargoLogisticRequest userID Services st with
  | (Ok (HandlerOps.Created code _ requestID creatorID), st') =>
      code = 201 /\ creatorID = userID /\ Services <> []
      /\ Repository.createCargoLogisticRequestTx Services userID st
         = (Ok requestID, st')
  | (Ok (HandlerOps.Fail code message), st') =>
      code = 400
      /\ requests st' = requests st /\ lines st' = lines st
      /\ match Services with
         | [] => message = "no transport types provided" /\ st' = st
         | _ :: _ =>
             Repository.createCargoLogisticRequestTx Services userID st
             = (Err message, st')
         end
  | _ => False
  end.
Proof.
  unfold HandlerOps.CreateCargoLogisticRequest. rewrite items_copied.
  destruct Services as [|first rest]; [cbn; auto|].
  cbn [List.length Nat.eqb]. unfold bind, attempt, ret.
  destruct (Repository.CreateCargoLogisticRequest (first :: rest) userID st)
    as [[requestID|e] st'] eqn:Hrun.
  - repeat split; [discriminate | exact Hrun].
  - destruct (CreateCargo_rolls_back _ _ _ _ _ Hrun) as (Hrequests & Hlines & _).
    repeat split; [exact Hrequests | exact Hlines | exact Hrun].
Qed.

End CreateHandlerFacts.

(** ** Sign-up, login and the two kinds of token *)

Lemma GetUserByLogin_last (login : string) (db : Users) (user : User.t) :
  find (fun u => (User.Login u =? login)%string) (user_rows db) = None ->
  User.Login user = login ->
  UserRepository.GetUserByLogin login
    (mkUsers (user_rows db ++ [user]) (user_seq db + 1)) = Ok user.
Proof.
  intros Hnone Hlogin. unfold UserRepository.GetUserByLogin. cbn.
  rewrite (find_app_none _ _ user Hnone); [reflexivity|].
  rewrite Hlogin. apply String.eqb_refl.
Qed.

Section AuthFacts.

Context {jwt : Middleware.JWTService} {issuer : AuthService.TokenIssuer}
        {roles : AuthService.DefaultRole} {bcrypt : AuthHandlers.Bcrypt}.

(** [Register] on a login that is taken, and on one that is free. *)
Lemma Register_taken (req : RegisterRequest.t) (uuid_New : string) (now : Z)
  (db : Users) (user : User.t) :
  find (fun u => (User.Login u =? RegisterRequest.Login req)%string)
       (user_rows db) = Some user ->
  AuthService.Register req uuid_New now db
  = (Err "user with this login already exists", db).
Proof.
  intros Hfind. unfold AuthService.Register, UserRepository.GetUserByLogin.
  now rewrite Hfind.
Qed.

Lemma Register_free (req : RegisterRequest.t) (uuid_New : string) (now : Z)
  (db : Users) :
  find (fun u => (User.Login u =? RegisterRequest.Login req)%string)
       (user_rows db) = None ->
  let user :=
    User.mk (user_seq db) uuid_New (RegisterRequest.Login req)
      (RegisterRequest.Email req) (RegisterRequest.Password req)
      (RegisterRequest.Name req) (RegisterRequest.Phone req)
      (if (RegisterRequest.Role req =? "")%string
       then AuthService.RoleBuyer else RegisterRequest.Role req) in
  AuthService.Register req uuid_New now db
  = (AuthService.respond user now,
     mkUsers (user_rows db ++ [user]) (user_seq db + 1)).
Proof.
  intros Hfind. unfold AuthService.Register, UserRepository.GetUserByLogin.
  now rewrite Hfind.
Qed.

(** X25: [RegisterUser] answers a login that is taken with 409 and writes
    nothing. For a free login it stores one new user with the hash of the
    password, the role the request names (any role; [RoleBuyer] when it
    names none), the next key and the new UUID, and the user is stored even
    when the answer is 500 because a token could not be issued; the 201
    answer carries that user with an empty password. *)
Theorem RegisterUser_outcome (req : RegisterRequest.t) (uuid_New : string)
  (now : Z) (db : Users) :
  match AuthHandlers.GenerateFromPassword (RegisterRequest.Password req) with
  | Err _ =>
      AuthHandlers.RegisterUser req uuid_New now db
      = (AuthHandlers.Fail 500 "failed to hash password", db)
  | Ok hashedPassword =>
      match find (fun u => (User.Login u =? RegisterRequest.Login req)%string)
                 (user_rows db) with
      | Some _ =>
          AuthHandlers.RegisterUser req uuid_New now db
          = (AuthHandlers.Fail 409 "user with this login already exists", db)
      | None =>
          let user :=
            User.mk (user_seq db) uuid_New (RegisterRequest.Login req)
              (RegisterRequest.Email req) hashedPassword
              (RegisterRequest.Name req) (RegisterRequest.Phone req)
              (if (RegisterRequest.Role req =? "")%string
               then AuthService.RoleBuyer else RegisterRequest.Role req) in
          let db' := mkUsers (user_rows db ++ [user]) (user_seq db + 1) in
          UserRepository.GetUserByLogin (RegisterRequest.Login req) db'
          = Ok user
          /\ exists reply,
               AuthHandlers.RegisterUser req uuid_New now db = (reply, db')
               /\ match reply with
                  | AuthHandlers.Registered code response =>
                      code = 201
                      /\ AuthResponse.User response
                         = User.with_Password "" user
                      /\ AuthResponse.ExpiresAt response
                         = now + 15 * AuthService.Minute
                  | AuthHandlers.Fail code _ => code = 500
                  | AuthHandlers.LoggedIn _ _ => False
                  end
      end
  end.
Proof.
  unfold AuthHandlers.RegisterUser.
  destruct (AuthHandlers.GenerateFromPassword (RegisterRequest.Password req))
    as [hashedPassword|e]; [|reflexivity].
  destruct (find _ (user_rows db)) as [taken|] eqn:Hfind.
  - now rewrite (Register_taken
                   (RegisterRequest.with_Password hashedPassword req)
                   uuid_New now db taken Hfind).
  - rewrite (Register_free (RegisterRequest.with_Password hashedPassword req)
               uuid_New now db Hfind).
    cbn [RegisterRequest.Login RegisterRequest.with_Password
         RegisterRequest.Email RegisterRequest.Password RegisterRequest.Name
         RegisterRequest.Phone RegisterRequest.Role].
    cbn zeta. split; [now apply GetUserByLogin_last|].
    unfold AuthService.respond. cbn [User.UUID User.Role].
    destruct (AuthService.GenerateAccessToken _ _) as [accessToken|e1];
      [|eexists; split; reflexivity].
    destruct (AuthService.GenerateRefreshToken _ _) as [refreshToken|e2];
      [|eexists; split; reflexivity].
    eexists. split; [reflexivity|]. repeat split.
Qed.

(** X26: in [LoginUser] the only check of the password is bcrypt's: the
    comparison [Login] makes is of the stored password with itself and never
    fails. An unknown login and a wrong password get the same 401 "invalid
    credentials"; with the right password the answer is 200 with both
    tokens and the user without the password, or 401 with the message of the
    token that could not be issued. *)
Theorem LoginUser_outcome (req : LoginRequest.t) (now : Z) (db : Users) :
  match find (fun u => (User.Login u =? LoginRequest.Login req)%string)
             (user_rows db) with
  | None =>
      AuthHandlers.LoginUser req now db
      = AuthHandlers.Fail 401 "invalid credentials"
  | Some user =>
      if AuthHandlers.CompareHashAndPassword (User.Password user)
                                             (LoginRequest.Password req)
      then AuthHandlers.LoginUser req now db
           = match AuthService.respond user now with
             | Ok response => AuthHandlers.LoggedIn 200 response
             | Err e => AuthHandlers.Fail 401 e
             end
      else AuthHandlers.LoginUser req now db
           = AuthHandlers.Fail 401 "invalid credentials"
  end.
Proof.
  unfold AuthHandlers.LoginUser, AuthService.Login,
    UserRepository.GetUserByLogin.
  destruct (find _ (user_rows db)) as [user|]; [|reflexivity].
  destruct (AuthHandlers.CompareHashAndPassword _ _); cbn; [|reflexivity].
  now rewrite String.eqb_refl.
Qed.

(** X27: no answer of the service carries a password: the user in a response
    of [Register], of [Login] and of [RefreshTokens] has the empty
    password, whatever the table holds. *)
Theorem responses_carry_no_password :
  (forall req uuid_New now db response db',
      AuthService.Register req uuid_New now db = (Ok response, db') ->
      User.Password (AuthResponse.User response) = "")
  /\ (forall req hashedPassword now db response,
         AuthService.Login req hashedPassword now db = Ok response ->
         User.Password (AuthResponse.User response) = "")
  /\ (forall refreshToken now db response,
         AuthService.RefreshTokens refreshToken now db = Ok response ->
         User.Password (AuthResponse.User response) = "").
Proof.
  assert (Hrespond : forall user now response,
             AuthService.respond user now = Ok response ->
             User.Password (AuthResponse.User response) = "").
  { intros user now response. unfold AuthService.respond.
    destruct (AuthService.GenerateAccessToken _ _); [|discriminate].
    destruct (AuthService.GenerateRefreshToken _ _); [|discriminate].
    intros H. injection H as <-. reflexivity. }
  split; [|split].
  - intros req uuid_New now db response db'. unfold AuthService.Register.
    destruct (UserRepository.GetUserByLogin _ db); [discriminate|].
    unfold UserRepository.CreateUser. cbn zeta.
    intros H. injection H as H _. exact (Hrespond _ _ _ H).
  - intros req hashedPassword now db response. unfold AuthService.Login.
    destruct (UserRepository.GetUserByLogin _ db); [|discriminate].
    destruct (negb _); [discriminate|]. apply Hrespond.
  - intros refreshToken now db response. unfold AuthService.RefreshTokens.
    destruct (Middleware.ValidateToken refreshToken); [|discriminate].
    destruct (negb _); [discriminate|].
    destruct (UserRepository.GetUserByUUID _ db); [|discriminate].
    destruct (AuthService.RefreshTokenPair refreshToken)
      as [[accessToken newRefreshToken]|]; [|discriminate].
    intros H. injection H as <-. reflexivity.
Qed.

(** X28: a token is good for requests or for refreshing, never for both: the
    token of a request that [RequireAuth] passes on is refused by
    [RefreshTokens] as of the wrong type, and a request that carries a token
    [RefreshTokens] accepts is aborted by [RequireAuth] with 401. *)
Theorem access_and_refresh_tokens_are_disjoint (authHeader : string)
  (c : Middleware.Context) (now : Z) (db : Users) :
  match Middleware.RequireAuth authHeader c with
  | Middleware.Next _ =>
      AuthService.RefreshTokens (Middleware.extractToken authHeader) now db
      = Err "invalid token type"
  | Middleware.Abort _ _ => True
  end
  /\ match AuthService.RefreshTokens (Middleware.extractToken authHeader)
             now db with
     | Ok _ =>
         exists message,
           Middleware.RequireAuth authHeader c = Middleware.Abort 401 message
     | Err _ => True
     end.
Proof.
  unfold Middleware.RequireAuth, AuthService.RefreshTokens.
  destruct (Middleware.ValidateToken (Middleware.extractToken authHeader))
    as [claims|e].
  - destruct (String.eqb_spec (Middleware.Type_ claims) "access") as [Ha|Ha];
      destruct (String.eqb_spec (Middleware.Type_ claims) "refresh") as [Hr|Hr];
      cbn [negb].
    + rewrite Ha in Hr. discriminate.
    + destruct (Middleware.extractToken authHeader =? "")%string; auto.
    + split; [destruct (_ =? "")%string; exact I|].
      destruct (UserRepository.GetUserByUUID _ db); [|exact I].
      destruct (AuthService.RefreshTokenPair _)
        as [[accessToken newRefreshToken]|]; [|exact I].
      destruct (_ =? "")%string; eexists; reflexivity.
    + destruct (Middleware.extractToken authHeader =? "")%string; auto.
  - destruct (Middleware.extractToken authHeader =? "")%string; auto.
Qed.

End AuthFacts.

(** Anna signs up and logs in; a second sign-up with her login is refused,
    and so is a login with another password. *)
Example sign_up_then_login :
  UserRepository.GetUserByLogin "anna" AuthSample.with_anna
  = Ok (User.mk 1 "u-1" "anna" "anna@example.org" "hash of secret1" "Anna" ""
          "buyer")
  /\ AuthHandlers.LoginUser (issuer := AuthSample.issuer)
         (bcrypt := AuthSample.bcrypt) (LoginRequest.mk "anna" "secret1") 5
       AuthSample.with_anna
     = AuthHandlers.LoggedIn 200
         (AuthResponse.mk "access.u-1" "refresh.u-1"
            (User.mk 1 "u-1" "anna" "anna@example.org" "" "Anna" "" "buyer")
            900000000005)
  /\ AuthHandlers.LoginUser (issuer := AuthSample.issuer)
         (bcrypt := AuthSample.bcrypt) (LoginRequest.mk "anna" "secret2") 5
       AuthSample.with_anna
     = AuthHandlers.Fail 401 "invalid credentials"
  /\ AuthHandlers.RegisterUser (issuer := AuthSample.issuer)
         (roles := AuthSample.roles) (bcrypt := AuthSample.bcrypt)
         AuthSample.anna "u-2" 6 AuthSample.with_anna
     = (AuthHandlers.Fail 409 "user with this login already exists",
        AuthSample.with_anna)
  /\ AuthService.RefreshTokens (jwt := AuthSample.jwt)
         (issuer := AuthSample.issuer) "access.u-1" 7 AuthSample.with_anna
     = Err "invalid token type".
Proof. vm_compute. repeat split; reflexivity. Qed.

(** ** The properties on the example data *)

(** X6 on the example data.
    The request of user 7 is formed, then rejected by moderator 2: the row
    is rejected and keeps the time it was formed. *)
Lemma form_then_complete_witness :
  exists st2 order,
    @Repository.CompleteLogisticRequest Sample.calc 1 StatusRejected 2 40
      (after (Repository.FormLogisticRequest 1 "Москва" "Казань" 100 1 1 1 30)
             Sample.created)
    = (Ok tt, st2)
    /\ find (fun o => LogisticRequest.ID o =? 1) (requests st2) = Some order
    /\ LogisticRequest.Status order = StatusRejected
    /\ LogisticRequest.FormedAt order = Some 30.
Proof.
  destruct (@form_then_complete Sample.calc 1 "Москва" "Казань" 100 1 1 1 30
              Sample.created
              (after (Repository.FormLogisticRequest 1 "Москва" "Казань"
                        100 1 1 1 30) Sample.created)
              StatusRejected 2 40)
    as (st2 & order & Hrun & Hfind & Hstatus & _ & Hformed & _).
  - vm_compute. reflexivity.
  - right. reflexivity.
  - exists st2, order. auto.
Defined.

(** X7 on the example data.
    Once formed, the request of user 7 takes neither a second forming nor
    another service. *)
Lemma formed_request_is_no_draft_witness :
  let st1 := after (Repository.FormLogisticRequest 1 "Москва" "Казань"
                      100 1 1 1 30) Sample.created in
  Repository.FormLogisticRequest 1 "Москва" "Сочи" 5 1 1 1 31 st1
  = (Err "можно формировать только черновики", st1)
  /\ Repository.AddServiceToLogisticRequest 1 3 st1
     = (Err "заявка не найдена или не является черновиком", st1).
Proof.
  intros st1.
  destruct (formed_request_is_no_draft 1 "Москва" "Казань" 100 1 1 1 30
              Sample.created st1) as [Hform Hadd].
  - vm_compute. reflexivity.
  - split; [apply Hform | apply Hadd].
Defined.

(** X8 on the example data.
    The completed request of the example stays through a forming, a
    completion, a change of its line item and a guest's additions. *)
Lemma closed_requests_are_final_witness :
  In Sample.completed_request
     (requests
        (fold_left (@Api.exec Sample.calc Sample.sys)
           [ Api.FormLogisticRequest 1 "Москва" "Сочи" 5 1 1 1 31;
             Api.CompleteLogisticRequest 1 StatusRejected 3 32;
             Api.UpdateLogisticRequestService 1 1 4 0 "";
             Api.AddTransportServiceToGuestDraftLogisticRequest 3;
             Api.GetCartIcon 7 ]
           Sample.with_completed)).
Proof.
  apply (@closed_requests_are_final Sample.calc Sample.sys).
  - unfold well_keyed, keys_fresh, keys_ordered, request_keys_fresh,
      line_keys_fresh. cbn. repeat split; repeat constructor.
  - left. reflexivity.
  - discriminate.
  - discriminate.
Defined.

(** X10 on the example data.
    The completed request of the example is set to "shipped" by the status
    handler. *)
Lemma UpdateLogisticRequestStatus_leaves_lifecycle_witness :
  exists st',
    HandlerOps.UpdateLogisticRequestStatus 1 "shipped" Sample.with_completed
    = (Ok (HandlerOps.NewStatus 200
             "Статус логистической заявки успешно обновлен" 1 "shipped"),
       st')
    /\ find (fun r => LogisticRequest.ID r =? 1) (requests st')
       = Some (RepositoryOps.with_Status "shipped" Sample.completed_request)
    /\ exists e,
         @Repository.CompleteLogisticRequest Sample.calc 1 StatusCompleted 2 50
           st' = (Err e, st').
Proof.
  destruct (@UpdateLogisticRequestStatus_leaves_lifecycle Sample.calc 1
              "shipped" Sample.with_completed Sample.completed_request)
    as (st' & Hrun & Hfind & _ & _ & Hcomplete & _).
  - reflexivity.
  - cbn. auto.
  - exists st'. split; [exact Hrun|]. split; [exact Hfind|].
    exact (Hcomplete StatusCompleted 2 50).
Defined.

(** X13 on the example data.
    The line item of the completed request is removed all the same, as it
    is from a database without any request. *)
Lemma line_item_calls_ignore_requests_witness :
  fst (Repository.RemoveServiceFromLogisticRequest 1 1 Sample.with_completed)
  = Ok tt
  /\ lines (after (Repository.UpdateLogisticRequestService 1 1 5 2 "срочно")
                  Sample.with_completed)
     = [LogisticRequestService.mk 1 1 1 5 2 "срочно"].
Proof.
  destruct (line_item_calls_ignore_requests 1 1 5 2 "срочно"
              Sample.with_completed
              (mkStore [] [] [LogisticRequestService.mk 1 1 1 1 0 ""] 1 2)
              eq_refl) as (Hremove & _ & _ & Hupdate).
  split; [rewrite Hremove | rewrite Hupdate]; reflexivity.
Defined.

(** X15 on the example data.
    The truck added three times to the request of the example costs at
    completion what it costs added once. *)
Lemma completion_totals_ignore_quantity_witness :
  let thrice :=
    mkStore [Sample.fura; Sample.avia] [Sample.completed_request]
            [LogisticRequestService.mk 1 1 1 3 0 ""] 2 2 in
  @Repository.recompute_totals Sample.calc Sample.completed_request
    (Repository.loaded_services thrice Sample.completed_request)
  = @Repository.recompute_totals Sample.calc Sample.completed_request
      (Repository.loaded_services Sample.with_completed
         Sample.completed_request).
Proof.
  intros thrice.
  apply (@completion_totals_ignore_quantity Sample.calc thrice
           Sample.with_completed Sample.completed_request);
    reflexivity.
Defined.



(** X21 on the example data.
    The request user 7 created from the example's items is the draft the
    guest session gets, and the user's cart with its two items. *)
Lemma created_request_is_a_cart_witness :
  @Repository.ensureGuestDraftLogisticRequest Sample.sys "guest" Sample.created
  = (Ok 1, Sample.created)
  /\ exists n,
       Repository.GetCartIcon 7 Sample.created = (Ok (1, n), Sample.created)
       /\ 2 <= n.
Proof.
  destruct (@created_request_is_a_cart Sample.calc Sample.sys Sample.items 7
              Sample.store0 Sample.created 1) as [Hguest Hcart].
  - vm_compute. reflexivity.
  - constructor.
  - split; [apply Hguest; reflexivity | apply Hcart; reflexivity].
Defined.

(** The handlers on the example data: a body that names a city and one
    positive number changes those two fields of the draft; "formed" is no
    status the status handler takes; the guest's counter goes from 1 to 2
    on the same service; the names of delivery types are matched as
    written. *)
Example handlers_on_the_example :
  fst (HandlerOps.UpdateLogisticRequest 1
         (HandlerOps.mkCargoBody "" "Сочи" 0 2 (-1) 0) Sample.with_draft)
  = Ok (HandlerOps.Request 200
          (LogisticRequest.mk 1 "" true "" "Сочи" 0 2 0 0 0 0 "draft" 7
             None None None None))
  /\ fst (HandlerOps.UpdateLogisticRequestStatus 1 "formed" Sample.with_draft)
     = Ok (HandlerOps.Fail 400
             "invalid status. allowed: pending, processing, shipped, delivered, cancelled")
  /\ fst (@HandlerOps.AddTransportServiceToDraftLogisticRequest Sample.sys 1
            (snd (@HandlerOps.AddTransportServiceToDraftLogisticRequest
                    Sample.sys 1 Sample.store0)))
     = Ok (HandlerOps.Count 200 2
             "Транспортная услуга добавлена в черновик заявки")
  /\ fst (@HandlerOps.CreateCargoLogisticRequest Sample.calc 7 Sample.items
            Sample.store0)
     = Ok (HandlerOps.Created 201 "Логистическая заявка успешно оформлена" 1 7)
  /\ fst (HandlerOps.ClearUserDraftLogisticRequest 7 Sample.created)
     = Ok (HandlerOps.Icon 200 1 0)
  /\ fst (RepositoryOps.GetTransportServiceByDeliveryType "avia" Sample.store0)
     = Ok Sample.avia
  /\ fst (RepositoryOps.GetTransportServiceByDeliveryType "Avia" Sample.store0)
     = Err "тип доставки не найден"
  /\ fst (RepositoryOps.GetTransportServiceByDeliveryType "poezd" Sample.store0)
     = Err "услуга не найдена".
Proof. vm_compute. repeat split; reflexivity. Qed.

(** X4 on the example data.
    Saint Petersburg and its alias, in capitals and with blanks around, are
    two such names, and the distance between them is 0 by the second case. *)
Lemma calculateDistance_zero_iff_witness :
  Go.latin_cyrillic " Санкт-Петербург" = true
  /\ Go.latin_cyrillic "СПБ " = true
  /\ (Handler.calculateDistance " Санкт-Петербург" "СПБ " = 0%float
      <-> Go.ToLower (Go.TrimSpace " Санкт-Петербург")
          = Go.ToLower (Go.TrimSpace "СПБ ")
          \/ (Go.ToLower (Go.TrimSpace " Санкт-Петербург") = "санкт-петербург"
              /\ Go.ToLower (Go.TrimSpace "СПБ ") = "спб")).
Proof.
  split; [vm_compute; reflexivity|]. split; [vm_compute; reflexivity|].
  apply (calculateDistance_zero_iff " Санкт-Петербург" "СПБ ");
    vm_compute; reflexivity.
Defined.

Example latin_cyrillic_examples :
  map Go.latin_cyrillic
      [ "Нижний Новгород"; "Saint-Petersburg 2"; "ÉVRY";
        String (ascii_of_N 208) EmptyString;
        String (ascii_of_N 194) (String (ascii_of_N 160) "москва") ]
  = [true; true; false; false; false].
Proof. vm_compute. reflexivity. Qed.
